(** * terraform-provider-anthropic: the Admin API client and the lifecycle adapters

    A shallow embedding of [internal/client/client.go] and of the resource,
    data-source and provider handlers of [internal/provider], followed by the
    properties of the specification that were checked against them.

    Conventions of the embedding
    - a Go [string] is a [string]; a Go [int] is a [Z];
    - a Go [error] is an [option string]: [None] is [nil], [Some m] is an error
      whose [Error()] text is [m]; [fmt.Errorf(".. %w", err)] and
      [fmt.Sprintf(".. %s", err)] both splice that text;
    - [types.String] of the plugin framework is the three-state [tfString];
      its diagnostics are a list to which [AddError] appends;
    - the remote API is reached through one operation, the HTTP round trip, which
      is a parameter ([HTTPTransport]); every request that could be created
      and was handed to the HTTP client is appended to a trace, so that the
      calls an operation issues can be counted;
    - [json.Marshal] of the request structs is written out from their field tags;
      [json.Unmarshal] of a response body is a parameter ([Unmarshal]). *)

From Stdlib Require Import String Ascii List ZArith Lia Bool DecimalString.
Import ListNotations.
Local Open Scope list_scope.
Local Open Scope string_scope.

Set Implicit Arguments.

(* ====================================================================== *)
(** ** Go basics *)

Definition error := option string.

(** [fmt.Sprintf("%d", n)] *)
Definition itoa (n : Z) : string := NilZero.string_of_int (Z.to_int n).

(** [strings.Split(s, sep)] for a separator of one byte. *)
Fixpoint Split (s : string) (sep : ascii) : list string :=
  match s with
  | EmptyString => [EmptyString]
  | String a rest =>
      if Ascii.eqb a sep then EmptyString :: Split rest sep
      else match Split rest sep with
           | hd :: tl => String a hd :: tl
           | [] => [String a EmptyString]
           end
  end.

(** Number of occurrences of a byte in a string. *)
Fixpoint Count (s : string) (c : ascii) : nat :=
  match s with
  | EmptyString => 0
  | String a rest => (if Ascii.eqb a c then 1 else 0) + Count rest c
  end.

Definition slash : ascii := "/"%char.

(* ====================================================================== *)
(** ** JSON request bodies

    The request structs only hold strings, so an encoded body is an object
    whose members are strings, in the order of the struct's fields. *)

Definition JSON : Type := list (string * string).

(** A field tagged [json:"k"]. *)
Definition field (k v : string) : JSON := [(k, v)].

(** A field tagged [json:"k,omitempty"]: left out when it is the empty string. *)
Definition field_omitempty (k v : string) : JSON :=
  if String.eqb v "" then [] else [(k, v)].

Class Marshal (B : Type) := { marshal : B -> JSON }.

(** Whether an encoded body has a member of the given name. *)
Definition has_member (k : string) (j : JSON) : bool :=
  existsb (fun m => String.eqb (fst m) k) j.

(** [json.Unmarshal(data, &v)]: the value stored in [v] and the error. *)
Class Unmarshal (T : Type) := { unmarshal : string -> T -> T * error }.

(** Go zero values. *)
Class Zero (T : Type) := { zero : T }.

(* ====================================================================== *)
(** ** The HTTP stack and the world *)

Record Request := {
  Method : string;
  URL    : string;
  Header : list (string * string);
  Body   : option JSON
}.

(** What [http.NewRequestWithContext], [HTTPClient.Do] and [io.ReadAll] can
    come back with: an error of one of the three steps, or a status code with
    the bytes of the body. *)
Inductive HTTPResult : Type :=
| NewRequestError (msg : string)
| DoError (msg : string)
| ReadAllError (msg : string)
| HTTPResponse (StatusCode : Z) (respBody : string).

Class HTTPTransport := {
  Remote : Type;
  roundTrip : Remote -> Request -> HTTPResult * Remote
}.

Section Monad.
Context {HT : HTTPTransport}.

Record World := { remote : Remote; trace : list Request }.

Definition M (A : Type) : Type := World -> A * World.

Definition ret {A} (a : A) : M A := fun w => (a, w).

Definition bind {A B} (m : M A) (k : A -> M B) : M B :=
  fun w => let (a, w') := m w in k a w'.

(** The three steps of [doRequest] on the HTTP stack. When
    [http.NewRequestWithContext] fails there is no request yet: nothing is
    handed to [HTTPClient.Do], nothing reaches the remote and nothing is
    recorded. Otherwise the request goes to [HTTPClient.Do] and is recorded,
    whatever [Do] and [io.ReadAll] come back with. *)
Definition send (req : Request) : M HTTPResult :=
  fun w =>
    let (res, r') := roundTrip (remote w) req in
    match res with
    | NewRequestError _ => (res, w)
    | _ => (res, {| remote := r'; trace := (trace w ++ [req])%list |})
    end.

End Monad.

Declare Scope go_scope.
Delimit Scope go_scope with go.
Notation "x <- m ;; k" := (bind m (fun x => k))
  (at level 61, m at next level, right associativity) : go_scope.
Notation "' pat <- m ;; k" := (bind m (fun x => match x with pat => k end))
  (at level 61, pat pattern, m at next level, right associativity) : go_scope.
Local Open Scope go_scope.

(* ====================================================================== *)
(** ** internal/client/client.go *)

Definition DefaultBaseURL : string := "https://api.anthropic.com".
Definition DefaultAPIVersion : string := "2023-06-01".

Definition MethodGet : string := "GET".
Definition MethodPost : string := "POST".
Definition MethodDelete : string := "DELETE".

Record Client := {
  BaseURL    : string;
  AdminKey   : string;
  APIVersion : string;
  Timeout    : Z  (* HTTPClient.Timeout, in seconds *)
}.

Definition NewClient (adminKey : string) : Client :=
  {| BaseURL := DefaultBaseURL;
     AdminKey := adminKey;
     APIVersion := DefaultAPIVersion;
     Timeout := 30 |}.

Definition WithBaseURL (c : Client) (baseURL : string) : Client :=
  {| BaseURL := baseURL;
     AdminKey := AdminKey c;
     APIVersion := APIVersion c;
     Timeout := Timeout c |}.

Record APIErrorInner := { InnerType : string; InnerMessage : string }.

Record APIError := {
  ErrType    : string;
  ErrMessage : string;
  ErrError   : APIErrorInner
}.

#[export] Instance Zero_APIError : Zero APIError :=
  {| zero := {| ErrType := ""; ErrMessage := "";
                ErrError := {| InnerType := ""; InnerMessage := "" |} |} |}.

Definition APIError_String (e : APIError) : string :=
  if negb (String.eqb (InnerMessage (ErrError e)) "") then
    InnerType (ErrError e) ++ ": " ++ InnerMessage (ErrError e)
  else
    ErrType e ++ ": " ++ ErrMessage e.

(** The [nil] body and the [nil] result of [doRequest]. *)
Inductive NoBody : Type := .
Inductive NoResult : Type := .

#[export] Instance Marshal_NoBody : Marshal NoBody :=
  {| marshal := fun b : NoBody => match b with end |}.
#[export] Instance Unmarshal_NoResult : Unmarshal NoResult :=
  {| unmarshal := fun _ (r : NoResult) => match r with end |}.

(** The request [doRequest] builds: the URL is the base URL followed by the
    path, and the three fixed headers are set. *)
Definition newRequest (c : Client) (method path : string) (body : option JSON)
  : Request :=
  {| Method := method;
     URL := BaseURL c ++ path;
     Header := [("x-api-key", AdminKey c);
                ("anthropic-version", APIVersion c);
                ("Content-Type", "application/json")];
     Body := body |}.

Section Transport.
Context {HT : HTTPTransport} {UE : Unmarshal APIError}.

(** [fmt.Errorf("API error (status %d): %s", code, text)] *)
Definition apiErrorf (code : Z) (text : string) : string :=
  "API error (status " ++ itoa code ++ "): " ++ text.

(** [doRequest]: [body] and [result] are [None] where the Go caller passes
    [nil]; the function gives back what [result] points to afterwards, and
    the error. [req] is the request the function sets out to build; [send]
    hands it over only when it could be created, so the first case below
    returns with no request issued. *)
Definition doRequest {B T : Type} `{Marshal B} `{Unmarshal T}
    (c : Client) (method path : string) (body : option B) (result : option T)
  : M (option T * error) :=
  let req := newRequest c method path (option_map marshal body) in
  res <- send req ;;
  match res with
  | NewRequestError msg => ret (result, Some ("failed to create request: " ++ msg))
  | DoError msg => ret (result, Some ("request failed: " ++ msg))
  | ReadAllError msg => ret (result, Some ("failed to read response body: " ++ msg))
  | HTTPResponse code respBody =>
      if (code >=? 400)%Z then
        let (apiErr, err) := unmarshal respBody (zero : APIError) in
        match err with
        | Some _ => ret (result, Some (apiErrorf code respBody))
        | None => ret (result, Some (apiErrorf code (APIError_String apiErr)))
        end
      else
        match result with
        | Some r =>
            if (0 <? String.length respBody)%nat then
              let (r', err) := unmarshal respBody r in
              match err with
              | Some e => ret (Some r', Some ("failed to unmarshal response: " ++ e))
              | None => ret (Some r', None)
              end
            else ret (result, None)
        | None => ret (result, None)
        end
  end.

End Transport.

(** What a result pointer points to once the call is over. *)
Definition deref {T} `{Zero T} (p : option T) : T :=
  match p with Some v => v | None => zero end.

(** The query string of the List operations: the parameters collected in
    [params] are joined with [&] behind a [?]. *)
Fixpoint appendParams (path : string) (i : nat) (params : list string) : string :=
  match params with
  | [] => path
  | p :: rest =>
      appendParams ((if (0 <? i)%nat then path ++ "&" else path) ++ p) (S i) rest
  end.

Definition withParams (path : string) (params : list string) : string :=
  if (0 <? List.length params)%nat then appendParams (path ++ "?") 0 params
  else path.

(** [if cond { params = append(params, p) }] *)
Definition appendIf (cond : bool) (p : string) (params : list string) : list string :=
  if cond then (params ++ [p])%list else params.

Definition nonEmpty (s : string) : bool := negb (String.eqb s "").

Record ListResponse (T : Type) := {
  Data    : list T;
  HasMore : bool;
  FirstID : option string;
  LastID  : option string
}.
Arguments Data {T} _.
Arguments HasMore {T} _.
Arguments FirstID {T} _.
Arguments LastID {T} _.

#[export] Instance Zero_ListResponse {T} : Zero (ListResponse T) :=
  {| zero := {| Data := []; HasMore := false; FirstID := None; LastID := None |} |}.

(** *** Workspace operations *)

Record Workspace := {
  WsID          : string;
  WsType        : string;
  WsName        : string;
  WsCreatedAt   : string;
  WsArchivedAt  : string;
  WsDisplayName : string
}.

#[export] Instance Zero_Workspace : Zero Workspace :=
  {| zero := {| WsID := ""; WsType := ""; WsName := ""; WsCreatedAt := "";
                WsArchivedAt := ""; WsDisplayName := "" |} |}.

Record CreateWorkspaceRequest := { CwName : string }.
Record UpdateWorkspaceRequest := { UwName : string }.

#[export] Instance Marshal_CreateWorkspaceRequest : Marshal CreateWorkspaceRequest :=
  {| marshal := fun r => field "name" (CwName r) |}.
#[export] Instance Marshal_UpdateWorkspaceRequest : Marshal UpdateWorkspaceRequest :=
  {| marshal := fun r => field "name" (UwName r) |}.

(** *** API key operations *)

Record Actor := { ActorID : string; ActorType : string }.

Record APIKey := {
  KeyID          : string;
  KeyType        : string;
  KeyName        : string;
  KeyHint        : string;
  KeyCreatedAt   : string;
  KeyCreatedBy   : option Actor;
  KeyStatus      : string;
  KeyWorkspaceID : string;
  KeyKey         : string   (* only returned on creation *)
}.

#[export] Instance Zero_APIKey : Zero APIKey :=
  {| zero := {| KeyID := ""; KeyType := ""; KeyName := ""; KeyHint := "";
                KeyCreatedAt := ""; KeyCreatedBy := None; KeyStatus := "";
                KeyWorkspaceID := ""; KeyKey := "" |} |}.

Record CreateAPIKeyRequest := { CkName : string; CkWorkspaceID : string }.
Record UpdateAPIKeyRequest := { UkName : string; UkStatus : string }.

#[export] Instance Marshal_CreateAPIKeyRequest : Marshal CreateAPIKeyRequest :=
  {| marshal := fun r =>
       (field "name" (CkName r)
        ++ field_omitempty "workspace_id" (CkWorkspaceID r))%list |}.
#[export] Instance Marshal_UpdateAPIKeyRequest : Marshal UpdateAPIKeyRequest :=
  {| marshal := fun r =>
       (field_omitempty "name" (UkName r)
        ++ field_omitempty "status" (UkStatus r))%list |}.

(** *** Workspace member operations *)

Record WorkspaceMember := {
  MemUserID        : string;
  MemWorkspaceID   : string;
  MemWorkspaceRole : string;
  MemType          : string
}.

#[export] Instance Zero_WorkspaceMember : Zero WorkspaceMember :=
  {| zero := {| MemUserID := ""; MemWorkspaceID := ""; MemWorkspaceRole := "";
                MemType := "" |} |}.

Record AddWorkspaceMemberRequest := { AmUserID : string; AmWorkspaceRole : string }.
Record UpdateWorkspaceMemberRequest := { UmWorkspaceRole : string }.

#[export] Instance Marshal_AddWorkspaceMemberRequest : Marshal AddWorkspaceMemberRequest :=
  {| marshal := fun r =>
       (field "user_id" (AmUserID r)
        ++ field "workspace_role" (AmWorkspaceRole r))%list |}.
#[export] Instance Marshal_UpdateWorkspaceMemberRequest :
  Marshal UpdateWorkspaceMemberRequest :=
  {| marshal := fun r => field "workspace_role" (UmWorkspaceRole r) |}.

(** *** Invite operations *)

Record Invite := {
  InvID           : string;
  InvType         : string;
  InvEmail        : string;
  InvRole         : string;
  InvStatus       : string;
  InvCreatedAt    : string;
  InvExpiresAt    : string;
  InvInviterID    : string;
  InvWorkspaceIDs : list string
}.

#[export] Instance Zero_Invite : Zero Invite :=
  {| zero := {| InvID := ""; InvType := ""; InvEmail := ""; InvRole := "";
                InvStatus := ""; InvCreatedAt := ""; InvExpiresAt := "";
                InvInviterID := ""; InvWorkspaceIDs := [] |} |}.

Record CreateInviteRequest := { CiEmail : string; CiRole : string }.

#[export] Instance Marshal_CreateInviteRequest : Marshal CreateInviteRequest :=
  {| marshal := fun r =>
       (field "email" (CiEmail r) ++ field "role" (CiRole r))%list |}.

Section Operations.
Context {HT : HTTPTransport} {UE : Unmarshal APIError}.
Context {UW : Unmarshal Workspace} {UK : Unmarshal APIKey}
        {UM : Unmarshal WorkspaceMember} {UI : Unmarshal Invite}
        {ULW : Unmarshal (ListResponse Workspace)}
        {ULK : Unmarshal (ListResponse APIKey)}.

Definition listWorkspacesPath (limit : Z) (beforeID afterID : string) : string :=
  let params := [] in
  let params := appendIf (0 <? limit)%Z ("limit=" ++ itoa limit) params in
  let params := appendIf (nonEmpty beforeID) ("before_id=" ++ beforeID) params in
  let params := appendIf (nonEmpty afterID) ("after_id=" ++ afterID) params in
  withParams "/v1/organizations/workspaces" params.

Definition ListWorkspaces (c : Client) (limit : Z) (beforeID afterID : string)
  : M (ListResponse Workspace * error) :=
  '(result, err) <- doRequest c MethodGet (listWorkspacesPath limit beforeID afterID)
                      (@None NoBody) (Some zero) ;;
  ret (deref result, err).

Definition GetWorkspace (c : Client) (workspaceID : string) : M (Workspace * error) :=
  '(workspace, err) <- doRequest c MethodGet
                         ("/v1/organizations/workspaces/" ++ workspaceID)
                         (@None NoBody) (Some zero) ;;
  ret (deref workspace, err).

Definition CreateWorkspace (c : Client) (req : CreateWorkspaceRequest)
  : M (Workspace * error) :=
  '(workspace, err) <- doRequest c MethodPost "/v1/organizations/workspaces"
                         (Some req) (Some zero) ;;
  ret (deref workspace, err).

Definition UpdateWorkspace (c : Client) (workspaceID : string)
    (req : UpdateWorkspaceRequest) : M (Workspace * error) :=
  '(workspace, err) <- doRequest c MethodPost
                         ("/v1/organizations/workspaces/" ++ workspaceID)
                         (Some req) (Some zero) ;;
  ret (deref workspace, err).

Definition ArchiveWorkspace (c : Client) (workspaceID : string)
  : M (Workspace * error) :=
  '(workspace, err) <- doRequest c MethodPost
                         ("/v1/organizations/workspaces/" ++ workspaceID ++ "/archive")
                         (@None NoBody) (Some zero) ;;
  ret (deref workspace, err).

Definition listAPIKeysPath (limit : Z) (beforeID afterID status workspaceID : string)
  : string :=
  let params := [] in
  let params := appendIf (0 <? limit)%Z ("limit=" ++ itoa limit) params in
  let params := appendIf (nonEmpty beforeID) ("before_id=" ++ beforeID) params in
  let params := appendIf (nonEmpty afterID) ("after_id=" ++ afterID) params in
  let params := appendIf (nonEmpty status) ("status=" ++ status) params in
  let params := appendIf (nonEmpty workspaceID) ("workspace_id=" ++ workspaceID) params in
  withParams "/v1/organizations/api_keys" params.

Definition ListAPIKeys (c : Client) (limit : Z)
    (beforeID afterID status workspaceID : string)
  : M (ListResponse APIKey * error) :=
  '(result, err) <- doRequest c MethodGet
                      (listAPIKeysPath limit beforeID afterID status workspaceID)
                      (@None NoBody) (Some zero) ;;
  ret (deref result, err).

Definition GetAPIKey (c : Client) (apiKeyID : string) : M (APIKey * error) :=
  '(apiKey, err) <- doRequest c MethodGet ("/v1/organizations/api_keys/" ++ apiKeyID)
                      (@None NoBody) (Some zero) ;;
  ret (deref apiKey, err).

Definition CreateAPIKey (c : Client) (req : CreateAPIKeyRequest) : M (APIKey * error) :=
  '(apiKey, err) <- doRequest c MethodPost "/v1/organizations/api_keys"
                      (Some req) (Some zero) ;;
  ret (deref apiKey, err).

Definition UpdateAPIKey (c : Client) (apiKeyID : string) (req : UpdateAPIKeyRequest)
  : M (APIKey * error) :=
  '(apiKey, err) <- doRequest c MethodPost ("/v1/organizations/api_keys/" ++ apiKeyID)
                      (Some req) (Some zero) ;;
  ret (deref apiKey, err).

(** Archive the key by setting status to archived. *)
Definition DeleteAPIKey (c : Client) (apiKeyID : string) : M error :=
  '(_, err) <- UpdateAPIKey c apiKeyID {| UkName := ""; UkStatus := "archived" |} ;;
  ret err.

Definition memberPath (workspaceID userID : string) : string :=
  "/v1/organizations/workspaces/" ++ workspaceID ++ "/members/" ++ userID.

Definition GetWorkspaceMember (c : Client) (workspaceID userID : string)
  : M (WorkspaceMember * error) :=
  '(member, err) <- doRequest c MethodGet (memberPath workspaceID userID)
                      (@None NoBody) (Some zero) ;;
  ret (deref member, err).

Definition AddWorkspaceMember (c : Client) (workspaceID : string)
    (req : AddWorkspaceMemberRequest) : M (WorkspaceMember * error) :=
  '(member, err) <- doRequest c MethodPost
                      ("/v1/organizations/workspaces/" ++ workspaceID ++ "/members")
                      (Some req) (Some zero) ;;
  ret (deref member, err).

Definition UpdateWorkspaceMember (c : Client) (workspaceID userID : string)
    (req : UpdateWorkspaceMemberRequest) : M (WorkspaceMember * error) :=
  '(member, err) <- doRequest c MethodPost (memberPath workspaceID userID)
                      (Some req) (Some zero) ;;
  ret (deref member, err).

Definition RemoveWorkspaceMember (c : Client) (workspaceID userID : string) : M error :=
  '(_, err) <- doRequest c MethodDelete (memberPath workspaceID userID)
                 (@None NoBody) (@None NoResult) ;;
  ret err.

Definition GetInvite (c : Client) (inviteID : string) : M (Invite * error) :=
  '(invite, err) <- doRequest c MethodGet ("/v1/organizations/invites/" ++ inviteID)
                      (@None NoBody) (Some zero) ;;
  ret (deref invite, err).

Definition CreateInvite (c : Client) (req : CreateInviteRequest) : M (Invite * error) :=
  '(invite, err) <- doRequest c MethodPost "/v1/organizations/invites"
                      (Some req) (Some zero) ;;
  ret (deref invite, err).

Definition DeleteInvite (c : Client) (inviteID : string) : M error :=
  '(_, err) <- doRequest c MethodDelete ("/v1/organizations/invites/" ++ inviteID)
                 (@None NoBody) (@None NoResult) ;;
  ret err.

End Operations.

(* ====================================================================== *)
(** ** The plugin framework, as far as the handlers use it *)

(** [types.String]: null, unknown, or a known value. *)
Inductive tfString : Type :=
| StringNull
| StringUnknown
| StringValue (s : string).

Definition ValueString (v : tfString) : string :=
  match v with StringValue s => s | _ => "" end.

Definition IsNull (v : tfString) : bool :=
  match v with StringNull => true | _ => false end.

Definition Equal (a b : tfString) : bool :=
  match a, b with
  | StringNull, StringNull => true
  | StringUnknown, StringUnknown => true
  | StringValue x, StringValue y => String.eqb x y
  | _, _ => false
  end.

Inductive Severity : Type := SeverityError | SeverityWarning.

Record Diagnostic := {
  DiagSeverity : Severity;
  Summary      : string;
  Detail       : string
}.

Definition Diagnostics : Type := list Diagnostic.

Definition isError (d : Diagnostic) : bool :=
  match DiagSeverity d with SeverityError => true | SeverityWarning => false end.

Definition HasError (ds : Diagnostics) : bool := existsb isError ds.

Definition ErrorDiagnostic (summary detail : string) : Diagnostic :=
  {| DiagSeverity := SeverityError; Summary := summary; Detail := detail |}.

Definition Severity_eqb (a b : Severity) : bool :=
  match a, b with
  | SeverityError, SeverityError => true
  | SeverityWarning, SeverityWarning => true
  | _, _ => false
  end.

Definition Diagnostic_eqb (a b : Diagnostic) : bool :=
  Severity_eqb (DiagSeverity a) (DiagSeverity b)
  && String.eqb (Summary a) (Summary b)
  && String.eqb (Detail a) (Detail b).

Definition Contains (ds : Diagnostics) (d : Diagnostic) : bool :=
  existsb (Diagnostic_eqb d) ds.

(** [diags.Append(d)]: a diagnostic that is already there is not added again. *)
Definition Append (ds : Diagnostics) (d : Diagnostic) : Diagnostics :=
  if Contains ds d then ds else (ds ++ [d])%list.

(** The response of a lifecycle call: the state the framework will store
    (it starts out as the prior state, [None] where there is none) and the
    diagnostics reported so far. The request carries the plan, the state or
    the configuration already as a value of the model struct, so that
    [req.Plan.Get], [req.State.Get] and [req.Config.Get] copy it out and add
    no diagnostic. *)
Record Response (S : Type) := {
  State : option S;
  Diags : Diagnostics
}.
Arguments State {S} _.
Arguments Diags {S} _.

(** [resp.Diagnostics.AddError(summary, detail)] *)
Definition AddError {S} (resp : Response S) (summary detail : string) : Response S :=
  {| State := State resp;
     Diags := Append (Diags resp) (ErrorDiagnostic summary detail) |}.

(** [resp.State.Set(ctx, &data)] *)
Definition StateSet {S} (resp : Response S) (data : S) : Response S :=
  {| State := Some data; Diags := Diags resp |}.

Record CreateRequest (S : Type) := { CreatePlan : S }.
Record ReadRequest (S : Type) := { ReadState : S }.
Record UpdateRequest (S : Type) := { UpdatePlan : S; UpdateState : S }.
Record DeleteRequest (S : Type) := { DeleteState : S }.
Record ImportStateRequest := { ImportID : string }.
Arguments CreatePlan {S} _.
Arguments ReadState {S} _.
Arguments UpdatePlan {S} _.
Arguments UpdateState {S} _.
Arguments DeleteState {S} _.

(** A string that is a value when non-empty and null otherwise. *)
Definition valueOrNull (s : string) : tfString :=
  if nonEmpty s then StringValue s else StringNull.

(* ====================================================================== *)
(** ** internal/provider/workspace_resource.go *)

Module WorkspaceResource.

Record Model := {
  ID          : tfString;
  Name        : tfString;
  DisplayName : tfString;
  CreatedAt   : tfString;
  ArchivedAt  : tfString
}.

Section Handlers.
Context {HT : HTTPTransport} {UE : Unmarshal APIError} {UW : Unmarshal Workspace}.

Definition Create (r : Client) (req : CreateRequest Model) (resp : Response Model)
  : M (Response Model) :=
  let data := CreatePlan req in
  if HasError (Diags resp) then ret resp else
  '(workspace, err) <- CreateWorkspace r {| CwName := ValueString (Name data) |} ;;
  match err with
  | Some e => ret (AddError resp "Client Error" ("Unable to create workspace: " ++ e))
  | None =>
      ret (StateSet resp
             {| ID := StringValue (WsID workspace);
                Name := StringValue (WsName workspace);
                DisplayName := StringValue (WsDisplayName workspace);
                CreatedAt := StringValue (WsCreatedAt workspace);
                ArchivedAt := valueOrNull (WsArchivedAt workspace) |})
  end.

Definition Read (r : Client) (req : ReadRequest Model) (resp : Response Model)
  : M (Response Model) :=
  let data := ReadState req in
  if HasError (Diags resp) then ret resp else
  '(workspace, err) <- GetWorkspace r (ValueString (ID data)) ;;
  match err with
  | Some e => ret (AddError resp "Client Error" ("Unable to read workspace: " ++ e))
  | None =>
      ret (StateSet resp
             {| ID := ID data;
                Name := StringValue (WsName workspace);
                DisplayName := StringValue (WsDisplayName workspace);
                CreatedAt := StringValue (WsCreatedAt workspace);
                ArchivedAt := valueOrNull (WsArchivedAt workspace) |})
  end.

Definition Update (r : Client) (req : UpdateRequest Model) (resp : Response Model)
  : M (Response Model) :=
  let data := UpdatePlan req in
  if HasError (Diags resp) then ret resp else
  '(workspace, err) <- UpdateWorkspace r (ValueString (ID data))
                         {| UwName := ValueString (Name data) |} ;;
  match err with
  | Some e => ret (AddError resp "Client Error" ("Unable to update workspace: " ++ e))
  | None =>
      ret (StateSet resp
             {| ID := ID data;
                Name := StringValue (WsName workspace);
                DisplayName := StringValue (WsDisplayName workspace);
                CreatedAt := CreatedAt data;
                ArchivedAt := valueOrNull (WsArchivedAt workspace) |})
  end.

(** Archive the workspace instead of deleting. *)
Definition Delete (r : Client) (req : DeleteRequest Model) (resp : Response Model)
  : M (Response Model) :=
  let data := DeleteState req in
  if HasError (Diags resp) then ret resp else
  '(_, err) <- ArchiveWorkspace r (ValueString (ID data)) ;;
  match err with
  | Some e => ret (AddError resp "Client Error" ("Unable to archive workspace: " ++ e))
  | None => ret resp
  end.

End Handlers.
End WorkspaceResource.

(* ====================================================================== *)
(** ** internal/provider/api_key_resource.go *)

Module APIKeyResource.

Record Model := {
  ID          : tfString;
  Name        : tfString;
  WorkspaceID : tfString;
  Status      : tfString;
  Hint        : tfString;
  Key         : tfString;
  CreatedAt   : tfString
}.

Section Handlers.
Context {HT : HTTPTransport} {UE : Unmarshal APIError} {UK : Unmarshal APIKey}.

Definition Create (r : Client) (req : CreateRequest Model) (resp : Response Model)
  : M (Response Model) :=
  let data := CreatePlan req in
  if HasError (Diags resp) then ret resp else
  let createReq :=
    {| CkName := ValueString (Name data);
       CkWorkspaceID := if negb (IsNull (WorkspaceID data))
                        then ValueString (WorkspaceID data) else "" |} in
  '(apiKey, err) <- CreateAPIKey r createReq ;;
  match err with
  | Some e => ret (AddError resp "Client Error" ("Unable to create API key: " ++ e))
  | None =>
      ret (StateSet resp
             {| ID := StringValue (KeyID apiKey);
                Name := StringValue (KeyName apiKey);
                WorkspaceID := if nonEmpty (KeyWorkspaceID apiKey)
                               then StringValue (KeyWorkspaceID apiKey)
                               else WorkspaceID data;
                Status := StringValue (KeyStatus apiKey);
                Hint := StringValue (KeyHint apiKey);
                (* the key is only returned on creation *)
                Key := valueOrNull (KeyKey apiKey);
                CreatedAt := StringValue (KeyCreatedAt apiKey) |})
  end.

Definition Read (r : Client) (req : ReadRequest Model) (resp : Response Model)
  : M (Response Model) :=
  let data := ReadState req in
  if HasError (Diags resp) then ret resp else
  '(apiKey, err) <- GetAPIKey r (ValueString (ID data)) ;;
  match err with
  | Some e => ret (AddError resp "Client Error" ("Unable to read API key: " ++ e))
  | None =>
      ret (StateSet resp
             {| ID := ID data;
                Name := StringValue (KeyName apiKey);
                WorkspaceID := if nonEmpty (KeyWorkspaceID apiKey)
                               then StringValue (KeyWorkspaceID apiKey)
                               else WorkspaceID data;
                Status := StringValue (KeyStatus apiKey);
                Hint := StringValue (KeyHint apiKey);
                (* the key is not returned on read: it stays as in state *)
                Key := Key data;
                CreatedAt := StringValue (KeyCreatedAt apiKey) |})
  end.

(** The request [Update] builds from the plan and the state. *)
Definition updateReq (data state : Model) : UpdateAPIKeyRequest :=
  {| UkName := if negb (Equal (Name data) (Name state))
               then ValueString (Name data) else "";
     UkStatus := if negb (Equal (Status data) (Status state))
                    && negb (IsNull (Status data))
                 then ValueString (Status data) else "" |}.

Definition Update (r : Client) (req : UpdateRequest Model) (resp : Response Model)
  : M (Response Model) :=
  let data := UpdatePlan req in
  let state := UpdateState req in
  if HasError (Diags resp) then ret resp else
  '(apiKey, err) <- UpdateAPIKey r (ValueString (ID data)) (updateReq data state) ;;
  match err with
  | Some e => ret (AddError resp "Client Error" ("Unable to update API key: " ++ e))
  | None =>
      ret (StateSet resp
             {| ID := ID data;
                Name := StringValue (KeyName apiKey);
                WorkspaceID := WorkspaceID data;
                Status := StringValue (KeyStatus apiKey);
                Hint := StringValue (KeyHint apiKey);
                (* preserve the key from state: it is not returned on update *)
                Key := Key state;
                CreatedAt := CreatedAt data |})
  end.

Definition Delete (r : Client) (req : DeleteRequest Model) (resp : Response Model)
  : M (Response Model) :=
  let data := DeleteState req in
  if HasError (Diags resp) then ret resp else
  err <- DeleteAPIKey r (ValueString (ID data)) ;;
  match err with
  | Some e => ret (AddError resp "Client Error" ("Unable to delete API key: " ++ e))
  | None => ret resp
  end.

End Handlers.
End APIKeyResource.

(* ====================================================================== *)
(** ** The workspace member resource *)

Module WorkspaceMemberResource.

Record Model := {
  ID            : tfString;
  WorkspaceID   : tfString;
  UserID        : tfString;
  WorkspaceRole : tfString
}.

(** The state an import starts from: every attribute null. *)
Definition nullModel : Model :=
  {| ID := StringNull; WorkspaceID := StringNull; UserID := StringNull;
     WorkspaceRole := StringNull |}.

Definition stateOf (resp : Response Model) : Model :=
  match State resp with Some m => m | None => nullModel end.

(** [resp.State.SetAttribute(ctx, path.Root(..), v)] for the three attributes
    that [ImportState] writes. *)
Definition SetAttribute_id (resp : Response Model) (v : string) : Response Model :=
  let m := stateOf resp in
  StateSet resp {| ID := StringValue v; WorkspaceID := WorkspaceID m;
                   UserID := UserID m; WorkspaceRole := WorkspaceRole m |}.

Definition SetAttribute_workspace_id (resp : Response Model) (v : string)
  : Response Model :=
  let m := stateOf resp in
  StateSet resp {| ID := ID m; WorkspaceID := StringValue v;
                   UserID := UserID m; WorkspaceRole := WorkspaceRole m |}.

Definition SetAttribute_user_id (resp : Response Model) (v : string) : Response Model :=
  let m := stateOf resp in
  StateSet resp {| ID := ID m; WorkspaceID := WorkspaceID m;
                   UserID := StringValue v; WorkspaceRole := WorkspaceRole m |}.

(** Import ID format: workspace_id/user_id *)
Definition ImportState (req : ImportStateRequest) (resp : Response Model)
  : Response Model :=
  let parts := Split (ImportID req) slash in
  if negb (List.length parts =? 2)%nat then
    AddError resp "Invalid Import ID"
      ("Expected import ID format: workspace_id/user_id, got: " ++ ImportID req)
  else
    let resp := SetAttribute_id resp (ImportID req) in
    let resp := SetAttribute_workspace_id resp (nth 0 parts "") in
    SetAttribute_user_id resp (nth 1 parts "").

Section Handlers.
Context {HT : HTTPTransport} {UE : Unmarshal APIError} {UM : Unmarshal WorkspaceMember}.

Definition Create (r : Client) (req : CreateRequest Model) (resp : Response Model)
  : M (Response Model) :=
  let data := CreatePlan req in
  if HasError (Diags resp) then ret resp else
  '(member, err) <- AddWorkspaceMember r (ValueString (WorkspaceID data))
                      {| AmUserID := ValueString (UserID data);
                         AmWorkspaceRole := ValueString (WorkspaceRole data) |} ;;
  match err with
  | Some e => ret (AddError resp "Client Error" ("Unable to add workspace member: " ++ e))
  | None =>
      ret (StateSet resp
             {| ID := StringValue (MemWorkspaceID member ++ "/" ++ MemUserID member);
                WorkspaceID := StringValue (MemWorkspaceID member);
                UserID := StringValue (MemUserID member);
                WorkspaceRole := StringValue (MemWorkspaceRole member) |})
  end.

Definition Read (r : Client) (req : ReadRequest Model) (resp : Response Model)
  : M (Response Model) :=
  let data := ReadState req in
  if HasError (Diags resp) then ret resp else
  '(member, err) <- GetWorkspaceMember r (ValueString (WorkspaceID data))
                      (ValueString (UserID data)) ;;
  match err with
  | Some e => ret (AddError resp "Client Error" ("Unable to read workspace member: " ++ e))
  | None =>
      ret (StateSet resp
             {| ID := ID data; WorkspaceID := WorkspaceID data; UserID := UserID data;
                WorkspaceRole := StringValue (MemWorkspaceRole member) |})
  end.

Definition Update (r : Client) (req : UpdateRequest Model) (resp : Response Model)
  : M (Response Model) :=
  let data := UpdatePlan req in
  if HasError (Diags resp) then ret resp else
  '(member, err) <- UpdateWorkspaceMember r (ValueString (WorkspaceID data))
                      (ValueString (UserID data))
                      {| UmWorkspaceRole := ValueString (WorkspaceRole data) |} ;;
  match err with
  | Some e =>
      ret (AddError resp "Client Error" ("Unable to update workspace member: " ++ e))
  | None =>
      ret (StateSet resp
             {| ID := ID data; WorkspaceID := WorkspaceID data; UserID := UserID data;
                WorkspaceRole := StringValue (MemWorkspaceRole member) |})
  end.

Definition Delete (r : Client) (req : DeleteRequest Model) (resp : Response Model)
  : M (Response Model) :=
  let data := DeleteState req in
  if HasError (Diags resp) then ret resp else
  err <- RemoveWorkspaceMember r (ValueString (WorkspaceID data))
           (ValueString (UserID data)) ;;
  match err with
  | Some e =>
      ret (AddError resp "Client Error" ("Unable to remove workspace member: " ++ e))
  | None => ret resp
  end.

End Handlers.
End WorkspaceMemberResource.

(* ====================================================================== *)
(** ** internal/provider/invite_resource.go *)

Module InviteResource.

Record Model := {
  ID        : tfString;
  Email     : tfString;
  Role      : tfString;
  Status    : tfString;
  CreatedAt : tfString;
  ExpiresAt : tfString;
  InviterID : tfString
}.

Section Handlers.
Context {HT : HTTPTransport} {UE : Unmarshal APIError} {UI : Unmarshal Invite}.

Definition Create (r : Client) (req : CreateRequest Model) (resp : Response Model)
  : M (Response Model) :=
  let data := CreatePlan req in
  if HasError (Diags resp) then ret resp else
  '(invite, err) <- CreateInvite r {| CiEmail := ValueString (Email data);
                                     CiRole := ValueString (Role data) |} ;;
  match err with
  | Some e => ret (AddError resp "Client Error" ("Unable to create invite: " ++ e))
  | None =>
      ret (StateSet resp
             {| ID := StringValue (InvID invite);
                Email := StringValue (InvEmail invite);
                Role := StringValue (InvRole invite);
                Status := StringValue (InvStatus invite);
                CreatedAt := StringValue (InvCreatedAt invite);
                ExpiresAt := StringValue (InvExpiresAt invite);
                InviterID := valueOrNull (InvInviterID invite) |})
  end.

Definition Read (r : Client) (req : ReadRequest Model) (resp : Response Model)
  : M (Response Model) :=
  let data := ReadState req in
  if HasError (Diags resp) then ret resp else
  '(invite, err) <- GetInvite r (ValueString (ID data)) ;;
  match err with
  | Some e => ret (AddError resp "Client Error" ("Unable to read invite: " ++ e))
  | None =>
      ret (StateSet resp
             {| ID := ID data;
                Email := StringValue (InvEmail invite);
                Role := StringValue (InvRole invite);
                Status := StringValue (InvStatus invite);
                CreatedAt := CreatedAt data;
                ExpiresAt := StringValue (InvExpiresAt invite);
                InviterID := if nonEmpty (InvInviterID invite)
                             then StringValue (InvInviterID invite)
                             else InviterID data |})
  end.

(** Invites cannot be updated, only created or deleted. *)
Definition Update (r : Client) (req : UpdateRequest Model) (resp : Response Model)
  : M (Response Model) :=
  ret (AddError resp "Update Not Supported"
         "Invites cannot be updated. Delete and recreate the invite with the new settings.").

Definition Delete (r : Client) (req : DeleteRequest Model) (resp : Response Model)
  : M (Response Model) :=
  let data := DeleteState req in
  if HasError (Diags resp) then ret resp else
  err <- DeleteInvite r (ValueString (ID data)) ;;
  match err with
  | Some e => ret (AddError resp "Client Error" ("Unable to delete invite: " ++ e))
  | None => ret resp
  end.

End Handlers.
End InviteResource.

(* ====================================================================== *)
(** ** The collection data sources

    The [for { ... }] loop that drains the pages has no bound in the source;
    here it runs on fuel, one unit per page, and gives [None] when the fuel
    is used up before the loop has left. *)

Definition isNil {A} (p : option A) : bool :=
  match p with None => true | Some _ => false end.

(** [*p] for a [*string] that is not nil. *)
Definition derefString (p : option string) : string :=
  match p with Some s => s | None => "" end.

Module WorkspacesDataSource.

Record WorkspaceModel := {
  ID          : tfString;
  Name        : tfString;
  DisplayName : tfString;
  CreatedAt   : tfString;
  ArchivedAt  : tfString
}.

Record Model := { Workspaces : list WorkspaceModel }.

Definition toModel (ws : Workspace) : WorkspaceModel :=
  {| ID := StringValue (WsID ws);
     Name := StringValue (WsName ws);
     DisplayName := StringValue (WsDisplayName ws);
     CreatedAt := StringValue (WsCreatedAt ws);
     ArchivedAt := valueOrNull (WsArchivedAt ws) |}.

Section Handlers.
Context {HT : HTTPTransport} {UE : Unmarshal APIError}
        {ULW : Unmarshal (ListResponse Workspace)}.

(** Fetch all workspaces with pagination. *)
Fixpoint fetchAll (fuel : nat) (d : Client) (allWorkspaces : list Workspace)
    (afterID : string) : M (option (list Workspace * error)) :=
  match fuel with
  | O => ret None
  | S fuel' =>
      '(workspaces, err) <- ListWorkspaces d 100 "" afterID ;;
      match err with
      | Some e => ret (Some (allWorkspaces, Some e))
      | None =>
          let allWorkspaces := (allWorkspaces ++ Data workspaces)%list in
          if negb (HasMore workspaces) || isNil (LastID workspaces)
          then ret (Some (allWorkspaces, None))
          else fetchAll fuel' d allWorkspaces (derefString (LastID workspaces))
      end
  end.

Definition Read (fuel : nat) (d : Client) (config : Model) (resp : Response Model)
  : M (option (Response Model)) :=
  if HasError (Diags resp) then ret (Some resp) else
  out <- fetchAll fuel d [] "" ;;
  match out with
  | None => ret None
  | Some (_, Some e) =>
      ret (Some (AddError resp "Client Error" ("Unable to list workspaces: " ++ e)))
  | Some (allWorkspaces, None) =>
      ret (Some (StateSet resp {| Workspaces := map toModel allWorkspaces |}))
  end.

End Handlers.
End WorkspacesDataSource.

(** ** internal/provider/api_keys_data_source.go *)

Module APIKeysDataSource.

Record APIKeyModel := {
  ID          : tfString;
  Name        : tfString;
  WorkspaceID : tfString;
  Status      : tfString;
  Hint        : tfString;
  CreatedAt   : tfString
}.

Record Model := {
  FilterWorkspaceID : tfString;
  FilterStatus      : tfString;
  APIKeys           : list APIKeyModel
}.

Definition toModel (key : APIKey) : APIKeyModel :=
  {| ID := StringValue (KeyID key);
     Name := StringValue (KeyName key);
     WorkspaceID := valueOrNull (KeyWorkspaceID key);
     Status := StringValue (KeyStatus key);
     Hint := StringValue (KeyHint key);
     CreatedAt := StringValue (KeyCreatedAt key) |}.

(** The filter values: the empty string when the attribute is null. *)
Definition filterValue (v : tfString) : string :=
  if negb (IsNull v) then ValueString v else "".

Section Handlers.
Context {HT : HTTPTransport} {UE : Unmarshal APIError}
        {ULK : Unmarshal (ListResponse APIKey)}.

(** Fetch all API keys with pagination. *)
Fixpoint fetchAll (fuel : nat) (d : Client) (status workspaceID : string)
    (allAPIKeys : list APIKey) (afterID : string)
  : M (option (list APIKey * error)) :=
  match fuel with
  | O => ret None
  | S fuel' =>
      '(apiKeys, err) <- ListAPIKeys d 100 "" afterID status workspaceID ;;
      match err with
      | Some e => ret (Some (allAPIKeys, Some e))
      | None =>
          let allAPIKeys := (allAPIKeys ++ Data apiKeys)%list in
          if negb (HasMore apiKeys) || isNil (LastID apiKeys)
          then ret (Some (allAPIKeys, None))
          else fetchAll fuel' d status workspaceID allAPIKeys
                 (derefString (LastID apiKeys))
      end
  end.

Definition Read (fuel : nat) (d : Client) (config : Model) (resp : Response Model)
  : M (option (Response Model)) :=
  let data := config in
  if HasError (Diags resp) then ret (Some resp) else
  let workspaceID := filterValue (FilterWorkspaceID data) in
  let status := filterValue (FilterStatus data) in
  out <- fetchAll fuel d status workspaceID [] "" ;;
  match out with
  | None => ret None
  | Some (_, Some e) =>
      ret (Some (AddError resp "Client Error" ("Unable to list API keys: " ++ e)))
  | Some (allAPIKeys, None) =>
      ret (Some (StateSet resp
                   {| FilterWorkspaceID := FilterWorkspaceID data;
                      FilterStatus := FilterStatus data;
                      APIKeys := map toModel allAPIKeys |}))
  end.

End Handlers.
End APIKeysDataSource.

(* ====================================================================== *)
(** ** internal/provider/provider.go *)

Module AnthropicProvider.

Record Model := {
  ConfigAdminKey : tfString;
  ConfigBaseURL  : tfString
}.

Record ConfigureResponse := {
  DataSourceData : option Client;
  ResourceData   : option Client;
  ConfigureDiags : Diagnostics
}.

(** [getenv] is [os.Getenv]: the empty string for a variable that is not set. *)
Definition Configure (getenv : string -> string) (config : Model)
    (resp : ConfigureResponse) : ConfigureResponse :=
  if HasError (ConfigureDiags resp) then resp else
  (* Get admin key from config or environment *)
  let adminKey := getenv "ANTHROPIC_ADMIN_KEY" in
  let adminKey := if negb (IsNull (ConfigAdminKey config))
                  then ValueString (ConfigAdminKey config) else adminKey in
  if String.eqb adminKey "" then
    {| DataSourceData := DataSourceData resp;
       ResourceData := ResourceData resp;
       ConfigureDiags :=
         Append (ConfigureDiags resp)
           (ErrorDiagnostic "Missing Admin Key"
              "The admin_key must be set in the provider configuration or via the ANTHROPIC_ADMIN_KEY environment variable.") |}
  else
  (* Get base URL from config or environment *)
  let baseURL := getenv "ANTHROPIC_BASE_URL" in
  let baseURL := if negb (IsNull (ConfigBaseURL config))
                 then ValueString (ConfigBaseURL config) else baseURL in
  let c := NewClient adminKey in
  let c := if negb (String.eqb baseURL "") then WithBaseURL c baseURL else c in
  {| DataSourceData := Some c;
     ResourceData := Some c;
     ConfigureDiags := ConfigureDiags resp |}.

End AnthropicProvider.

(* ====================================================================== *)
(** ** The remaining operations of the client *)

Record OrganizationMember := {
  OrgID    : string;
  OrgType  : string;
  OrgEmail : string;
  OrgName  : string;
  OrgRole  : string
}.

#[export] Instance Zero_OrganizationMember : Zero OrganizationMember :=
  {| zero := {| OrgID := ""; OrgType := ""; OrgEmail := ""; OrgName := "";
                OrgRole := "" |} |}.

Record UpdateOrganizationMemberRequest := { UoRole : string }.

#[export] Instance Marshal_UpdateOrganizationMemberRequest :
  Marshal UpdateOrganizationMemberRequest :=
  {| marshal := fun r => field "role" (UoRole r) |}.

Section MoreOperations.
Context {HT : HTTPTransport} {UE : Unmarshal APIError}.
Context {UO : Unmarshal OrganizationMember}
        {ULM : Unmarshal (ListResponse WorkspaceMember)}
        {ULO : Unmarshal (ListResponse OrganizationMember)}
        {ULI : Unmarshal (ListResponse Invite)}.

Definition listWorkspaceMembersPath (workspaceID : string) (limit : Z)
    (beforeID afterID : string) : string :=
  let params := [] in
  let params := appendIf (0 <? limit)%Z ("limit=" ++ itoa limit) params in
  let params := appendIf (nonEmpty beforeID) ("before_id=" ++ beforeID) params in
  let params := appendIf (nonEmpty afterID) ("after_id=" ++ afterID) params in
  withParams ("/v1/organizations/workspaces/" ++ workspaceID ++ "/members") params.

Definition ListWorkspaceMembers (c : Client) (workspaceID : string) (limit : Z)
    (beforeID afterID : string) : M (ListResponse WorkspaceMember * error) :=
  '(result, err) <- doRequest c MethodGet
                      (listWorkspaceMembersPath workspaceID limit beforeID afterID)
                      (@None NoBody) (Some zero) ;;
  ret (deref result, err).

Definition listOrganizationMembersPath (limit : Z) (beforeID afterID : string)
  : string :=
  let params := [] in
  let params := appendIf (0 <? limit)%Z ("limit=" ++ itoa limit) params in
  let params := appendIf (nonEmpty beforeID) ("before_id=" ++ beforeID) params in
  let params := appendIf (nonEmpty afterID) ("after_id=" ++ afterID) params in
  withParams "/v1/organizations/users" params.

Definition ListOrganizationMembers (c : Client) (limit : Z)
    (beforeID afterID : string) : M (ListResponse OrganizationMember * error) :=
  '(result, err) <- doRequest c MethodGet
                      (listOrganizationMembersPath limit beforeID afterID)
                      (@None NoBody) (Some zero) ;;
  ret (deref result, err).

Definition GetOrganizationMember (c : Client) (userID : string)
  : M (OrganizationMember * error) :=
  '(member, err) <- doRequest c MethodGet ("/v1/organizations/users/" ++ userID)
                      (@None NoBody) (Some zero) ;;
  ret (deref member, err).

Definition UpdateOrganizationMember (c : Client) (userID : string)
    (req : UpdateOrganizationMemberRequest) : M (OrganizationMember * error) :=
  '(member, err) <- doRequest c MethodPost ("/v1/organizations/users/" ++ userID)
                      (Some req) (Some zero) ;;
  ret (deref member, err).

Definition RemoveOrganizationMember (c : Client) (userID : string) : M error :=
  '(_, err) <- doRequest c MethodDelete ("/v1/organizations/users/" ++ userID)
                 (@None NoBody) (@None NoResult) ;;
  ret err.

Definition listInvitesPath (limit : Z) (beforeID afterID : string) : string :=
  let params := [] in
  let params := appendIf (0 <? limit)%Z ("limit=" ++ itoa limit) params in
  let params := appendIf (nonEmpty beforeID) ("before_id=" ++ beforeID) params in
  let params := appendIf (nonEmpty afterID) ("after_id=" ++ afterID) params in
  withParams "/v1/organizations/invites" params.

Definition ListInvites (c : Client) (limit : Z) (beforeID afterID : string)
  : M (ListResponse Invite * error) :=
  '(result, err) <- doRequest c MethodGet (listInvitesPath limit beforeID afterID)
                      (@None NoBody) (Some zero) ;;
  ret (deref result, err).

End MoreOperations.

(* ====================================================================== *)
(** ** The single-item data sources *)

Module WorkspaceDataSource.

Record Model := {
  ID          : tfString;
  Name        : tfString;
  DisplayName : tfString;
  CreatedAt   : tfString;
  ArchivedAt  : tfString
}.

Section Handlers.
Context {HT : HTTPTransport} {UE : Unmarshal APIError} {UW : Unmarshal Workspace}.

Definition Read (d : Client) (config : Model) (resp : Response Model)
  : M (Response Model) :=
  let data := config in
  if HasError (Diags resp) then ret resp else
  '(workspace, err) <- GetWorkspace d (ValueString (ID data)) ;;
  match err with
  | Some e => ret (AddError resp "Client Error" ("Unable to read workspace: " ++ e))
  | None =>
      ret (StateSet resp
             {| ID := ID data;
                Name := StringValue (WsName workspace);
                DisplayName := StringValue (WsDisplayName workspace);
                CreatedAt := StringValue (WsCreatedAt workspace);
                ArchivedAt := valueOrNull (WsArchivedAt workspace) |})
  end.

End Handlers.
End WorkspaceDataSource.

Module APIKeyDataSource.

Record Model := {
  ID          : tfString;
  Name        : tfString;
  WorkspaceID : tfString;
  Status      : tfString;
  Hint        : tfString;
  CreatedAt   : tfString
}.

Section Handlers.
Context {HT : HTTPTransport} {UE : Unmarshal APIError} {UK : Unmarshal APIKey}.

Definition Read (d : Client) (config : Model) (resp : Response Model)
  : M (Response Model) :=
  let data := config in
  if HasError (Diags resp) then ret resp else
  '(apiKey, err) <- GetAPIKey d (ValueString (ID data)) ;;
  match err with
  | Some e => ret (AddError resp "Client Error" ("Unable to read API key: " ++ e))
  | None =>
      ret (StateSet resp
             {| ID := ID data;
                Name := StringValue (KeyName apiKey);
                WorkspaceID := valueOrNull (KeyWorkspaceID apiKey);
                Status := StringValue (KeyStatus apiKey);
                Hint := StringValue (KeyHint apiKey);
                CreatedAt := StringValue (KeyCreatedAt apiKey) |})
  end.

End Handlers.
End APIKeyDataSource.

(* ====================================================================== *)
(** ** Vocabulary of the properties *)

(** The replies of the remote to a sequence of requests, and the remote
    afterwards. *)
Fixpoint serve {HT : HTTPTransport} (r : Remote) (reqs : list Request)
  : list HTTPResult * Remote :=
  match reqs with
  | [] => ([], r)
  | q :: rest =>
      let (res, r1) := roundTrip r q in
      let (out, r2) := serve r1 rest in
      (res :: out, r2)
  end.

(** The world after one request. *)
Definition after {HT : HTTPTransport} (w : World) (q : Request) : World :=
  {| remote := snd (roundTrip (remote w) q); trace := (trace w ++ [q])%list |}.

(** The request is created: the reply is not the error of
    [http.NewRequestWithContext], which in practice is a method or a URL
    that does not parse. *)
Definition requestCreated (res : HTTPResult) : Prop :=
  match res with
  | NewRequestError _ => False
  | _ => True
  end.

(** The world after an attempt at the request [q]: the one after the
    request when it is created, the same world when it is not. *)
Definition afterAttempt {HT : HTTPTransport} (w : World) (q : Request) : World :=
  match fst (roundTrip (remote w) q) with
  | NewRequestError _ => w
  | _ => after w q
  end.

(** An HTTP reply that [doRequest] turns into the page [p]: a status below
    400 and a body that is not empty and decodes into [p]. *)
Definition delivers {T} `{Unmarshal (ListResponse T)}
    (res : HTTPResult) (p : ListResponse T) : Prop :=
  exists code body,
    res = HTTPResponse code body /\ (code < 400)%Z /\ body <> "" /\
    unmarshal body (zero : ListResponse T) = (p, None).

(** A page after which the drain loop goes on: it reports more data and its
    last-id pointer is not nil. *)
Definition continues {T} (p : ListResponse T) : bool :=
  HasMore p && negb (isNil (LastID p)).

(** The after-cursors of the calls of a drain that starts at [afterID] and
    goes through the pages [pages]. *)
Definition cursors {T} (afterID : string) (pages : list (ListResponse T))
  : list string :=
  afterID :: map (fun p => derefString (LastID p)) pages.

(** The page requests of the two collection data sources. *)
Definition workspacesPageRequest (d : Client) (afterID : string) : Request :=
  newRequest d MethodGet (listWorkspacesPath 100 "" afterID) None.

Definition apiKeysPageRequest (d : Client) (config : APIKeysDataSource.Model)
    (afterID : string) : Request :=
  newRequest d MethodGet
    (listAPIKeysPath 100 "" afterID
       (APIKeysDataSource.filterValue (APIKeysDataSource.FilterStatus config))
       (APIKeysDataSource.filterValue (APIKeysDataSource.FilterWorkspaceID config)))
    None.

(** The value of a provider setting: the one of the configuration when it
    is not null, the one of the environment otherwise. *)
Definition resolved (config : tfString) (env : string) : string :=
  if IsNull config then env else ValueString config.


(** *** The four resource kinds and their transitions *)

Inductive Kind : Type := KWorkspace | KAPIKey | KWorkspaceMember | KInvite.
Inductive Transition : Type := TCreate | TRead | TUpdate | TDelete.

Definition ModelOf (k : Kind) : Type :=
  match k with
  | KWorkspace => WorkspaceResource.Model
  | KAPIKey => APIKeyResource.Model
  | KWorkspaceMember => WorkspaceMemberResource.Model
  | KInvite => InviteResource.Model
  end.

Section Dispatch.
Context {HT : HTTPTransport} {UE : Unmarshal APIError}.
Context {UW : Unmarshal Workspace} {UK : Unmarshal APIKey}
        {UM : Unmarshal WorkspaceMember} {UI : Unmarshal Invite}.

(** The handler the framework calls for a transition of a resource of kind
    [k]; [plan] is the planned value (create, update) and [state] the stored
    one (read, update, delete). *)
Definition handler (k : Kind) (t : Transition) (r : Client)
  : ModelOf k -> ModelOf k -> Response (ModelOf k) -> M (Response (ModelOf k)) :=
  match k with
  | KWorkspace => fun plan state resp =>
      match t with
      | TCreate => WorkspaceResource.Create r {| CreatePlan := plan |} resp
      | TRead => WorkspaceResource.Read r {| ReadState := state |} resp
      | TUpdate =>
          WorkspaceResource.Update r {| UpdatePlan := plan; UpdateState := state |} resp
      | TDelete => WorkspaceResource.Delete r {| DeleteState := state |} resp
      end
  | KAPIKey => fun plan state resp =>
      match t with
      | TCreate => APIKeyResource.Create r {| CreatePlan := plan |} resp
      | TRead => APIKeyResource.Read r {| ReadState := state |} resp
      | TUpdate =>
          APIKeyResource.Update r {| UpdatePlan := plan; UpdateState := state |} resp
      | TDelete => APIKeyResource.Delete r {| DeleteState := state |} resp
      end
  | KWorkspaceMember => fun plan state resp =>
      match t with
      | TCreate => WorkspaceMemberResource.Create r {| CreatePlan := plan |} resp
      | TRead => WorkspaceMemberResource.Read r {| ReadState := state |} resp
      | TUpdate =>
          WorkspaceMemberResource.Update r
            {| UpdatePlan := plan; UpdateState := state |} resp
      | TDelete => WorkspaceMemberResource.Delete r {| DeleteState := state |} resp
      end
  | KInvite => fun plan state resp =>
      match t with
      | TCreate => InviteResource.Create r {| CreatePlan := plan |} resp
      | TRead => InviteResource.Read r {| ReadState := state |} resp
      | TUpdate =>
          InviteResource.Update r {| UpdatePlan := plan; UpdateState := state |} resp
      | TDelete => InviteResource.Delete r {| DeleteState := state |} resp
      end
  end.

Definition errorOf {A} (m : M (A * error)) : M error :=
  '(_, err) <- m ;; ret err.

(** The Domain Operation behind a transition, called as the handler calls
    it, reduced to the error it returns. The invite update has none. *)
Definition domainOperation (k : Kind) (t : Transition) (r : Client)
  : ModelOf k -> ModelOf k -> M error :=
  match k with
  | KWorkspace => fun plan state =>
      match t with
      | TCreate =>
          errorOf (CreateWorkspace r
                     {| CwName := ValueString (WorkspaceResource.Name plan) |})
      | TRead => errorOf (GetWorkspace r (ValueString (WorkspaceResource.ID state)))
      | TUpdate =>
          errorOf (UpdateWorkspace r (ValueString (WorkspaceResource.ID plan))
                     {| UwName := ValueString (WorkspaceResource.Name plan) |})
      | TDelete =>
          errorOf (ArchiveWorkspace r (ValueString (WorkspaceResource.ID state)))
      end
  | KAPIKey => fun plan state =>
      match t with
      | TCreate =>
          errorOf (CreateAPIKey r
                     {| CkName := ValueString (APIKeyResource.Name plan);
                        CkWorkspaceID :=
                          if negb (IsNull (APIKeyResource.WorkspaceID plan))
                          then ValueString (APIKeyResource.WorkspaceID plan)
                          else "" |})
      | TRead => errorOf (GetAPIKey r (ValueString (APIKeyResource.ID state)))
      | TUpdate =>
          errorOf (UpdateAPIKey r (ValueString (APIKeyResource.ID plan))
                     (APIKeyResource.updateReq plan state))
      | TDelete => DeleteAPIKey r (ValueString (APIKeyResource.ID state))
      end
  | KWorkspaceMember => fun plan state =>
      match t with
      | TCreate =>
          errorOf (AddWorkspaceMember r
                     (ValueString (WorkspaceMemberResource.WorkspaceID plan))
                     {| AmUserID := ValueString (WorkspaceMemberResource.UserID plan);
                        AmWorkspaceRole :=
                          ValueString (WorkspaceMemberResource.WorkspaceRole plan) |})
      | TRead =>
          errorOf (GetWorkspaceMember r
                     (ValueString (WorkspaceMemberResource.WorkspaceID state))
                     (ValueString (WorkspaceMemberResource.UserID state)))
      | TUpdate =>
          errorOf (UpdateWorkspaceMember r
                     (ValueString (WorkspaceMemberResource.WorkspaceID plan))
                     (ValueString (WorkspaceMemberResource.UserID plan))
                     {| UmWorkspaceRole :=
                          ValueString (WorkspaceMemberResource.WorkspaceRole plan) |})
      | TDelete =>
          RemoveWorkspaceMember r
            (ValueString (WorkspaceMemberResource.WorkspaceID state))
            (ValueString (WorkspaceMemberResource.UserID state))
      end
  | KInvite => fun plan state =>
      match t with
      | TCreate =>
          errorOf (CreateInvite r
                     {| CiEmail := ValueString (InviteResource.Email plan);
                        CiRole := ValueString (InviteResource.Role plan) |})
      | TRead => errorOf (GetInvite r (ValueString (InviteResource.ID state)))
      | TUpdate => ret None
      | TDelete => DeleteInvite r (ValueString (InviteResource.ID state))
      end
  end.

End Dispatch.

(** The static description a handler puts in front of the failure. *)
Definition attempted (k : Kind) (t : Transition) : string :=
  match k, t with
  | KWorkspace, TCreate => "Unable to create workspace: "
  | KWorkspace, TRead => "Unable to read workspace: "
  | KWorkspace, TUpdate => "Unable to update workspace: "
  | KWorkspace, TDelete => "Unable to archive workspace: "
  | KAPIKey, TCreate => "Unable to create API key: "
  | KAPIKey, TRead => "Unable to read API key: "
  | KAPIKey, TUpdate => "Unable to update API key: "
  | KAPIKey, TDelete => "Unable to delete API key: "
  | KWorkspaceMember, TCreate => "Unable to add workspace member: "
  | KWorkspaceMember, TRead => "Unable to read workspace member: "
  | KWorkspaceMember, TUpdate => "Unable to update workspace member: "
  | KWorkspaceMember, TDelete => "Unable to remove workspace member: "
  | KInvite, TCreate => "Unable to create invite: "
  | KInvite, TRead => "Unable to read invite: "
  | KInvite, TUpdate => ""
  | KInvite, TDelete => "Unable to delete invite: "
  end.

(* ====================================================================== *)
(** ** A scripted remote

    A remote for running the model on concrete inputs: it holds the replies
    still to be served and answers every request with the next one; once the
    script is over the connection fails. Bodies are looked up in a table to
    decode them. *)

Definition ScriptedTransport : HTTPTransport :=
  {| Remote := list HTTPResult;
     roundTrip := fun script _ =>
       match script with
       | [] => (DoError "connection refused", [])
       | reply :: rest => (reply, rest)
       end |}.

Fixpoint lookup {T} (body : string) (table : list (string * T)) : option T :=
  match table with
  | [] => None
  | (b, v) :: rest => if String.eqb b body then Some v else lookup body rest
  end.

Definition tableUnmarshal {T} (table : list (string * T)) : Unmarshal T :=
  {| unmarshal := fun data v =>
       match lookup data table with
       | Some x => (x, None)
       | None => (v, Some "invalid character")
       end |}.

Definition scripted (script : list HTTPResult) : @World ScriptedTransport :=
  @Build_World ScriptedTransport script [].

(** *** Sample data for the scripted remote *)

Definition sampleClient : Client := NewClient "sk-ant-admin-sample".

(** The response a handler starts from when there is no prior state. *)
Definition fresh {S} : Response S := {| State := None; Diags := [] |}.

(** The response a handler starts from when [m] is the prior state. *)
Definition stored {S} (m : S) : Response S := {| State := Some m; Diags := [] |}.

(** The two error shapes of the API, under the body texts that stand for
    them in the scripts. *)
Definition sampleErrors : Unmarshal APIError :=
  tableUnmarshal
    [("error-flat",
      {| ErrType := "error"; ErrMessage := "x";
         ErrError := {| InnerType := ""; InnerMessage := "" |} |});
     ("error-nested",
      {| ErrType := ""; ErrMessage := "";
         ErrError := {| InnerType := "t"; InnerMessage := "m" |} |})].

Definition sampleWorkspace (i : nat) : Workspace :=
  {| WsID := "wrkspc_" ++ itoa (Z.of_nat i);
     WsType := "workspace";
     WsName := "workspace " ++ itoa (Z.of_nat i);
     WsCreatedAt := "2025-01-01T00:00:00Z";
     WsArchivedAt := "";
     WsDisplayName := "Workspace " ++ itoa (Z.of_nat i) |}.

Definition sampleWorkspaces : Unmarshal Workspace :=
  tableUnmarshal [("workspace", sampleWorkspace 1)].

Definition sampleKey (i : nat) : APIKey :=
  {| KeyID := "apikey_" ++ itoa (Z.of_nat i);
     KeyType := "api_key";
     KeyName := "key " ++ itoa (Z.of_nat i);
     KeyHint := "abcd";
     KeyCreatedAt := "2025-01-01T00:00:00Z";
     KeyCreatedBy := None;
     KeyStatus := "active";
     KeyWorkspaceID := "";
     KeyKey := "" |}.

Definition sampleKeys : Unmarshal APIKey :=
  tableUnmarshal [("apikey", sampleKey 1)].

Definition sampleMember : WorkspaceMember :=
  {| MemUserID := "user_xyz789";
     MemWorkspaceID := "wrkspc_abc123";
     MemWorkspaceRole := "workspace_developer";
     MemType := "workspace_member" |}.

Definition sampleMembers : Unmarshal WorkspaceMember :=
  tableUnmarshal [("member", sampleMember)].

Definition sampleInvites : Unmarshal Invite := tableUnmarshal [].

(** A page of [count] items numbered from [first]; its cursors are the ids
    of its first and last item. *)
Definition samplePage {T} (item : nat -> T) (id : T -> string)
    (first count : nat) (more : bool) : ListResponse T :=
  {| Data := map item (seq first count);
     HasMore := more;
     FirstID := Some (id (item first));
     LastID := Some (id (item (first + count - 1))) |}.

Definition keyPage1 := samplePage sampleKey KeyID 1 100 true.
Definition keyPage2 := samplePage sampleKey KeyID 101 100 true.
Definition keyPage3 := samplePage sampleKey KeyID 201 40 false.

(** A page that reports more data and whose last-id is the empty string,
    and the page that follows it. *)
Definition keyPageEmptyCursor : ListResponse APIKey :=
  {| Data := [sampleKey 1]; HasMore := true;
     FirstID := Some "apikey_1"; LastID := Some "" |}.
Definition keyPageFinal : ListResponse APIKey :=
  {| Data := [sampleKey 2]; HasMore := false; FirstID := None; LastID := None |}.

Definition sampleKeyPages : Unmarshal (ListResponse APIKey) :=
  tableUnmarshal
    [("page-1", keyPage1); ("page-2", keyPage2); ("page-3", keyPage3);
     ("page-empty-cursor", keyPageEmptyCursor); ("page-final", keyPageFinal)].

Definition workspacePage1 := samplePage sampleWorkspace WsID 1 100 true.
Definition workspacePage2 := samplePage sampleWorkspace WsID 101 100 true.
Definition workspacePage3 := samplePage sampleWorkspace WsID 201 40 false.

Definition sampleWorkspacePages : Unmarshal (ListResponse Workspace) :=
  tableUnmarshal
    [("page-1", workspacePage1); ("page-2", workspacePage2);
     ("page-3", workspacePage3)].

Definition threePages : list HTTPResult :=
  [HTTPResponse 200 "page-1"; HTTPResponse 200 "page-2"; HTTPResponse 200 "page-3"].

Definition noFilter : APIKeysDataSource.Model :=
  {| APIKeysDataSource.FilterWorkspaceID := StringNull;
     APIKeysDataSource.FilterStatus := StringNull;
     APIKeysDataSource.APIKeys := [] |}.

Definition activeInWorkspace : APIKeysDataSource.Model :=
  {| APIKeysDataSource.FilterWorkspaceID := StringValue "wrkspc_abc123";
     APIKeysDataSource.FilterStatus := StringValue "active";
     APIKeysDataSource.APIKeys := [] |}.

Definition storedKey : APIKeyResource.Model :=
  {| APIKeyResource.ID := StringValue "apikey_1";
     APIKeyResource.Name := StringValue "ci";
     APIKeyResource.WorkspaceID := StringNull;
     APIKeyResource.Status := StringValue "active";
     APIKeyResource.Hint := StringValue "abcd";
     APIKeyResource.Key := StringValue "sk-ant-api03-secret";
     APIKeyResource.CreatedAt := StringValue "2025-01-01T00:00:00Z" |}.

(** The stored key with another name and another status planned. *)
Definition plannedKey (name status : tfString) : APIKeyResource.Model :=
  {| APIKeyResource.ID := APIKeyResource.ID storedKey;
     APIKeyResource.Name := name;
     APIKeyResource.WorkspaceID := APIKeyResource.WorkspaceID storedKey;
     APIKeyResource.Status := status;
     APIKeyResource.Hint := APIKeyResource.Hint storedKey;
     APIKeyResource.Key := APIKeyResource.Key storedKey;
     APIKeyResource.CreatedAt := APIKeyResource.CreatedAt storedKey |}.

Definition storedWorkspace : WorkspaceResource.Model :=
  {| WorkspaceResource.ID := StringValue "wrkspc_abc123";
     WorkspaceResource.Name := StringValue "production";
     WorkspaceResource.DisplayName := StringValue "Production";
     WorkspaceResource.CreatedAt := StringValue "2025-01-01T00:00:00Z";
     WorkspaceResource.ArchivedAt := StringNull |}.

Definition plannedMember : WorkspaceMemberResource.Model :=
  {| WorkspaceMemberResource.ID := StringUnknown;
     WorkspaceMemberResource.WorkspaceID := StringValue "wrkspc_abc123";
     WorkspaceMemberResource.UserID := StringValue "user_xyz789";
     WorkspaceMemberResource.WorkspaceRole := StringValue "workspace_developer" |}.

Definition noEnvironment : string -> string := fun _ => "".

(** *** Vocabulary of the further properties *)

(** The strings of a list, one after the other. *)
Definition joinAll (l : list string) : string := fold_right append "" l.

(** A query string: nothing for no parameter, otherwise [?] and the
    parameters separated by [&]. *)
Definition query (params : list string) : string :=
  match params with
  | [] => ""
  | p :: rest => "?" ++ p ++ joinAll (map (fun q => "&" ++ q) rest)
  end.

(** The parameter [name=value] when the value is not empty. *)
Definition present (name value : string) : list string :=
  if nonEmpty value then [name ++ "=" ++ value] else [].

(** The parameter [limit=n] when the limit is positive. *)
Definition limitParam (limit : Z) : list string :=
  if (0 <? limit)%Z then ["limit=" ++ itoa limit] else [].

(** What [doRequest] needs of a reply below 400 to return no error: nothing
    when there is no result to fill, otherwise an empty body or one that
    decodes. *)
Definition fills {T} `{Unmarshal T} (respBody : string) (result : option T) : Prop :=
  match result with
  | None => True
  | Some r => respBody = "" \/ snd (unmarshal respBody r) = None
  end.

(** A reply to a request that was sent which [doRequest] turns into a
    failure whatever the body: an error of [HTTPClient.Do] or of
    [io.ReadAll], or a status of 400 or more. *)
Definition failing (res : HTTPResult) : Prop :=
  match res with
  | NewRequestError _ => False
  | DoError _ | ReadAllError _ => True
  | HTTPResponse code _ => (400 <= code)%Z
  end.

(** The HTTP verb of the request behind each transition. *)
Definition verb (k : Kind) (t : Transition) : string :=
  match t with
  | TRead => "GET"
  | TCreate | TUpdate => "POST"
  | TDelete =>
      match k with
      | KWorkspace | KAPIKey => "POST"
      | KWorkspaceMember | KInvite => "DELETE"
      end
  end.

Definition isInviteUpdate (k : Kind) (t : Transition) : bool :=
  match k, t with KInvite, TUpdate => true | _, _ => false end.

(** A remote that answers every request with the same reply, for ever. *)
Definition RepeatingTransport (reply : HTTPResult) : HTTPTransport :=
  {| Remote := unit; roundTrip := fun r _ => (reply, r) |}.

Definition sampleOrganizationMembers : Unmarshal OrganizationMember :=
  tableUnmarshal [].

Definition sampleInvite : Invite :=
  {| InvID := "invite_1"; InvType := "invite"; InvEmail := "dev@example.com";
     InvRole := "developer"; InvStatus := "pending";
     InvCreatedAt := "2025-01-01T00:00:00Z";
     InvExpiresAt := "2025-01-08T00:00:00Z";
     InvInviterID := ""; InvWorkspaceIDs := [] |}.

Definition sampleInviteTable : Unmarshal Invite :=
  tableUnmarshal [("invite", sampleInvite)].

Definition plannedInvite : InviteResource.Model :=
  {| InviteResource.ID := StringUnknown;
     InviteResource.Email := StringValue "dev@example.com";
     InviteResource.Role := StringValue "developer";
     InviteResource.Status := StringUnknown;
     InviteResource.CreatedAt := StringUnknown;
     InviteResource.ExpiresAt := StringUnknown;
     InviteResource.InviterID := StringUnknown |}.

Definition plannedWorkspace : WorkspaceResource.Model :=
  {| WorkspaceResource.ID := StringUnknown;
     WorkspaceResource.Name := StringValue "production";
     WorkspaceResource.DisplayName := StringUnknown;
     WorkspaceResource.CreatedAt := StringUnknown;
     WorkspaceResource.ArchivedAt := StringUnknown |}.

(** A key planned for a workspace. *)
Definition plannedKeyIn (workspaceID : tfString) : APIKeyResource.Model :=
  {| APIKeyResource.ID := StringUnknown;
     APIKeyResource.Name := StringValue "ci";
     APIKeyResource.WorkspaceID := workspaceID;
     APIKeyResource.Status := StringUnknown;
     APIKeyResource.Hint := StringUnknown;
     APIKeyResource.Key := StringUnknown;
     APIKeyResource.CreatedAt := StringUnknown |}.

(** The stored key as one of a workspace, and a stored workspace that is
    archived. *)
Definition storedKeyIn (workspaceID : tfString) : APIKeyResource.Model :=
  {| APIKeyResource.ID := APIKeyResource.ID storedKey;
     APIKeyResource.Name := APIKeyResource.Name storedKey;
     APIKeyResource.WorkspaceID := workspaceID;
     APIKeyResource.Status := APIKeyResource.Status storedKey;
     APIKeyResource.Hint := APIKeyResource.Hint storedKey;
     APIKeyResource.Key := APIKeyResource.Key storedKey;
     APIKeyResource.CreatedAt := APIKeyResource.CreatedAt storedKey |}.

Definition archivedWorkspace : WorkspaceResource.Model :=
  {| WorkspaceResource.ID := StringValue "wrkspc_abc123";
     WorkspaceResource.Name := StringValue "production";
     WorkspaceResource.DisplayName := StringValue "Production";
     WorkspaceResource.CreatedAt := StringValue "2025-01-01T00:00:00Z";
     WorkspaceResource.ArchivedAt := StringValue "2025-06-01T00:00:00Z" |}.

Definition environmentWith (name value : string) : string -> string :=
  fun n => if String.eqb n name then value else "".

Definition storedMember : WorkspaceMemberResource.Model :=
  {| WorkspaceMemberResource.ID := StringValue "wrkspc_abc123/user_xyz789";
     WorkspaceMemberResource.WorkspaceID := StringValue "wrkspc_abc123";
     WorkspaceMemberResource.UserID := StringValue "user_xyz789";
     WorkspaceMemberResource.WorkspaceRole := StringValue "workspace_developer" |}.

Definition storedInvite : InviteResource.Model :=
  {| InviteResource.ID := StringValue "invite_1";
     InviteResource.Email := StringValue "dev@example.com";
     InviteResource.Role := StringValue "developer";
     InviteResource.Status := StringValue "pending";
     InviteResource.CreatedAt := StringValue "2025-01-01T00:00:00Z";
     InviteResource.ExpiresAt := StringValue "2025-01-08T00:00:00Z";
     InviteResource.InviterID := StringValue "user_admin" |}.

(* ====================================================================== *)
(** * Properties *)

(** ** Diagnostics *)

Lemma Diagnostic_eqb_eq (a b : Diagnostic) : Diagnostic_eqb a b = true -> a = b.
Proof.
  destruct a as [sa ma da], b as [sb mb db]. unfold Diagnostic_eqb. cbn.
  rewrite !andb_true_iff, !String.eqb_eq. intros [[Hs Hm] Hd]. subst.
  destruct sa, sb; try discriminate; reflexivity.
Qed.

Lemma Contains_error (ds : Diagnostics) (d : Diagnostic) :
  HasError ds = false -> isError d = true -> Contains ds d = false.
Proof.
  unfold HasError, Contains. intros Hno Hd.
  induction ds as [|x ds IH]; cbn in *; [reflexivity|].
  apply orb_false_iff in Hno as [Hx Hds]. rewrite (IH Hds), orb_false_r.
  destruct (Diagnostic_eqb d x) eqn:E; [|reflexivity].
  apply Diagnostic_eqb_eq in E. subst x. congruence.
Qed.

(** With no error reported so far, an error is appended at the end. *)
Lemma Append_first_error (ds : Diagnostics) (d : Diagnostic) :
  HasError ds = false -> isError d = true -> Append ds d = (ds ++ [d])%list.
Proof. intros Hno Hd. unfold Append. now rewrite Contains_error. Qed.

Lemma Append_In (ds : Diagnostics) (d : Diagnostic) : In d (Append ds d).
Proof.
  unfold Append, Contains. destruct (existsb (Diagnostic_eqb d) ds) eqn:E.
  - apply existsb_exists in E as (x & Hx & Heq).
    apply Diagnostic_eqb_eq in Heq. now subst x.
  - apply in_or_app. right. now left.
Qed.

Lemma Append_HasError (ds : Diagnostics) (d : Diagnostic) :
  isError d = true -> HasError (Append ds d) = true.
Proof.
  intros Hd. unfold HasError. apply existsb_exists.
  exists d. split; [apply Append_In | exact Hd].
Qed.

Lemma AddError_HasError {S} (resp : Response S) (summary detail : string) :
  HasError (Diags (AddError resp summary detail)) = true.
Proof. unfold AddError. cbn [Diags]. now apply Append_HasError. Qed.

Lemma AddError_first {S} (resp : Response S) (summary detail : string) :
  HasError (Diags resp) = false ->
  AddError resp summary detail =
  {| State := State resp;
     Diags := (Diags resp ++ [ErrorDiagnostic summary detail])%list |}.
Proof.
  intros Hno. unfold AddError. now rewrite Append_first_error.
Qed.

(** ** Splitting on a byte *)

Lemma Split_not_nil (s : string) (c : ascii) : Split s c <> [].
Proof.
  destruct s as [|a s]; simpl; [discriminate|].
  destruct (Ascii.eqb a c); [discriminate|].
  destruct (Split s c); discriminate.
Qed.

Lemma Split_length (s : string) (c : ascii) :
  List.length (Split s c) = S (Count s c).
Proof.
  induction s as [|a s IH]; simpl; [reflexivity|].
  destruct (Ascii.eqb a c); simpl.
  - now rewrite IH.
  - destruct (Split s c) as [|hd tl] eqn:E.
    + now apply Split_not_nil in E.
    + simpl in *. exact IH.
Qed.

Lemma Split_without (s : string) (c : ascii) :
  Count s c = 0 -> Split s c = [s].
Proof.
  induction s as [|a s IH]; simpl; [reflexivity|].
  destruct (Ascii.eqb a c); simpl; [discriminate|].
  intros H. now rewrite (IH H).
Qed.

Lemma Split_join (a b : string) (c : ascii) :
  Count a c = 0 -> Split (a ++ String c b) c = a :: Split b c.
Proof.
  induction a as [|x a IH]; simpl.
  - intros _. now rewrite Ascii.eqb_refl.
  - destruct (Ascii.eqb x c); simpl; [discriminate|].
    intros H. now rewrite (IH H).
Qed.

Lemma Count_app (a b : string) (c : ascii) :
  Count (a ++ b) c = Count a c + Count b c.
Proof.
  induction a as [|x a IH]; simpl; [reflexivity|].
  rewrite IH. lia.
Qed.

(** A string with exactly one separator splits into the part before it and
    the part behind it. *)
Lemma Split_once (s : string) (c : ascii) :
  Count s c = 1 ->
  exists a b, Split s c = [a; b] /\ s = a ++ String c b
              /\ Count a c = 0 /\ Count b c = 0.
Proof.
  induction s as [|x s IH]; simpl; [discriminate|].
  destruct (Ascii.eqb x c) eqn:E; simpl.
  - intros H. injection H as H.
    apply Ascii.eqb_eq in E. subst x.
    exists EmptyString, s. rewrite (Split_without _ _ H). auto.
  - intros H. destruct (IH H) as (a & b & Hs & Hj & Ha & Hb).
    exists (String x a), b. rewrite Hs, Hj. simpl. rewrite E. auto.
Qed.

(** ** The transport *)

Section TransportFacts.
Context {HT : HTTPTransport} {UE : Unmarshal APIError}.

(** An attempt that creates the request issues it; one that does not
    leaves the world as it was. *)
Lemma afterAttempt_created (w : World) (q : Request) :
  requestCreated (fst (roundTrip (remote w) q)) -> afterAttempt w q = after w q.
Proof.
  unfold afterAttempt. destruct (fst (roundTrip (remote w) q)); simpl; tauto.
Qed.

Lemma afterAttempt_not_created (w : World) (q : Request) :
  ~ requestCreated (fst (roundTrip (remote w) q)) -> afterAttempt w q = w.
Proof.
  unfold afterAttempt. destruct (fst (roundTrip (remote w) q)); simpl; tauto.
Qed.


(** Every call of [doRequest] makes one attempt at one request, whatever
    comes back. *)
Lemma doRequest_trace {B T} `{Marshal B} `{Unmarshal T}
    (c : Client) (method path : string) (body : option B) (result : option T)
    (w : World) :
  let req := newRequest c method path (option_map marshal body) in
  exists out, doRequest c method path body result w = (out, afterAttempt w req).
Proof.
  intros req. unfold doRequest, bind, send, afterAttempt, after. fold req.
  destruct (roundTrip (remote w) req) as [res r']. cbn [fst snd]. cbv beta iota.
  destruct res as [msg|msg|msg|code respBody]; unfold ret; eauto.
  destruct (code >=? 400)%Z.
  - destruct (unmarshal respBody zero) as [apiErr [e|]]; eauto.
  - destruct result as [r0|]; eauto.
    destruct (0 <? String.length respBody)%nat; eauto.
    destruct (unmarshal respBody r0) as [r1 [e|]]; eauto.
Qed.

(** When the request cannot be created, [doRequest] returns that error and
    issues nothing. *)
Lemma doRequest_not_created {B T} `{Marshal B} `{Unmarshal T}
    (c : Client) (method path : string) (body : option B) (result : option T)
    (w : World) (msg : string) :
  fst (roundTrip (remote w) (newRequest c method path (option_map marshal body)))
  = NewRequestError msg ->
  doRequest c method path body result w =
  ((result, Some ("failed to create request: " ++ msg)), w).
Proof.
  unfold doRequest, bind, send.
  destruct (roundTrip (remote w) _) as [res r']. cbn [fst].
  intros ->. reflexivity.
Qed.

(** A reply with a status of 400 or more is a failure whatever the body. *)
Lemma doRequest_api_error {B T} `{Marshal B} `{Unmarshal T}
    (c : Client) (method path : string) (body : option B) (result : option T)
    (w : World) (code : Z) (respBody : string) (r' : Remote) :
  roundTrip (remote w) (newRequest c method path (option_map marshal body))
  = (HTTPResponse code respBody, r') ->
  (400 <= code)%Z ->
  doRequest c method path body result w =
  ((result,
    Some (apiErrorf code
            match unmarshal respBody (zero : APIError) with
            | (apiErr, None) => APIError_String apiErr
            | (_, Some _) => respBody
            end)),
   {| remote := r';
      trace := (trace w ++ [newRequest c method path
                              (option_map marshal body)])%list |}).
Proof.
  intros Hrt Hcode. unfold doRequest, bind, send.
  rewrite Hrt.
  assert (Hge : (code >=? 400)%Z = true) by (apply Z.geb_le; lia).
  rewrite Hge.
  destruct (unmarshal respBody zero) as [apiErr [e|]]; reflexivity.
Qed.

(** A reply below 400 with a body that decodes fills the result. *)
Lemma doRequest_decoded {B T} `{Marshal B} `{Unmarshal T}
    (c : Client) (method path : string) (body : option B) (r0 v : T)
    (w : World) (code : Z) (respBody : string) (r' : Remote) :
  roundTrip (remote w) (newRequest c method path (option_map marshal body))
  = (HTTPResponse code respBody, r') ->
  (code < 400)%Z -> respBody <> "" ->
  unmarshal respBody r0 = (v, None) ->
  doRequest c method path body (Some r0) w =
  ((Some v, None),
   {| remote := r';
      trace := (trace w ++ [newRequest c method path
                              (option_map marshal body)])%list |}).
Proof.
  intros Hrt Hcode Hbody Hdec. unfold doRequest, bind, send.
  rewrite Hrt.
  assert (Hge : (code >=? 400)%Z = false) by (rewrite Z.geb_leb; apply Z.leb_gt; lia).
  rewrite Hge.
  destruct respBody as [|a s]; [congruence|]. simpl String.length.
  change (0 <? S (String.length s))%nat with true. cbv iota.
  rewrite Hdec. reflexivity.
Qed.

End TransportFacts.

(** ** Composite id of a workspace member *)

Section WorkspaceMemberFacts.
Context {HT : HTTPTransport} {UE : Unmarshal APIError} {UM : Unmarshal WorkspaceMember}.
Import WorkspaceMemberResource.

(** C1. A successful Create stores the id "<workspace_id>/<user_id>" built
    from the two ids echoed by the add-member response. ImportState of a
    string with exactly one '/' succeeds, keeps the string as id and stores
    the part before the '/' as workspace_id and the part behind it as
    user_id; so importing the id of a created member (when that id has
    exactly one '/') gives back the two echoed ids. ImportState of a string
    whose split on '/' does not have exactly two segments leaves the state
    as it was and reports the error "Invalid Import ID" whose detail names
    the format workspace_id/user_id. (The split of a string has one segment
    more than the string has '/'.) *)
Theorem workspace_member_composite_id :
  (forall id : string, List.length (Split id slash) = S (Count id slash))
  /\
  (forall (r : Client) (req : CreateRequest Model) (resp : Response Model)
          (w w' : World) (member : WorkspaceMember),
      HasError (Diags resp) = false ->
      AddWorkspaceMember r (ValueString (WorkspaceID (CreatePlan req)))
        {| AmUserID := ValueString (UserID (CreatePlan req));
           AmWorkspaceRole := ValueString (WorkspaceRole (CreatePlan req)) |} w
      = ((member, None), w') ->
      Create r req resp w =
      ({| State := Some
            {| ID := StringValue (MemWorkspaceID member ++ "/" ++ MemUserID member);
               WorkspaceID := StringValue (MemWorkspaceID member);
               UserID := StringValue (MemUserID member);
               WorkspaceRole := StringValue (MemWorkspaceRole member) |};
          Diags := Diags resp |}, w'))
  /\
  (forall (id : string) (resp : Response Model),
      Count id slash = 1 ->
      exists a b,
        Split id slash = [a; b] /\ id = a ++ "/" ++ b /\
        ImportState {| ImportID := id |} resp =
        {| State := Some {| ID := StringValue id;
                            WorkspaceID := StringValue a;
                            UserID := StringValue b;
                            WorkspaceRole := WorkspaceRole (stateOf resp) |};
           Diags := Diags resp |})
  /\
  (forall (member : WorkspaceMember) (resp : Response Model),
      let id := MemWorkspaceID member ++ "/" ++ MemUserID member in
      Count id slash = 1 ->
      ImportState {| ImportID := id |} resp =
      {| State := Some {| ID := StringValue id;
                          WorkspaceID := StringValue (MemWorkspaceID member);
                          UserID := StringValue (MemUserID member);
                          WorkspaceRole := WorkspaceRole (stateOf resp) |};
         Diags := Diags resp |})
  /\
  (forall (id : string) (resp : Response Model),
      List.length (Split id slash) <> 2 ->
      let resp' := ImportState {| ImportID := id |} resp in
      let d := ErrorDiagnostic "Invalid Import ID"
                 ("Expected import ID format: workspace_id/user_id, got: " ++ id) in
      State resp' = State resp
      /\ In d (Diags resp')
      /\ HasError (Diags resp') = true
      /\ (HasError (Diags resp) = false -> Diags resp' = (Diags resp ++ [d])%list)).
Proof.
  split; [|split; [|split; [|split]]].
  - intros id. apply Split_length.
  - intros r req resp w w' member Hok Hadd.
    unfold Create. rewrite Hok. unfold bind. rewrite Hadd. reflexivity.
  - intros id resp Hone.
    destruct (Split_once id slash Hone) as (a & b & Hs & Hj & _ & _).
    exists a, b. repeat split; trivial.
    unfold ImportState. simpl ImportID. rewrite Hs. reflexivity.
  - intros member resp id Hone. subst id.
    change (MemWorkspaceID member ++ "/" ++ MemUserID member)
      with (MemWorkspaceID member ++ String slash (MemUserID member)) in *.
    rewrite Count_app in Hone. simpl in Hone.
    unfold ImportState. simpl ImportID.
    rewrite Split_join by lia. rewrite Split_without by lia. reflexivity.
  - intros id resp Hlen resp' d. subst resp' d.
    unfold ImportState. cbn [ImportID].
    destruct (Nat.eqb_spec (List.length (Split id slash)) 2) as [E|E];
      [contradiction|]. cbn [negb].
    split; [reflexivity|]. split; [apply Append_In|].
    split; [apply AddError_HasError|].
    intros Hok. now rewrite AddError_first.
Qed.

End WorkspaceMemberFacts.

(** ** Failure replies *)

Section ErrorReplies.
Context {HT : HTTPTransport} {UE : Unmarshal APIError}.

(** C2, as amended. For every HTTP reply whose status is 400 or more,
    [doRequest] returns a failure, after exactly one request. Its message
    is "API error (status <code>): " followed, when the body decodes into
    the error shape, by "<type>: <message>" taken from the nested error
    object when the nested message is not empty and from the top-level
    fields otherwise, and followed by the raw body text when the body does
    not decode. *)
Theorem doRequest_failure_reply :
  forall (B T : Type) (MB : Marshal B) (UT : Unmarshal T)
         (c : Client) (method path : string) (body : option B)
         (result : option T) (w : World)
         (code : Z) (respBody : string) (r' : Remote),
    let req := newRequest c method path (option_map marshal body) in
    roundTrip (remote w) req = (HTTPResponse code respBody, r') ->
    (400 <= code)%Z ->
    exists msg : string,
      doRequest c method path body result w =
      ((result, Some msg), {| remote := r'; trace := (trace w ++ [req])%list |})
      /\
      (forall apiErr : APIError,
          unmarshal respBody (zero : APIError) = (apiErr, None) ->
          msg = "API error (status " ++ itoa code ++ "): " ++
                (if String.eqb (InnerMessage (ErrError apiErr)) ""
                 then ErrType apiErr ++ ": " ++ ErrMessage apiErr
                 else InnerType (ErrError apiErr) ++ ": "
                      ++ InnerMessage (ErrError apiErr)))
      /\
      (forall (apiErr : APIError) (e : string),
          unmarshal respBody (zero : APIError) = (apiErr, Some e) ->
          msg = "API error (status " ++ itoa code ++ "): " ++ respBody).
Proof.
  intros B T MB UT c method path body result w code respBody r' req Hrt Hcode.
  eexists. split.
  - apply doRequest_api_error; [exact Hrt | exact Hcode].
  - split.
    + intros apiErr Hdec. rewrite Hdec. unfold apiErrorf, APIError_String.
      destruct (String.eqb (InnerMessage (ErrError apiErr)) ""); reflexivity.
    + intros apiErr e Hdec. rewrite Hdec. reflexivity.
Qed.

End ErrorReplies.

(** ** The requests of the Domain Operations *)

Section OperationFacts.
Context {HT : HTTPTransport} {UE : Unmarshal APIError}.
Context {UW : Unmarshal Workspace} {UK : Unmarshal APIKey}
        {UM : Unmarshal WorkspaceMember} {UI : Unmarshal Invite}.

Ltac one_request :=
  unfold bind;
  match goal with
  | |- context [doRequest ?c ?m ?p ?b ?res ?w] =>
      let out := fresh "out" in
      let E := fresh "E" in
      destruct (doRequest_trace c m p b res w) as [out E];
      rewrite E; destruct out; unfold ret; eauto
  end.


Lemma UpdateAPIKey_request (c : Client) (id : string) (req : UpdateAPIKeyRequest)
    (w : World) :
  exists out,
    UpdateAPIKey c id req w =
    (out, afterAttempt w
            (newRequest c MethodPost ("/v1/organizations/api_keys/" ++ id)
               (Some (marshal req)))).
Proof. unfold UpdateAPIKey. one_request. Qed.






End OperationFacts.

(** ** The API key resource *)

Section APIKeyFacts.
Context {HT : HTTPTransport} {UE : Unmarshal APIError} {UK : Unmarshal APIKey}.
Import APIKeyResource.

(** What the encoding of an [UpdateAPIKeyRequest] holds: each of the two
    fields exactly when it is not the empty string, with its value. *)
Lemma marshal_update_members (u : UpdateAPIKeyRequest) :
  has_member "name" (marshal u) = nonEmpty (UkName u)
  /\ has_member "status" (marshal u) = nonEmpty (UkStatus u)
  /\ (forall v, In ("name", v) (marshal u) -> v = UkName u /\ v <> "")
  /\ (forall v, In ("status", v) (marshal u) -> v = UkStatus u /\ v <> "")
  /\ (UkName u = "" -> UkStatus u = "" -> marshal u = [])
  /\ (UkName u = "" -> UkStatus u <> "" -> marshal u = [("status", UkStatus u)]).
Proof.
  destruct u as [n s]. cbn [marshal Marshal_UpdateAPIKeyRequest UkName UkStatus].
  unfold field_omitempty, nonEmpty.
  destruct (String.eqb_spec n ""); destruct (String.eqb_spec s "");
    cbn [app has_member existsb fst String.eqb Ascii.eqb Bool.eqb orb andb negb];
    repeat split; intros;
    repeat match goal with
           | H : In _ [] |- _ => destruct H
           | H : In _ (_ :: _) |- _ => destruct H
           | H : (_, _) = (_, _) |- _ => inversion H; clear H
           end;
    subst; try congruence; try discriminate; auto.
Qed.

(** C4, as amended. Every APIKey Update attempts one request, a POST to
    .../api_keys/{id}: once it is created (the URL parses) it is the one
    request sent, and when it cannot be created nothing is sent. Its body has the name member if and only if the
    planned name differs from the name in state and is not the empty
    string, and then with the planned name as value; it has the status
    member if and only if the planned status differs from the stored one,
    is not null and its string value is not empty, and then with the planned
    status as value. With name and status both unchanged the body has no
    member; with the name unchanged and the status changed to a non-empty
    value the body holds the status alone. *)
Theorem api_key_update_is_differential :
  forall (r : Client) (req : UpdateRequest Model) (resp : Response Model)
         (w : World),
    HasError (Diags resp) = false ->
    let data := UpdatePlan req in
    let state := UpdateState req in
    exists body : JSON,
      let q := newRequest r "POST"
                 ("/v1/organizations/api_keys/" ++ ValueString (ID data))
                 (Some body) in
      (requestCreated (fst (roundTrip (remote w) q)) ->
       trace (snd (Update r req resp w)) = (trace w ++ [q])%list)
      /\ (~ requestCreated (fst (roundTrip (remote w) q)) ->
          snd (Update r req resp w) = w)
      /\ (has_member "name" body = true <->
          Equal (Name data) (Name state) = false /\ ValueString (Name data) <> "")
      /\ (has_member "status" body = true <->
          Equal (Status data) (Status state) = false
          /\ IsNull (Status data) = false
          /\ ValueString (Status data) <> "")
      /\ (forall v, In ("name", v) body -> v = ValueString (Name data))
      /\ (forall v, In ("status", v) body -> v = ValueString (Status data))
      /\ (Equal (Name data) (Name state) = true ->
          Equal (Status data) (Status state) = true -> body = [])
      /\ (Equal (Name data) (Name state) = true ->
          Equal (Status data) (Status state) = false ->
          ValueString (Status data) <> "" ->
          body = [("status", ValueString (Status data))]).
Proof.
  intros r req resp w Hok data state.
  exists (marshal (updateReq data state)). intros q.
  assert (Hw : snd (Update r req resp w) = afterAttempt w q).
  { unfold Update. rewrite Hok. unfold bind. fold data state.
    destruct (UpdateAPIKey_request r (ValueString (ID data))
                (updateReq data state) w) as [[apiKey err] E].
    rewrite E. destruct err; reflexivity. }
  rewrite Hw. clear Hw.
  split.
  { intros Hc. rewrite (afterAttempt_created w q Hc). reflexivity. }
  split; [apply afterAttempt_not_created|].
  pose proof (marshal_update_members (updateReq data state))
    as (Hn & Hs & Hin & His & Hnone & Honly).
  assert (HN : UkName (updateReq data state) <> "" <->
               Equal (Name data) (Name state) = false
               /\ ValueString (Name data) <> "").
  { unfold updateReq. cbn [UkName].
    destruct (Equal (Name data) (Name state)); cbn [negb];
      intuition congruence. }
  assert (HS : UkStatus (updateReq data state) <> "" <->
               Equal (Status data) (Status state) = false
               /\ IsNull (Status data) = false
               /\ ValueString (Status data) <> "").
  { unfold updateReq. cbn [UkStatus].
    destruct (Equal (Status data) (Status state));
      destruct (IsNull (Status data)); cbn [negb andb];
      intuition congruence. }
  assert (Hname : has_member "name" (marshal (updateReq data state)) = true
                  <-> UkName (updateReq data state) <> "").
  { rewrite Hn. unfold nonEmpty. rewrite negb_true_iff. apply String.eqb_neq. }
  assert (Hstatus : has_member "status" (marshal (updateReq data state)) = true
                    <-> UkStatus (updateReq data state) <> "").
  { rewrite Hs. unfold nonEmpty. rewrite negb_true_iff. apply String.eqb_neq. }
  split; [etransitivity; [exact Hname | exact HN]|].
  split; [etransitivity; [exact Hstatus | exact HS]|].
  split.
  { intros v Hv. destruct (Hin v Hv) as [Hv1 Hv2]. subst v.
    unfold updateReq in *. cbn [UkName] in *.
    destruct (Equal (Name data) (Name state)); cbn [negb] in *; congruence. }
  split.
  { intros v Hv. destruct (His v Hv) as [Hv1 Hv2]. subst v.
    unfold updateReq in *. cbn [UkStatus] in *.
    destruct (Equal (Status data) (Status state));
      destruct (IsNull (Status data)); cbn [negb andb] in *; congruence. }
  split.
  { intros En Es. apply Hnone; unfold updateReq; cbn [UkName UkStatus].
    - now rewrite En.
    - now rewrite Es. }
  intros En Es Hv.
  assert (Hst : UkStatus (updateReq data state) = ValueString (Status data)).
  { unfold updateReq. cbn [UkStatus]. rewrite Es.
    destruct (Status data); cbn in *; congruence. }
  rewrite <- Hst. apply Honly.
  - unfold updateReq. cbn [UkName]. now rewrite En.
  - now rewrite Hst.
Qed.

(** C7. A Read or an Update of an APIKey that succeeds (reports no error)
    stores a state whose key is the key of the prior state: Read leaves the
    field as it is in state and Update copies it from the prior state, and
    the key of the remote response plays no part. So a stored key that is a
    non-empty value is still that value afterwards, never null or empty. *)
Theorem api_key_secret_kept :
  (forall (r : Client) (req : ReadRequest Model) (resp : Response Model)
          (w : World),
      HasError (Diags resp) = false ->
      HasError (Diags (fst (Read r req resp w))) = false ->
      exists m, State (fst (Read r req resp w)) = Some m
                /\ Key m = Key (ReadState req)
                /\ (forall k, k <> "" -> Key (ReadState req) = StringValue k ->
                    Key m = StringValue k))
  /\
  (forall (r : Client) (req : UpdateRequest Model) (resp : Response Model)
          (w : World),
      HasError (Diags resp) = false ->
      HasError (Diags (fst (Update r req resp w))) = false ->
      exists m, State (fst (Update r req resp w)) = Some m
                /\ Key m = Key (UpdateState req)
                /\ (forall k, k <> "" -> Key (UpdateState req) = StringValue k ->
                    Key m = StringValue k)).
Proof.
  assert (Herr : forall (resp : Response Model) s d,
             HasError (Diags (AddError resp s d)) = true)
    by (intros; apply AddError_HasError).
  split; intros r req resp w Hok.
  - unfold Read. rewrite Hok. unfold bind.
    destruct (GetAPIKey r (ValueString (ID (ReadState req))) w) as [[apiKey err] w'].
    destruct err as [e|]; unfold ret; cbn [fst].
    + rewrite Herr. discriminate.
    + intros _. eexists. split; [reflexivity|]. cbn [Key]. auto.
  - unfold Update. rewrite Hok. unfold bind.
    destruct (UpdateAPIKey r (ValueString (ID (UpdatePlan req)))
                (updateReq (UpdatePlan req) (UpdateState req)) w)
      as [[apiKey err] w'].
    destruct err as [e|]; unfold ret; cbn [fst].
    + rewrite Herr. discriminate.
    + intros _. eexists. split; [reflexivity|]. cbn [Key]. auto.
Qed.

End APIKeyFacts.

(** ** Failures of the lifecycle transitions *)

Section LifecycleFacts.
Context {HT : HTTPTransport} {UE : Unmarshal APIError}.
Context {UW : Unmarshal Workspace} {UK : Unmarshal APIKey}
        {UM : Unmarshal WorkspaceMember} {UI : Unmarshal Invite}.

(** C6. Whatever the invite, the plan and the prior state, Update reports
    the error "Update Not Supported", leaves the world as it is (no request
    is issued, the trace and the remote are unchanged) and leaves the state
    of the response as it was. *)
Theorem invite_update_rejected :
  forall (r : Client) (req : UpdateRequest InviteResource.Model)
         (resp : Response InviteResource.Model) (w : World),
    let resp' := fst (InviteResource.Update r req resp w) in
    snd (InviteResource.Update r req resp w) = w
    /\ State resp' = State resp
    /\ HasError (Diags resp') = true
    /\ In (ErrorDiagnostic "Update Not Supported"
             "Invites cannot be updated. Delete and recreate the invite with the new settings.")
          (Diags resp').
Proof.
  intros r req resp w resp'. subst resp'.
  unfold InviteResource.Update, ret. cbn [fst snd].
  split; [reflexivity|]. split; [reflexivity|].
  split; [apply AddError_HasError | apply Append_In].
Qed.

(** C8. For every resource kind and every create, read, update or delete
    in which the Domain Operation the handler calls returns a failure, the
    handler adds one error diagnostic, "Client Error", whose detail is the
    description of the attempted action followed by the failure, and writes
    no state: the state of the response is the one it came with. *)
Theorem failure_leaves_state :
  forall (k : Kind) (t : Transition) (r : Client) (plan state : ModelOf k)
         (resp : Response (ModelOf k)) (w w' : World) (e : string),
    HasError (Diags resp) = false ->
    domainOperation k t r plan state w = (Some e, w') ->
    handler k t r plan state resp w =
    ({| State := State resp;
        Diags := (Diags resp ++
                  [ErrorDiagnostic "Client Error" (attempted k t ++ e)])%list |},
     w')
    /\ State (fst (handler k t r plan state resp w)) = State resp
    /\ HasError (Diags (fst (handler k t r plan state resp w))) = true.
Proof.
  intros k t r plan state resp w w' e Hok Hop.
  destruct k, t; cbn [handler domainOperation attempted ModelOf] in *;
    unfold WorkspaceResource.Create, WorkspaceResource.Read,
           WorkspaceResource.Update, WorkspaceResource.Delete,
           APIKeyResource.Create, APIKeyResource.Read,
           APIKeyResource.Update, APIKeyResource.Delete,
           WorkspaceMemberResource.Create, WorkspaceMemberResource.Read,
           WorkspaceMemberResource.Update, WorkspaceMemberResource.Delete,
           InviteResource.Create, InviteResource.Read,
           InviteResource.Delete;
    cbn [CreatePlan ReadState UpdatePlan UpdateState DeleteState];
    try rewrite Hok;
    try (unfold ret in Hop; discriminate Hop);
    unfold errorOf, bind in *;
    match goal with
    | H : (let (_, _) := ?op in _) = _ |- _ =>
        destruct op as [[? [?|]] ?]; unfold ret in *;
        inversion H; subst; clear H
    | H : ?op = (Some _, _) |- _ => rewrite H
    end;
    cbv beta iota; unfold ret;
    rewrite !(AddError_first _ _ _ Hok); cbn [fst State Diags];
    (split; [reflexivity|]); (split; [reflexivity|]);
    unfold HasError; rewrite existsb_app; cbn; apply orb_true_r.
Qed.

End LifecycleFacts.

(** ** Provider configuration *)

Section ProviderFacts.
Import AnthropicProvider.

(** C9. Configure takes as credential the admin_key of the configuration
    when it is not null and the value of ANTHROPIC_ADMIN_KEY otherwise. When
    that credential is the empty string it reports the error "Missing Admin
    Key" and hands out no client. Otherwise it hands out, to data sources
    and resources alike, a client with that credential, and with the base
    URL found the same way (configuration over ANTHROPIC_BASE_URL), the
    default https://api.anthropic.com standing in when nothing is found. *)
Theorem configure_resolves_credential :
  forall (getenv : string -> string) (config : Model) (resp : ConfigureResponse),
    HasError (ConfigureDiags resp) = false ->
    let adminKey := resolved (ConfigAdminKey config) (getenv "ANTHROPIC_ADMIN_KEY") in
    let baseURL := resolved (ConfigBaseURL config) (getenv "ANTHROPIC_BASE_URL") in
    (adminKey = "" ->
     Configure getenv config resp =
     {| DataSourceData := DataSourceData resp;
        ResourceData := ResourceData resp;
        ConfigureDiags :=
          (ConfigureDiags resp ++
           [ErrorDiagnostic "Missing Admin Key"
              "The admin_key must be set in the provider configuration or via the ANTHROPIC_ADMIN_KEY environment variable."])%list |})
    /\
    (adminKey <> "" ->
     let c := {| BaseURL := if String.eqb baseURL ""
                            then "https://api.anthropic.com" else baseURL;
                 AdminKey := adminKey;
                 APIVersion := "2023-06-01";
                 Timeout := 30 |} in
     Configure getenv config resp =
     {| DataSourceData := Some c;
        ResourceData := Some c;
        ConfigureDiags := ConfigureDiags resp |})
    /\
    (adminKey <> "" ->
     IsNull (ConfigBaseURL config) = true -> getenv "ANTHROPIC_BASE_URL" = "" ->
     BaseURL (NewClient adminKey) = "https://api.anthropic.com"
     /\ DataSourceData (Configure getenv config resp) = Some (NewClient adminKey)
     /\ ResourceData (Configure getenv config resp) = Some (NewClient adminKey)).
Proof.
  intros getenv config resp Hok adminKey baseURL.
  assert (Ha : (if negb (IsNull (ConfigAdminKey config))
                then ValueString (ConfigAdminKey config)
                else getenv "ANTHROPIC_ADMIN_KEY") = adminKey).
  { unfold adminKey, resolved. now destruct (IsNull (ConfigAdminKey config)). }
  assert (Hb : (if negb (IsNull (ConfigBaseURL config))
                then ValueString (ConfigBaseURL config)
                else getenv "ANTHROPIC_BASE_URL") = baseURL).
  { unfold baseURL, resolved. now destruct (IsNull (ConfigBaseURL config)). }
  split; [|split].
  - intros He. unfold Configure. rewrite Hok, Ha, He. cbn [String.eqb].
    now rewrite Append_first_error.
  - intros Hne c. unfold Configure. rewrite Hok, Ha, Hb.
    rewrite (proj2 (String.eqb_neq adminKey "") Hne).
    subst c. destruct (String.eqb baseURL ""); reflexivity.
  - intros Hne Hnull Henv.
    assert (Hurl : baseURL = "")
      by (unfold baseURL, resolved; now rewrite Hnull).
    unfold Configure. rewrite Hok, Ha, Hb, Hurl.
    rewrite (proj2 (String.eqb_neq adminKey "") Hne).
    repeat split.
Qed.

End ProviderFacts.

(** ** Draining the pages *)

Section PaginationFacts.
Context {HT : HTTPTransport} {UE : Unmarshal APIError}
        {ULW : Unmarshal (ListResponse Workspace)}
        {ULK : Unmarshal (ListResponse APIKey)}.

Lemma continues_false {T} (p : ListResponse T) :
  continues p = false -> negb (HasMore p) || isNil (LastID p) = true.
Proof.
  unfold continues. destruct (HasMore p); destruct (LastID p); simpl; congruence.
Qed.

Lemma continues_true {T} (p : ListResponse T) :
  continues p = true -> negb (HasMore p) || isNil (LastID p) = false.
Proof.
  unfold continues. destruct (HasMore p); destruct (LastID p); simpl; congruence.
Qed.

Lemma ListWorkspaces_page (d : Client) (afterID : string) (w : World)
    (res : HTTPResult) (r1 : Remote) (page : ListResponse Workspace) :
  roundTrip (remote w) (workspacesPageRequest d afterID) = (res, r1) ->
  delivers res page ->
  ListWorkspaces d 100 "" afterID w =
  ((page, None),
   {| remote := r1; trace := (trace w ++ [workspacesPageRequest d afterID])%list |}).
Proof.
  intros Hrt (code & body & -> & Hcode & Hbody & Hdec).
  unfold ListWorkspaces, bind.
  erewrite doRequest_decoded;
    [reflexivity | exact Hrt | exact Hcode | exact Hbody | exact Hdec].
Qed.

Lemma ListAPIKeys_page (d : Client) (config : APIKeysDataSource.Model)
    (afterID : string) (w : World)
    (res : HTTPResult) (r1 : Remote) (page : ListResponse APIKey) :
  roundTrip (remote w) (apiKeysPageRequest d config afterID) = (res, r1) ->
  delivers res page ->
  ListAPIKeys d 100 "" afterID
    (APIKeysDataSource.filterValue (APIKeysDataSource.FilterStatus config))
    (APIKeysDataSource.filterValue (APIKeysDataSource.FilterWorkspaceID config)) w =
  ((page, None),
   {| remote := r1; trace := (trace w ++ [apiKeysPageRequest d config afterID])%list |}).
Proof.
  intros Hrt (code & body & -> & Hcode & Hbody & Hdec).
  unfold ListAPIKeys, bind.
  erewrite doRequest_decoded;
    [reflexivity | exact Hrt | exact Hcode | exact Hbody | exact Hdec].
Qed.

Lemma serve_cons (r : Remote) (q : Request) (rest : list Request) :
  serve r (q :: rest) =
  let (res, r1) := roundTrip r q in
  let (out, r2) := serve r1 rest in (res :: out, r2).
Proof. reflexivity. Qed.

Lemma cursors_cons {T} (f : string -> Request) (afterID : string)
    (p : ListResponse T) (ps : list (ListResponse T)) :
  map f (cursors afterID (p :: ps)) =
  f afterID :: map f (cursors (derefString (LastID p)) ps).
Proof. reflexivity. Qed.

(** The shape of a drain: [pages] are the pages after which the loop goes
    on, [last] is the first page after which it does not. *)
Ltac drain_induction page_lemma :=
  intros pages; induction pages as [|p ps IH];
  intros last afterID acc w resps r' Hpages Hlast Hserve Hdel fuel Hfuel;
  (destruct fuel as [|fuel]; [simpl in Hfuel; lia|]);
  [ change (cursors afterID []) with [afterID] in *; cbn [map] in *
  | rewrite cursors_cons in * ];
  rewrite serve_cons in Hserve;
  match type of Hserve with
  | context [roundTrip ?r ?q] => destruct (roundTrip r q) as [res r1] eqn:Hrt
  end;
  [ cbn [serve] in Hserve; inversion Hserve; subst; clear Hserve;
    inversion Hdel as [|? ? ? ? Hd Hnil]; subst; inversion Hnil; subst;
    cbn [app]; simpl;
    unfold bind; erewrite page_lemma; [ | eassumption | eassumption ];
    rewrite (continues_false _ Hlast); unfold ret;
    rewrite app_nil_r; reflexivity
  | match type of Hserve with
    | context [serve ?r ?qs] => destruct (serve r qs) as [out r2] eqn:Hrest
    end;
    inversion Hserve; subst; clear Hserve;
    cbn [app] in Hdel; inversion Hdel as [|? ? ? ? Hd Htl]; subst;
    inversion Hpages as [|? ? Hp Hps]; subst;
    simpl; unfold bind;
    erewrite page_lemma; [ | eassumption | eassumption ];
    rewrite (continues_true _ Hp);
    simpl in Hfuel;
    erewrite IH; [ | eassumption | eassumption | eassumption | eassumption | lia ];
    cbn [trace remote];
    rewrite <- !app_assoc; reflexivity ].

Lemma workspaces_fetchAll_drains (d : Client) :
  forall (pages : list (ListResponse Workspace)) (last : ListResponse Workspace)
         (afterID : string) (acc : list Workspace) (w : World)
         (resps : list HTTPResult) (r' : Remote),
    Forall (fun p => continues p = true) pages ->
    continues last = false ->
    serve (remote w) (map (workspacesPageRequest d) (cursors afterID pages))
    = (resps, r') ->
    Forall2 delivers resps (pages ++ [last])%list ->
    forall fuel, List.length pages < fuel ->
    WorkspacesDataSource.fetchAll fuel d acc afterID w =
    (Some ((acc ++ concat (map Data (pages ++ [last])))%list, None),
     {| remote := r';
        trace := (trace w ++ map (workspacesPageRequest d)
                               (cursors afterID pages))%list |}).
Proof. drain_induction ListWorkspaces_page. Qed.

Lemma api_keys_fetchAll_drains (d : Client) (config : APIKeysDataSource.Model) :
  forall (pages : list (ListResponse APIKey)) (last : ListResponse APIKey)
         (afterID : string) (acc : list APIKey) (w : World)
         (resps : list HTTPResult) (r' : Remote),
    Forall (fun p => continues p = true) pages ->
    continues last = false ->
    serve (remote w) (map (apiKeysPageRequest d config) (cursors afterID pages))
    = (resps, r') ->
    Forall2 delivers resps (pages ++ [last])%list ->
    forall fuel, List.length pages < fuel ->
    APIKeysDataSource.fetchAll fuel d
      (APIKeysDataSource.filterValue (APIKeysDataSource.FilterStatus config))
      (APIKeysDataSource.filterValue (APIKeysDataSource.FilterWorkspaceID config))
      acc afterID w =
    (Some ((acc ++ concat (map Data (pages ++ [last])))%list, None),
     {| remote := r';
        trace := (trace w ++ map (apiKeysPageRequest d config)
                               (cursors afterID pages))%list |}).
Proof. drain_induction ListAPIKeys_page. Qed.

(** C3, as amended. Take any run of the remote in which the collection data
    source is served the pages [pages] followed by [last], where every page
    of [pages] reports more data and carries a last-id (a pointer that is
    not nil, whatever string it points to) and [last] is the first page
    that does not. Then the data source, given fuel for these pages, issues
    exactly one List request per page, each with limit=100 and with the
    last-id of the page before it as after-cursor (none for the first), and
    stops after [last]; it stores the items of all the pages, concatenated
    in the order received. The API-keys variant puts the status and the
    workspace filter of the configuration, unchanged, in every page
    request. *)
Theorem collection_drains_all_pages :
  (forall (d : Client) (config : WorkspacesDataSource.Model)
          (resp : Response WorkspacesDataSource.Model) (w : World)
          (pages : list (ListResponse Workspace)) (last : ListResponse Workspace)
          (resps : list HTTPResult) (r' : Remote),
      HasError (Diags resp) = false ->
      Forall (fun p => continues p = true) pages ->
      continues last = false ->
      let reqs :=
        map (fun afterID =>
               newRequest d "GET" (listWorkspacesPath 100 "" afterID) None)
            (cursors "" pages) in
      serve (remote w) reqs = (resps, r') ->
      Forall2 delivers resps (pages ++ [last])%list ->
      forall fuel, List.length pages < fuel ->
      WorkspacesDataSource.Read fuel d config resp w =
      (Some {| State := Some
                 {| WorkspacesDataSource.Workspaces :=
                      map WorkspacesDataSource.toModel
                          (concat (map Data (pages ++ [last])%list)) |};
               Diags := Diags resp |},
       {| remote := r'; trace := (trace w ++ reqs)%list |})
      /\ List.length reqs = List.length (pages ++ [last])%list)
  /\
  (forall (d : Client) (config : APIKeysDataSource.Model)
          (resp : Response APIKeysDataSource.Model) (w : World)
          (pages : list (ListResponse APIKey)) (last : ListResponse APIKey)
          (resps : list HTTPResult) (r' : Remote),
      HasError (Diags resp) = false ->
      Forall (fun p => continues p = true) pages ->
      continues last = false ->
      let status :=
        APIKeysDataSource.filterValue (APIKeysDataSource.FilterStatus config) in
      let workspaceID :=
        APIKeysDataSource.filterValue (APIKeysDataSource.FilterWorkspaceID config) in
      let reqs :=
        map (fun afterID =>
               newRequest d "GET"
                 (listAPIKeysPath 100 "" afterID status workspaceID) None)
            (cursors "" pages) in
      serve (remote w) reqs = (resps, r') ->
      Forall2 delivers resps (pages ++ [last])%list ->
      forall fuel, List.length pages < fuel ->
      APIKeysDataSource.Read fuel d config resp w =
      (Some {| State := Some
                 {| APIKeysDataSource.FilterWorkspaceID :=
                      APIKeysDataSource.FilterWorkspaceID config;
                    APIKeysDataSource.FilterStatus :=
                      APIKeysDataSource.FilterStatus config;
                    APIKeysDataSource.APIKeys :=
                      map APIKeysDataSource.toModel
                          (concat (map Data (pages ++ [last])%list)) |};
               Diags := Diags resp |},
       {| remote := r'; trace := (trace w ++ reqs)%list |})
      /\ List.length reqs = List.length (pages ++ [last])%list).
Proof.
  split.
  - intros d config resp w pages last resps r' Hok Hpages Hlast reqs
           Hserve Hdel fuel Hfuel.
    split.
    + unfold WorkspacesDataSource.Read. rewrite Hok. unfold bind.
      erewrite workspaces_fetchAll_drains; try eassumption.
      reflexivity.
    + subst reqs. unfold cursors. cbn [map List.length].
      rewrite !length_map, length_app. cbn. lia.
  - intros d config resp w pages last resps r' Hok Hpages Hlast
           status workspaceID reqs Hserve Hdel fuel Hfuel.
    split.
    + unfold APIKeysDataSource.Read. rewrite Hok. unfold bind.
      erewrite api_keys_fetchAll_drains; try eassumption.
      reflexivity.
    + subst reqs. unfold cursors. cbn [map List.length].
      rewrite !length_map, length_app. cbn. lia.
Qed.

End PaginationFacts.

(* ====================================================================== *)
(** * Runs on the scripted remote *)

Section Runs.
#[local] Existing Instance ScriptedTransport.
#[local] Existing Instance sampleErrors.
#[local] Existing Instance sampleWorkspaces.
#[local] Existing Instance sampleKeys.
#[local] Existing Instance sampleMembers.
#[local] Existing Instance sampleInvites.
#[local] Existing Instance sampleKeyPages.
#[local] Existing Instance sampleWorkspacePages.

(** Adding user_xyz789 to wrkspc_abc123 stores the id
    "wrkspc_abc123/user_xyz789"; importing that id gives the two parts back;
    an id with two slashes is refused. *)
Lemma workspace_member_composite_id_run :
  fst (WorkspaceMemberResource.Create sampleClient
         {| CreatePlan := plannedMember |} fresh
         (scripted [HTTPResponse 200 "member"]))
  = {| State := Some
         {| WorkspaceMemberResource.ID := StringValue "wrkspc_abc123/user_xyz789";
            WorkspaceMemberResource.WorkspaceID := StringValue "wrkspc_abc123";
            WorkspaceMemberResource.UserID := StringValue "user_xyz789";
            WorkspaceMemberResource.WorkspaceRole :=
              StringValue "workspace_developer" |};
       Diags := [] |}
  /\
  WorkspaceMemberResource.ImportState
    {| ImportID := "wrkspc_abc123/user_xyz789" |} fresh
  = {| State := Some
         {| WorkspaceMemberResource.ID := StringValue "wrkspc_abc123/user_xyz789";
            WorkspaceMemberResource.WorkspaceID := StringValue "wrkspc_abc123";
            WorkspaceMemberResource.UserID := StringValue "user_xyz789";
            WorkspaceMemberResource.WorkspaceRole := StringNull |};
       Diags := [] |}
  /\
  WorkspaceMemberResource.ImportState
    {| ImportID := MemWorkspaceID sampleMember ++ "/" ++ MemUserID sampleMember |}
    fresh
  = {| State := Some
         {| WorkspaceMemberResource.ID := StringValue "wrkspc_abc123/user_xyz789";
            WorkspaceMemberResource.WorkspaceID := StringValue "wrkspc_abc123";
            WorkspaceMemberResource.UserID := StringValue "user_xyz789";
            WorkspaceMemberResource.WorkspaceRole := StringNull |};
       Diags := [] |}
  /\
  (let resp' := WorkspaceMemberResource.ImportState
                  {| ImportID := "bad-format-no-slash-or-two/slashes/here" |}
                  (@fresh WorkspaceMemberResource.Model) in
   State resp' = None
   /\ Diags resp' =
      [ErrorDiagnostic "Invalid Import ID"
         "Expected import ID format: workspace_id/user_id, got: bad-format-no-slash-or-two/slashes/here"]).
Proof.
  destruct (@workspace_member_composite_id ScriptedTransport sampleErrors
              sampleMembers) as (_ & Hcreate & Himport & Hround & Hfail).
  split; [|split; [|split]].
  - erewrite Hcreate; cycle 1.
    + reflexivity.
    + vm_compute. reflexivity.
    + reflexivity.
  - destruct (Himport "wrkspc_abc123/user_xyz789" fresh eq_refl)
      as (a & b & Hs & _ & Hrun).
    vm_compute in Hs. injection Hs as <- <-. rewrite Hrun. reflexivity.
  - rewrite (Hround sampleMember fresh eq_refl). reflexivity.
  - destruct (Hfail "bad-format-no-slash-or-two/slashes/here" fresh)
      as (Hstate & _ & _ & Hdiags).
    + vm_compute. discriminate.
    + split; [exact Hstate | exact (Hdiags eq_refl)].
Defined.

(** The two error shapes and a body that is not JSON, behind a 404, a 400
    and a 502. *)
Lemma doRequest_failure_reply_run :
  snd (fst (doRequest sampleClient "GET" "/v1/organizations/workspaces/wrkspc_gone"
              (@None NoBody) (Some (zero : Workspace))
              (scripted [HTTPResponse 404 "error-nested"])))
  = Some "API error (status 404): t: m"
  /\
  snd (fst (doRequest sampleClient "GET" "/v1/organizations/workspaces/wrkspc_gone"
              (@None NoBody) (Some (zero : Workspace))
              (scripted [HTTPResponse 400 "error-flat"])))
  = Some "API error (status 400): error: x"
  /\
  snd (fst (doRequest sampleClient "GET" "/v1/organizations/workspaces/wrkspc_gone"
              (@None NoBody) (Some (zero : Workspace))
              (scripted [HTTPResponse 502 "Bad Gateway"])))
  = Some "API error (status 502): Bad Gateway".
Proof.
  split; [|split].
  - destruct (@doRequest_failure_reply ScriptedTransport sampleErrors
                NoBody Workspace _ _ sampleClient "GET"
                "/v1/organizations/workspaces/wrkspc_gone" None (Some zero)
                (scripted [HTTPResponse 404 "error-nested"])
                404%Z "error-nested" [] eq_refl ltac:(lia))
      as (msg & Hrun & Hdecoded & _).
    rewrite Hrun. cbn [fst snd]. rewrite (Hdecoded _ eq_refl). reflexivity.
  - destruct (@doRequest_failure_reply ScriptedTransport sampleErrors
                NoBody Workspace _ _ sampleClient "GET"
                "/v1/organizations/workspaces/wrkspc_gone" None (Some zero)
                (scripted [HTTPResponse 400 "error-flat"])
                400%Z "error-flat" [] eq_refl ltac:(lia))
      as (msg & Hrun & Hdecoded & _).
    rewrite Hrun. cbn [fst snd]. rewrite (Hdecoded _ eq_refl). reflexivity.
  - destruct (@doRequest_failure_reply ScriptedTransport sampleErrors
                NoBody Workspace _ _ sampleClient "GET"
                "/v1/organizations/workspaces/wrkspc_gone" None (Some zero)
                (scripted [HTTPResponse 502 "Bad Gateway"])
                502%Z "Bad Gateway" [] eq_refl ltac:(lia))
      as (msg & Hrun & _ & Hraw).
    rewrite Hrun. cbn [fst snd]. rewrite (Hraw zero "invalid character" eq_refl).
    reflexivity.
Defined.

(** A 304 is outside the 2xx range and yet no failure: the claim C2 as first
    stated does not hold. *)
Lemma not_modified_is_no_failure :
  ~ (200 <= 304 <= 299)%Z
  /\ doRequest sampleClient "GET" "/v1/organizations/workspaces/wrkspc_abc123"
       (@None NoBody) (Some (zero : Workspace))
       (scripted [HTTPResponse 304 ""])
     = ((Some (zero : Workspace), None),
        {| remote := [];
           trace := [newRequest sampleClient "GET"
                       "/v1/organizations/workspaces/wrkspc_abc123" None] |}).
Proof. split; [lia | reflexivity]. Qed.

(** Three pages of 100, 100 and 40 items: three requests, the second and
    the third carrying the last id of the page before, and 240 items in the
    order received. *)
Lemma collection_drains_all_pages_run :
  (let out := WorkspacesDataSource.Read 3 sampleClient
                {| WorkspacesDataSource.Workspaces := [] |} fresh
                (scripted threePages) in
   fst out =
   Some {| State := Some
             {| WorkspacesDataSource.Workspaces :=
                  map WorkspacesDataSource.toModel
                      (map sampleWorkspace (seq 1 240)) |};
           Diags := [] |}
   /\ map URL (trace (snd out)) =
      ["https://api.anthropic.com/v1/organizations/workspaces?limit=100";
       "https://api.anthropic.com/v1/organizations/workspaces?limit=100&after_id=wrkspc_100";
       "https://api.anthropic.com/v1/organizations/workspaces?limit=100&after_id=wrkspc_200"])
  /\
  (let out := APIKeysDataSource.Read 3 sampleClient activeInWorkspace fresh
                (scripted threePages) in
   fst out =
   Some {| State := Some
             {| APIKeysDataSource.FilterWorkspaceID := StringValue "wrkspc_abc123";
                APIKeysDataSource.FilterStatus := StringValue "active";
                APIKeysDataSource.APIKeys :=
                  map APIKeysDataSource.toModel (map sampleKey (seq 1 240)) |};
           Diags := [] |}
   /\ map URL (trace (snd out)) =
      ["https://api.anthropic.com/v1/organizations/api_keys?limit=100&status=active&workspace_id=wrkspc_abc123";
       "https://api.anthropic.com/v1/organizations/api_keys?limit=100&after_id=apikey_100&status=active&workspace_id=wrkspc_abc123";
       "https://api.anthropic.com/v1/organizations/api_keys?limit=100&after_id=apikey_200&status=active&workspace_id=wrkspc_abc123"])
  /\ List.length (map sampleKey (seq 1 240)) = 240
  /\ List.length (map sampleWorkspace (seq 1 240)) = 240.
Proof.
  destruct (@collection_drains_all_pages ScriptedTransport sampleErrors
              sampleWorkspacePages sampleKeyPages) as [Hws Hkeys].
  split; [|split; [|split; vm_compute; reflexivity]].
  - assert (Hrun := Hws sampleClient {| WorkspacesDataSource.Workspaces := [] |}
                      fresh (scripted threePages)
                      [workspacePage1; workspacePage2] workspacePage3
                      threePages [] eq_refl).
    specialize (Hrun ltac:(repeat constructor) eq_refl).
    specialize (Hrun ltac:(vm_compute; reflexivity)).
    assert (Hdel : Forall2 delivers threePages
                     [workspacePage1; workspacePage2; workspacePage3]).
    { repeat constructor.
      - exists 200%Z, "page-1".
        split; [reflexivity|]. split; [lia|]. split; [discriminate|].
        vm_compute. reflexivity.
      - exists 200%Z, "page-2".
        split; [reflexivity|]. split; [lia|]. split; [discriminate|].
        vm_compute. reflexivity.
      - exists 200%Z, "page-3".
        split; [reflexivity|]. split; [lia|]. split; [discriminate|].
        vm_compute. reflexivity. }
    destruct (Hrun Hdel 3 ltac:(simpl; lia)) as [Hout _].
    cbv zeta. rewrite Hout. split; vm_compute; reflexivity.
  - assert (Hrun := Hkeys sampleClient activeInWorkspace
                      fresh (scripted threePages)
                      [keyPage1; keyPage2] keyPage3
                      threePages [] eq_refl).
    specialize (Hrun ltac:(repeat constructor) eq_refl).
    specialize (Hrun ltac:(vm_compute; reflexivity)).
    assert (Hdel : Forall2 delivers threePages [keyPage1; keyPage2; keyPage3]).
    { repeat constructor.
      - exists 200%Z, "page-1".
        split; [reflexivity|]. split; [lia|]. split; [discriminate|].
        vm_compute. reflexivity.
      - exists 200%Z, "page-2".
        split; [reflexivity|]. split; [lia|]. split; [discriminate|].
        vm_compute. reflexivity.
      - exists 200%Z, "page-3".
        split; [reflexivity|]. split; [lia|]. split; [discriminate|].
        vm_compute. reflexivity. }
    destruct (Hrun Hdel 3 ltac:(simpl; lia)) as [Hout _].
    cbv zeta. rewrite Hout. split; vm_compute; reflexivity.
Defined.

(** A page that reports more data and whose last-id is the empty string does
    not end the drain: a second request follows, again without after-cursor.
    So the loop does not stop on an empty last-id, as C3 was first stated. *)
Lemma empty_last_id_does_not_stop :
  HasMore keyPageEmptyCursor = true
  /\ LastID keyPageEmptyCursor = Some ""
  /\ APIKeysDataSource.Read 2 sampleClient noFilter fresh
       (scripted [HTTPResponse 200 "page-empty-cursor"; HTTPResponse 200 "page-final"])
     = (Some {| State := Some
                  {| APIKeysDataSource.FilterWorkspaceID := StringNull;
                     APIKeysDataSource.FilterStatus := StringNull;
                     APIKeysDataSource.APIKeys :=
                       map APIKeysDataSource.toModel [sampleKey 1; sampleKey 2] |};
                Diags := [] |},
        {| remote := [];
           trace :=
             [newRequest sampleClient "GET"
                "/v1/organizations/api_keys?limit=100" None;
              newRequest sampleClient "GET"
                "/v1/organizations/api_keys?limit=100" None] |}).
Proof. split; [|split]; vm_compute; reflexivity. Qed.

(** Changing only the status sends only the status; changing nothing sends
    an empty object. *)
Lemma api_key_update_is_differential_run :
  trace (snd (APIKeyResource.Update sampleClient
                {| UpdatePlan := plannedKey (StringValue "ci") (StringValue "inactive");
                   UpdateState := storedKey |}
                (stored storedKey) (scripted [HTTPResponse 200 "apikey"])))
  = [newRequest sampleClient "POST" "/v1/organizations/api_keys/apikey_1"
       (Some [("status", "inactive")])]
  /\
  trace (snd (APIKeyResource.Update sampleClient
                {| UpdatePlan := plannedKey (StringValue "ci") (StringValue "active");
                   UpdateState := storedKey |}
                (stored storedKey) (scripted [HTTPResponse 200 "apikey"])))
  = [newRequest sampleClient "POST" "/v1/organizations/api_keys/apikey_1"
       (Some [])].
Proof.
  split.
  - destruct (api_key_update_is_differential sampleClient
                {| UpdatePlan := plannedKey (StringValue "ci") (StringValue "inactive");
                   UpdateState := storedKey |}
                (stored storedKey) (scripted [HTTPResponse 200 "apikey"]) eq_refl)
      as (body & Htrace & _ & _ & _ & _ & _ & _ & Honly).
    rewrite (Htrace I). rewrite (Honly eq_refl eq_refl ltac:(discriminate)).
    reflexivity.
  - destruct (api_key_update_is_differential sampleClient
                {| UpdatePlan := plannedKey (StringValue "ci") (StringValue "active");
                   UpdateState := storedKey |}
                (stored storedKey) (scripted [HTTPResponse 200 "apikey"]) eq_refl)
      as (body & Htrace & _ & _ & _ & _ & _ & Hnone & _).
    rewrite (Htrace I). rewrite (Hnone eq_refl eq_refl). reflexivity.
Defined.

(** A planned name that is the empty string differs from the stored name
    and is not in the body; a planned status that is unknown differs from
    the stored status, is not null, and is not in the body either. So the
    body does not hold a field whenever it differs, as C4 was first
    stated. *)
Lemma changed_field_not_sent :
  (Equal (StringValue "") (APIKeyResource.Name storedKey) = false
   /\ trace (snd (APIKeyResource.Update sampleClient
                    {| UpdatePlan := plannedKey (StringValue "") (StringValue "active");
                       UpdateState := storedKey |}
                    (stored storedKey) (scripted [HTTPResponse 200 "apikey"])))
      = [newRequest sampleClient "POST" "/v1/organizations/api_keys/apikey_1"
           (Some [])]
   /\ has_member "name" [] = false)
  /\
  (Equal StringUnknown (APIKeyResource.Status storedKey) = false
   /\ IsNull StringUnknown = false
   /\ trace (snd (APIKeyResource.Update sampleClient
                    {| UpdatePlan := plannedKey (StringValue "ci") StringUnknown;
                       UpdateState := storedKey |}
                    (stored storedKey) (scripted [HTTPResponse 200 "apikey"])))
      = [newRequest sampleClient "POST" "/v1/organizations/api_keys/apikey_1"
           (Some [])]
   /\ has_member "status" [] = false).
Proof. repeat split. Qed.



(** The stored secret after a Read and after an Update whose responses
    carry no key. *)
Lemma api_key_secret_kept_run :
  (exists m,
      State (fst (APIKeyResource.Read sampleClient {| ReadState := storedKey |}
                    (stored storedKey) (scripted [HTTPResponse 200 "apikey"])))
      = Some m
      /\ APIKeyResource.Key m = StringValue "sk-ant-api03-secret")
  /\
  (exists m,
      State (fst (APIKeyResource.Update sampleClient
                    {| UpdatePlan := plannedKey (StringValue "ci2") StringUnknown;
                       UpdateState := storedKey |}
                    (stored storedKey) (scripted [HTTPResponse 200 "apikey"])))
      = Some m
      /\ APIKeyResource.Key m = StringValue "sk-ant-api03-secret").
Proof.
  destruct (@api_key_secret_kept ScriptedTransport sampleErrors sampleKeys)
    as [Hread Hupdate].
  split.
  - destruct (Hread sampleClient {| ReadState := storedKey |} (stored storedKey)
                (scripted [HTTPResponse 200 "apikey"]) eq_refl eq_refl)
      as (m & Hstate & _ & Hkept).
    exists m. split; [exact Hstate|].
    apply Hkept; [discriminate | reflexivity].
  - destruct (Hupdate sampleClient
                {| UpdatePlan := plannedKey (StringValue "ci2") StringUnknown;
                   UpdateState := storedKey |}
                (stored storedKey)
                (scripted [HTTPResponse 200 "apikey"]) eq_refl eq_refl)
      as (m & Hstate & _ & Hkept).
    exists m. split; [exact Hstate|].
    apply Hkept; [discriminate | reflexivity].
Defined.

(** An update of a workspace while the remote cannot be reached. *)
Lemma failure_leaves_state_run :
  fst (handler KWorkspace TUpdate sampleClient storedWorkspace storedWorkspace
         (stored storedWorkspace) (scripted []))
  = {| State := Some storedWorkspace;
       Diags := [ErrorDiagnostic "Client Error"
                   "Unable to update workspace: request failed: connection refused"] |}.
Proof.
  assert (Hop : domainOperation KWorkspace TUpdate sampleClient
                  storedWorkspace storedWorkspace (scripted [])
                = (Some "request failed: connection refused",
                   snd (domainOperation KWorkspace TUpdate sampleClient
                          storedWorkspace storedWorkspace (scripted []))))
    by (vm_compute; reflexivity).
  destruct (@failure_leaves_state ScriptedTransport sampleErrors
              sampleWorkspaces sampleKeys sampleMembers sampleInvites
              KWorkspace TUpdate sampleClient
              storedWorkspace storedWorkspace (stored storedWorkspace)
              (scripted []) _ _ eq_refl Hop) as (Hrun & _ & _).
  rewrite Hrun. reflexivity.
Defined.

(** Configuration with an explicit key and nothing else, and with nothing
    at all. *)
Lemma configure_resolves_credential_run :
  AnthropicProvider.Configure noEnvironment
    {| AnthropicProvider.ConfigAdminKey := StringValue "sk-ant-admin-1";
       AnthropicProvider.ConfigBaseURL := StringNull |}
    {| AnthropicProvider.DataSourceData := None;
       AnthropicProvider.ResourceData := None;
       AnthropicProvider.ConfigureDiags := [] |}
  = (let c := {| BaseURL := "https://api.anthropic.com";
                 AdminKey := "sk-ant-admin-1";
                 APIVersion := "2023-06-01";
                 Timeout := 30 |} in
     {| AnthropicProvider.DataSourceData := Some c;
        AnthropicProvider.ResourceData := Some c;
        AnthropicProvider.ConfigureDiags := [] |})
  /\
  AnthropicProvider.Configure noEnvironment
    {| AnthropicProvider.ConfigAdminKey := StringNull;
       AnthropicProvider.ConfigBaseURL := StringNull |}
    {| AnthropicProvider.DataSourceData := None;
       AnthropicProvider.ResourceData := None;
       AnthropicProvider.ConfigureDiags := [] |}
  = {| AnthropicProvider.DataSourceData := None;
       AnthropicProvider.ResourceData := None;
       AnthropicProvider.ConfigureDiags :=
         [ErrorDiagnostic "Missing Admin Key"
            "The admin_key must be set in the provider configuration or via the ANTHROPIC_ADMIN_KEY environment variable."] |}.
Proof.
  split.
  - destruct (configure_resolves_credential noEnvironment
                {| AnthropicProvider.ConfigAdminKey := StringValue "sk-ant-admin-1";
                   AnthropicProvider.ConfigBaseURL := StringNull |}
                {| AnthropicProvider.DataSourceData := None;
                   AnthropicProvider.ResourceData := None;
                   AnthropicProvider.ConfigureDiags := [] |} eq_refl)
      as (_ & Hclient & _).
    rewrite (Hclient ltac:(discriminate)). reflexivity.
  - destruct (configure_resolves_credential noEnvironment
                {| AnthropicProvider.ConfigAdminKey := StringNull;
                   AnthropicProvider.ConfigBaseURL := StringNull |}
                {| AnthropicProvider.DataSourceData := None;
                   AnthropicProvider.ResourceData := None;
                   AnthropicProvider.ConfigureDiags := [] |} eq_refl)
      as (Hmissing & _ & _).
    rewrite (Hmissing eq_refl). reflexivity.
Defined.

End Runs.

(* ====================================================================== *)
(** * Further properties *)

(** ** Strings *)

Lemma append_assoc (a b c : string) : (a ++ b) ++ c = a ++ (b ++ c).
Proof. induction a as [|x a IH]; simpl; [reflexivity | now rewrite IH]. Qed.

Lemma append_empty_r (a : string) : a ++ "" = a.
Proof. induction a as [|x a IH]; simpl; [reflexivity | now rewrite IH]. Qed.

(** ** The transport, further *)

Section TransportMore.
Context {HT : HTTPTransport} {UE : Unmarshal APIError}.

(** X1. A call of [doRequest] makes one attempt at one request: the one
    with the given verb, the base URL followed by the path as URL, the three
    fixed headers and the encoded body. Once that request is created, the
    trace grows by it and by nothing else, and the remote is the one left by
    that single round trip, whatever the reply: there is no retry. When the
    request cannot be created, the call returns "failed to create request"
    with the result untouched, and nothing is issued. *)
Theorem doRequest_single_attempt :
  forall (B T : Type) (MB : Marshal B) (UT : Unmarshal T)
         (c : Client) (method path : string) (body : option B)
         (result : option T) (w : World),
    let req := {| Method := method;
                  URL := BaseURL c ++ path;
                  Header := [("x-api-key", AdminKey c);
                             ("anthropic-version", APIVersion c);
                             ("Content-Type", "application/json")];
                  Body := option_map marshal body |} in
    (requestCreated (fst (roundTrip (remote w) req)) ->
     trace (snd (doRequest c method path body result w)) = (trace w ++ [req])%list
     /\ remote (snd (doRequest c method path body result w))
        = snd (roundTrip (remote w) req))
    /\ (forall msg,
           fst (roundTrip (remote w) req) = NewRequestError msg ->
           doRequest c method path body result w =
           ((result, Some ("failed to create request: " ++ msg)), w)).
Proof.
  intros B T MB UT c method path body result w req. split.
  - intros Hc.
    destruct (doRequest_trace c method path body result w) as [out E].
    rewrite E. cbn [snd].
    change (newRequest c method path (option_map marshal body)) with req.
    rewrite (afterAttempt_created w req Hc). split; reflexivity.
  - intros msg Hmsg. apply doRequest_not_created. exact Hmsg.
Qed.

(** X2. [doRequest] returns no error exactly when the reply is an HTTP
    response with a status below 400 and either there is no result to fill,
    or the body is empty, or the body decodes into the result. *)
Theorem doRequest_succeeds_iff :
  forall (B T : Type) (MB : Marshal B) (UT : Unmarshal T)
         (c : Client) (method path : string) (body : option B)
         (result : option T) (w : World),
    let req := newRequest c method path (option_map marshal body) in
    snd (fst (doRequest c method path body result w)) = None
    <->
    exists code respBody,
      fst (roundTrip (remote w) req) = HTTPResponse code respBody
      /\ (code < 400)%Z
      /\ fills respBody result.
Proof.
  intros B T MB UT c method path body result w req.
  unfold doRequest, bind, send. fold req.
  destruct (roundTrip (remote w) req) as [res r']. cbn [fst].
  cbv beta iota.
  destruct res as [msg|msg|msg|code respBody]; unfold ret; cbn [fst snd];
    try (split; [discriminate | intros (code & b & Hres & _); discriminate]).
  destruct (Z.leb_spec 400 code) as [Hge|Hlt].
  - rewrite Z.geb_leb. rewrite (proj2 (Z.leb_le 400 code) Hge).
    split.
    + destruct (unmarshal respBody zero) as [apiErr [e|]]; discriminate.
    + intros (code' & b & Hres & Hlt & _). inversion Hres; subst. lia.
  - rewrite Z.geb_leb. rewrite (proj2 (Z.leb_gt 400 code) Hlt).
    destruct result as [r0|]; cbn [fst snd].
    + destruct respBody as [|a rest].
      * cbn. split; [intros _|reflexivity].
        exists code, "". cbn. auto.
      * cbn [String.length Nat.ltb Nat.leb].
        destruct (unmarshal (String a rest) r0) as [r1 [e|]] eqn:Hdec;
          cbn [fst snd].
        -- split; [discriminate|].
           intros (code' & b & Hres & _ & Hfill). inversion Hres; subst.
           cbn in Hfill. rewrite Hdec in Hfill. cbn in Hfill.
           destruct Hfill; discriminate.
        -- split; [intros _|reflexivity].
           exists code, (String a rest). cbn. rewrite Hdec. auto.
    + split; [intros _|reflexivity].
      exists code, respBody. cbn. auto.
Qed.

(** A reply below 400 with an empty body leaves the result as it was. *)
Lemma doRequest_empty_body {B T} `{Marshal B} `{Unmarshal T}
    (c : Client) (method path : string) (body : option B) (r0 : T)
    (w : World) (code : Z) (r' : Remote) :
  roundTrip (remote w) (newRequest c method path (option_map marshal body))
  = (HTTPResponse code "", r') ->
  (code < 400)%Z ->
  doRequest c method path body (Some r0) w =
  ((Some r0, None),
   {| remote := r';
      trace := (trace w ++ [newRequest c method path
                              (option_map marshal body)])%list |}).
Proof.
  intros Hrt Hcode. unfold doRequest, bind, send. rewrite Hrt.
  assert (Hge : (code >=? 400)%Z = false)
    by (rewrite Z.geb_leb; apply Z.leb_gt; lia).
  rewrite Hge. reflexivity.
Qed.

(** A failing reply gives an error and leaves the result as it was. *)
Lemma doRequest_failing {B T} `{Marshal B} `{Unmarshal T}
    (c : Client) (method path : string) (body : option B) (result : option T)
    (w : World) (res : HTTPResult) (r' : Remote) :
  roundTrip (remote w) (newRequest c method path (option_map marshal body))
  = (res, r') ->
  failing res ->
  exists e,
    doRequest c method path body result w =
    ((result, Some e),
     {| remote := r';
        trace := (trace w ++ [newRequest c method path
                                (option_map marshal body)])%list |}).
Proof.
  intros Hrt Hfail. unfold doRequest, bind, send. rewrite Hrt.
  destruct res as [msg|msg|msg|code respBody]; unfold ret; eauto;
    [destruct Hfail|].
  cbn in Hfail.
  assert (Hge : (code >=? 400)%Z = true) by (apply Z.geb_le; lia).
  rewrite Hge.
  destruct (unmarshal respBody zero) as [apiErr [e|]]; eauto.
Qed.

End TransportMore.

(** ** Query strings of the List operations *)

Section QueryStrings.

Lemma appendParams_rest (params : list string) (path : string) (i : nat) :
  0 < i ->
  appendParams path i params = path ++ joinAll (map (fun q => "&" ++ q) params).
Proof.
  revert path i. induction params as [|p rest IH]; intros path i Hi; cbn.
  - now rewrite append_empty_r.
  - destruct i as [|i]; [lia|]. cbn [Nat.ltb Nat.leb].
    rewrite IH by lia. now rewrite !append_assoc.
Qed.

Lemma withParams_query (path : string) (params : list string) :
  withParams path params = path ++ query params.
Proof.
  unfold withParams, query. destruct params as [|p rest]; cbn.
  - now rewrite append_empty_r.
  - rewrite appendParams_rest by lia. now rewrite !append_assoc.
Qed.

Lemma appendIf_app (cond : bool) (p : string) (params : list string) :
  appendIf cond p params = (params ++ (if cond then [p] else []))%list.
Proof. unfold appendIf. destruct cond; [reflexivity | now rewrite app_nil_r]. Qed.

Lemma cursor_params (limit : Z) (beforeID afterID : string) :
  appendIf (nonEmpty afterID) ("after_id=" ++ afterID)
    (appendIf (nonEmpty beforeID) ("before_id=" ++ beforeID)
       (appendIf (0 <? limit)%Z ("limit=" ++ itoa limit) []))
  = (limitParam limit ++ present "before_id" beforeID
     ++ present "after_id" afterID)%list.
Proof.
  rewrite !appendIf_app. unfold limitParam, present. cbn [app].
  now rewrite <- app_assoc.
Qed.

(** X4. The path of each List operation is its base path followed by the
    query string of the parameters that are present, in the fixed order
    limit, before_id, after_id (then status, workspace_id for API keys): a
    limit only when positive, a cursor or filter only when not empty; with
    none of them there is no [?]. *)
Theorem list_paths_are_queries :
  forall (limit : Z) (beforeID afterID status workspaceID : string),
    let cursors := (limitParam limit ++ present "before_id" beforeID
                    ++ present "after_id" afterID)%list in
    listWorkspacesPath limit beforeID afterID
    = "/v1/organizations/workspaces" ++ query cursors
    /\ listAPIKeysPath limit beforeID afterID status workspaceID
       = "/v1/organizations/api_keys"
         ++ query (cursors ++ present "status" status
                   ++ present "workspace_id" workspaceID)%list
    /\ listWorkspaceMembersPath workspaceID limit beforeID afterID
       = ("/v1/organizations/workspaces/" ++ workspaceID ++ "/members")
         ++ query cursors
    /\ listOrganizationMembersPath limit beforeID afterID
       = "/v1/organizations/users" ++ query cursors
    /\ listInvitesPath limit beforeID afterID
       = "/v1/organizations/invites" ++ query cursors.
Proof.
  intros limit beforeID afterID status workspaceID cursors. subst cursors.
  unfold listWorkspacesPath, listAPIKeysPath, listWorkspaceMembersPath,
         listOrganizationMembersPath, listInvitesPath.
  cbv zeta. rewrite !withParams_query.
  rewrite !(appendIf_app (nonEmpty workspaceID)), !(appendIf_app (nonEmpty status)).
  rewrite !cursor_params.
  unfold present at 4 5. rewrite <- !app_assoc.
  repeat split.
Qed.

(** X5. A limit that is zero or negative is left out: with such a limit
    and empty cursors (and filters) every List path is the bare base path. *)
Theorem list_paths_without_parameters :
  forall (limit : Z) (workspaceID : string),
    (limit <= 0)%Z ->
    listWorkspacesPath limit "" "" = "/v1/organizations/workspaces"
    /\ listAPIKeysPath limit "" "" "" "" = "/v1/organizations/api_keys"
    /\ listWorkspaceMembersPath workspaceID limit "" ""
       = "/v1/organizations/workspaces/" ++ workspaceID ++ "/members"
    /\ listOrganizationMembersPath limit "" "" = "/v1/organizations/users"
    /\ listInvitesPath limit "" "" = "/v1/organizations/invites".
Proof.
  intros limit workspaceID Hlimit.
  assert (Hl : (0 <? limit)%Z = false) by (apply Z.ltb_ge; lia).
  unfold listWorkspacesPath, listAPIKeysPath, listWorkspaceMembersPath,
         listOrganizationMembersPath, listInvitesPath.
  cbv zeta. rewrite Hl. cbn. repeat split.
Qed.

End QueryStrings.

(** ** The handlers, further *)

(** Settle what a handler leaves behind once its one [doRequest] has run. *)
Ltac settle_attempt w q err :=
  match goal with
  | |- context [snd ?out] =>
      replace (snd out) with (afterAttempt w q) by (destruct err; reflexivity)
  end;
  split;
  [ let Hc := fresh "Hc" in
    intros Hc; rewrite (afterAttempt_created w q Hc); reflexivity
  | apply afterAttempt_not_created ].

Section HandlersMore.
Context {HT : HTTPTransport} {UE : Unmarshal APIError}.
Context {UW : Unmarshal Workspace} {UK : Unmarshal APIKey}
        {UM : Unmarshal WorkspaceMember} {UI : Unmarshal Invite}
        {UO : Unmarshal OrganizationMember}.

Ltac unfold_handlers :=
  unfold WorkspaceResource.Create, WorkspaceResource.Read,
         WorkspaceResource.Update, WorkspaceResource.Delete,
         APIKeyResource.Create, APIKeyResource.Read,
         APIKeyResource.Update, APIKeyResource.Delete,
         WorkspaceMemberResource.Create, WorkspaceMemberResource.Read,
         WorkspaceMemberResource.Update, WorkspaceMemberResource.Delete,
         InviteResource.Create, InviteResource.Read,
         InviteResource.Update, InviteResource.Delete;
  cbn [CreatePlan ReadState UpdatePlan UpdateState DeleteState].

Ltac unfold_operations :=
  unfold CreateWorkspace, GetWorkspace, UpdateWorkspace, ArchiveWorkspace,
         CreateAPIKey, GetAPIKey, DeleteAPIKey, UpdateAPIKey,
         AddWorkspaceMember, GetWorkspaceMember, UpdateWorkspaceMember,
         RemoveWorkspaceMember, CreateInvite, GetInvite, DeleteInvite,
         RemoveOrganizationMember.

(** Run the one [doRequest] of the goal. *)
Ltac run_request :=
  unfold bind;
  match goal with
  | |- context [doRequest ?c ?m ?p ?b ?res ?w] =>
      let out := fresh "out" in
      let err := fresh "err" in
      let E := fresh "E" in
      destruct (doRequest_trace c m p b res w) as [[out err] E];
      rewrite E; cbv beta iota; unfold ret
  end.

(** X3. A read that is answered with a status below 400 and an empty body
    counts as a success: the Workspace Read reports no error and stores the
    id it had together with empty name, display name and creation time and
    a null archive time. *)
Theorem workspace_read_of_empty_body :
  forall (r : Client) (req : ReadRequest WorkspaceResource.Model)
         (resp : Response WorkspaceResource.Model) (w : World)
         (code : Z) (r' : Remote),
    HasError (Diags resp) = false ->
    roundTrip (remote w)
      (newRequest r "GET"
         ("/v1/organizations/workspaces/"
          ++ ValueString (WorkspaceResource.ID (ReadState req))) None)
    = (HTTPResponse code "", r') ->
    (code < 400)%Z ->
    fst (WorkspaceResource.Read r req resp w) =
    {| State := Some
         {| WorkspaceResource.ID := WorkspaceResource.ID (ReadState req);
            WorkspaceResource.Name := StringValue "";
            WorkspaceResource.DisplayName := StringValue "";
            WorkspaceResource.CreatedAt := StringValue "";
            WorkspaceResource.ArchivedAt := StringNull |};
       Diags := Diags resp |}.
Proof.
  intros r req resp w code r' Hok Hrt Hcode.
  unfold WorkspaceResource.Read. rewrite Hok. unfold GetWorkspace, bind.
  erewrite doRequest_empty_body; [reflexivity | exact Hrt | exact Hcode].
Qed.

(** X6. Removing a workspace member and deleting an invite go to the true
    removal endpoints: each Delete handler attempts one request, with the
    verb DELETE, no body, to .../workspaces/{wid}/members/{uid} respectively
    .../invites/{id}, and leaves the state of the response as it was;
    [RemoveOrganizationMember] does the same on .../users/{id}. Once the
    request is created it is the one request issued; when it cannot be
    created nothing is issued. *)
Theorem member_and_invite_delete_for_real :
  (forall (r : Client) (req : DeleteRequest WorkspaceMemberResource.Model)
          (resp : Response WorkspaceMemberResource.Model) (w : World),
      HasError (Diags resp) = false ->
      let out := WorkspaceMemberResource.Delete r req resp w in
      let q := newRequest r "DELETE"
                 ("/v1/organizations/workspaces/"
                  ++ ValueString (WorkspaceMemberResource.WorkspaceID (DeleteState req))
                  ++ "/members/"
                  ++ ValueString (WorkspaceMemberResource.UserID (DeleteState req)))
                 None in
      State (fst out) = State resp
      /\ (requestCreated (fst (roundTrip (remote w) q)) ->
          trace (snd out) = (trace w ++ [q])%list)
      /\ (~ requestCreated (fst (roundTrip (remote w) q)) -> snd out = w))
  /\
  (forall (r : Client) (req : DeleteRequest InviteResource.Model)
          (resp : Response InviteResource.Model) (w : World),
      HasError (Diags resp) = false ->
      let out := InviteResource.Delete r req resp w in
      let q := newRequest r "DELETE"
                 ("/v1/organizations/invites/"
                  ++ ValueString (InviteResource.ID (DeleteState req)))
                 None in
      State (fst out) = State resp
      /\ (requestCreated (fst (roundTrip (remote w) q)) ->
          trace (snd out) = (trace w ++ [q])%list)
      /\ (~ requestCreated (fst (roundTrip (remote w) q)) -> snd out = w))
  /\
  (forall (c : Client) (userID : string) (w : World),
      let out := RemoveOrganizationMember c userID w in
      let q := newRequest c "DELETE" ("/v1/organizations/users/" ++ userID) None in
      (requestCreated (fst (roundTrip (remote w) q)) ->
       trace (snd out) = (trace w ++ [q])%list)
      /\ (~ requestCreated (fst (roundTrip (remote w) q)) -> snd out = w)).
Proof.
  split; [|split].
  - intros r req resp w Hok out q. subst out.
    unfold WorkspaceMemberResource.Delete. rewrite Hok.
    unfold RemoveWorkspaceMember. run_request.
    split; [destruct err; reflexivity|].
    settle_attempt w q err.
  - intros r req resp w Hok out q. subst out.
    unfold InviteResource.Delete. rewrite Hok.
    unfold DeleteInvite. run_request.
    split; [destruct err; reflexivity|].
    settle_attempt w q err.
  - intros c userID w out q. subst out.
    unfold RemoveOrganizationMember. run_request.
    settle_attempt w q err.
Qed.

(** X7. No handler retries and none stays silent: every create, read,
    update and delete of the four resources (the invite update apart, which
    issues nothing) attempts one request, whether the remote answers with
    success or failure. Once that request is created it is the one request
    issued; when it cannot be created nothing is issued. Its verb is GET for
    a read, POST for a create and an update, POST for the delete of a
    workspace and of an API key, and DELETE for the delete of a workspace
    member and of an invite. *)
Theorem one_request_per_transition :
  forall (k : Kind) (t : Transition) (r : Client) (plan state : ModelOf k)
         (resp : Response (ModelOf k)) (w : World),
    HasError (Diags resp) = false ->
    isInviteUpdate k t = false ->
    exists q : Request,
      Method q = verb k t
      /\ Header q = [("x-api-key", AdminKey r);
                     ("anthropic-version", APIVersion r);
                     ("Content-Type", "application/json")]
      /\ (requestCreated (fst (roundTrip (remote w) q)) ->
          trace (snd (handler k t r plan state resp w)) = (trace w ++ [q])%list)
      /\ (~ requestCreated (fst (roundTrip (remote w) q)) ->
          snd (handler k t r plan state resp w) = w).
Proof.
  intros k t r plan state resp w Hok Hnot.
  destruct k, t; try discriminate Hnot;
    cbn [handler verb ModelOf] in *; unfold_handlers; rewrite Hok;
    unfold_operations; unfold bind;
    match goal with
    | |- context [doRequest ?c ?m ?p ?b ?res ?w] =>
        let out := fresh "out" in
        let err := fresh "err" in
        let E := fresh "E" in
        destruct (doRequest_trace c m p b res w) as [[out err] E];
        rewrite E; cbv beta iota; unfold ret;
        exists (newRequest c m p (option_map marshal b));
        split; [reflexivity|]; split; [reflexivity|];
        settle_attempt w (newRequest c m p (option_map marshal b)) err
    end.
Qed.

(** X8. A handler that is entered with an error already reported does
    nothing: it issues no request and returns the response as it came (the
    invite update apart, which has no such guard). *)
Theorem prior_error_stops_handler :
  forall (k : Kind) (t : Transition) (r : Client) (plan state : ModelOf k)
         (resp : Response (ModelOf k)) (w : World),
    HasError (Diags resp) = true ->
    isInviteUpdate k t = false ->
    handler k t r plan state resp w = (resp, w).
Proof.
  intros k t r plan state resp w Herr Hnot.
  destruct k, t; try discriminate Hnot;
    cbn [handler ModelOf] in *; unfold_handlers; rewrite Herr; reflexivity.
Qed.

End HandlersMore.

(** ** What the handlers send and store *)

Section StateMapping.
Context {HT : HTTPTransport} {UE : Unmarshal APIError}.
Context {UW : Unmarshal Workspace} {UK : Unmarshal APIKey}
        {UM : Unmarshal WorkspaceMember} {UI : Unmarshal Invite}.

Ltac run_request :=
  unfold bind;
  match goal with
  | |- context [doRequest ?c ?m ?p ?b ?res ?w] =>
      let out := fresh "out" in
      let err := fresh "err" in
      let E := fresh "E" in
      destruct (doRequest_trace c m p b res w) as [[out err] E];
      rewrite E; cbv beta iota; unfold ret
  end.

(** X9. A refresh right after a create changes nothing when the remote
    returns the entity it returned on create: for each of the four
    resources, Read on the state stored by Create, answered with the same
    field values (the secret of an API key apart, which a read does not
    return), stores that same state again and reports nothing. *)
Theorem read_after_create_is_stable :
  (forall (r : Client) (plan : WorkspaceResource.Model)
          (resp : Response WorkspaceResource.Model)
          (w0 w1 w2 : World) (ws : Workspace),
      HasError (Diags resp) = false ->
      CreateWorkspace r {| CwName := ValueString (WorkspaceResource.Name plan) |} w0
      = ((ws, None), w1) ->
      GetWorkspace r (WsID ws) w1 = ((ws, None), w2) ->
      let created := fst (WorkspaceResource.Create r {| CreatePlan := plan |} resp w0) in
      exists m,
        State created = Some m
        /\ WorkspaceResource.Read r {| ReadState := m |} created w1 = (created, w2))
  /\
  (forall (r : Client) (plan : APIKeyResource.Model)
          (resp : Response APIKeyResource.Model)
          (w0 w1 w2 : World) (key key' : APIKey),
      HasError (Diags resp) = false ->
      CreateAPIKey r
        {| CkName := ValueString (APIKeyResource.Name plan);
           CkWorkspaceID := if negb (IsNull (APIKeyResource.WorkspaceID plan))
                            then ValueString (APIKeyResource.WorkspaceID plan)
                            else "" |} w0
      = ((key, None), w1) ->
      GetAPIKey r (KeyID key) w1 = ((key', None), w2) ->
      KeyName key' = KeyName key -> KeyStatus key' = KeyStatus key ->
      KeyHint key' = KeyHint key -> KeyCreatedAt key' = KeyCreatedAt key ->
      KeyWorkspaceID key' = KeyWorkspaceID key ->
      let created := fst (APIKeyResource.Create r {| CreatePlan := plan |} resp w0) in
      exists m,
        State created = Some m
        /\ APIKeyResource.Read r {| ReadState := m |} created w1 = (created, w2))
  /\
  (forall (r : Client) (plan : WorkspaceMemberResource.Model)
          (resp : Response WorkspaceMemberResource.Model)
          (w0 w1 w2 : World) (member member' : WorkspaceMember),
      HasError (Diags resp) = false ->
      AddWorkspaceMember r (ValueString (WorkspaceMemberResource.WorkspaceID plan))
        {| AmUserID := ValueString (WorkspaceMemberResource.UserID plan);
           AmWorkspaceRole :=
             ValueString (WorkspaceMemberResource.WorkspaceRole plan) |} w0
      = ((member, None), w1) ->
      GetWorkspaceMember r (MemWorkspaceID member) (MemUserID member) w1
      = ((member', None), w2) ->
      MemWorkspaceRole member' = MemWorkspaceRole member ->
      let created :=
        fst (WorkspaceMemberResource.Create r {| CreatePlan := plan |} resp w0) in
      exists m,
        State created = Some m
        /\ WorkspaceMemberResource.Read r {| ReadState := m |} created w1
           = (created, w2))
  /\
  (forall (r : Client) (plan : InviteResource.Model)
          (resp : Response InviteResource.Model)
          (w0 w1 w2 : World) (invite invite' : Invite),
      HasError (Diags resp) = false ->
      CreateInvite r {| CiEmail := ValueString (InviteResource.Email plan);
                        CiRole := ValueString (InviteResource.Role plan) |} w0
      = ((invite, None), w1) ->
      GetInvite r (InvID invite) w1 = ((invite', None), w2) ->
      InvEmail invite' = InvEmail invite -> InvRole invite' = InvRole invite ->
      InvStatus invite' = InvStatus invite ->
      InvExpiresAt invite' = InvExpiresAt invite ->
      InvInviterID invite' = InvInviterID invite ->
      let created := fst (InviteResource.Create r {| CreatePlan := plan |} resp w0) in
      exists m,
        State created = Some m
        /\ InviteResource.Read r {| ReadState := m |} created w1 = (created, w2)).
Proof.
  split; [|split; [|split]].
  - intros r plan resp w0 w1 w2 ws Hok Hcreate Hget created.
    assert (Hc : WorkspaceResource.Create r {| CreatePlan := plan |} resp w0
                 = (StateSet resp
                      {| WorkspaceResource.ID := StringValue (WsID ws);
                         WorkspaceResource.Name := StringValue (WsName ws);
                         WorkspaceResource.DisplayName :=
                           StringValue (WsDisplayName ws);
                         WorkspaceResource.CreatedAt := StringValue (WsCreatedAt ws);
                         WorkspaceResource.ArchivedAt :=
                           valueOrNull (WsArchivedAt ws) |}, w1)).
    { unfold WorkspaceResource.Create. cbn [CreatePlan]. rewrite Hok.
      unfold bind. rewrite Hcreate. reflexivity. }
    subst created. rewrite Hc. cbn [fst]. eexists. split; [reflexivity|].
    unfold WorkspaceResource.Read, StateSet. cbn [Diags State ReadState].
    rewrite Hok. cbn [WorkspaceResource.ID ValueString]. unfold bind.
    rewrite Hget. reflexivity.
  - intros r plan resp w0 w1 w2 key key' Hok Hcreate Hget Hn Hs Hh Hc Hw created.
    assert (Hcr : APIKeyResource.Create r {| CreatePlan := plan |} resp w0
                  = (StateSet resp
                       {| APIKeyResource.ID := StringValue (KeyID key);
                          APIKeyResource.Name := StringValue (KeyName key);
                          APIKeyResource.WorkspaceID :=
                            if nonEmpty (KeyWorkspaceID key)
                            then StringValue (KeyWorkspaceID key)
                            else APIKeyResource.WorkspaceID plan;
                          APIKeyResource.Status := StringValue (KeyStatus key);
                          APIKeyResource.Hint := StringValue (KeyHint key);
                          APIKeyResource.Key := valueOrNull (KeyKey key);
                          APIKeyResource.CreatedAt :=
                            StringValue (KeyCreatedAt key) |}, w1)).
    { unfold APIKeyResource.Create. cbn [CreatePlan]. rewrite Hok. cbv zeta.
      unfold bind. rewrite Hcreate. reflexivity. }
    subst created. rewrite Hcr. cbn [fst]. eexists. split; [reflexivity|].
    unfold APIKeyResource.Read, StateSet. cbn [Diags State ReadState].
    rewrite Hok. cbn [APIKeyResource.ID ValueString]. unfold bind.
    rewrite Hget. unfold ret.
    rewrite Hn, Hs, Hh, Hc, Hw.
    cbn [APIKeyResource.ID APIKeyResource.WorkspaceID APIKeyResource.Key].
    destruct (nonEmpty (KeyWorkspaceID key)); reflexivity.
  - intros r plan resp w0 w1 w2 member member' Hok Hcreate Hget Hr created.
    assert (Hc : WorkspaceMemberResource.Create r {| CreatePlan := plan |} resp w0
                 = (StateSet resp
                      {| WorkspaceMemberResource.ID :=
                           StringValue (MemWorkspaceID member ++ "/"
                                        ++ MemUserID member);
                         WorkspaceMemberResource.WorkspaceID :=
                           StringValue (MemWorkspaceID member);
                         WorkspaceMemberResource.UserID :=
                           StringValue (MemUserID member);
                         WorkspaceMemberResource.WorkspaceRole :=
                           StringValue (MemWorkspaceRole member) |}, w1)).
    { unfold WorkspaceMemberResource.Create. cbn [CreatePlan]. rewrite Hok.
      unfold bind. rewrite Hcreate. reflexivity. }
    subst created. rewrite Hc. cbn [fst]. eexists. split; [reflexivity|].
    unfold WorkspaceMemberResource.Read, StateSet. cbn [Diags State ReadState].
    rewrite Hok.
    cbn [WorkspaceMemberResource.WorkspaceID WorkspaceMemberResource.UserID
         ValueString].
    unfold bind. rewrite Hget. unfold ret.
    rewrite Hr. reflexivity.
  - intros r plan resp w0 w1 w2 invite invite' Hok Hcreate Hget He Hr Hs Hx Hi
           created.
    assert (Hc : InviteResource.Create r {| CreatePlan := plan |} resp w0
                 = (StateSet resp
                      {| InviteResource.ID := StringValue (InvID invite);
                         InviteResource.Email := StringValue (InvEmail invite);
                         InviteResource.Role := StringValue (InvRole invite);
                         InviteResource.Status := StringValue (InvStatus invite);
                         InviteResource.CreatedAt :=
                           StringValue (InvCreatedAt invite);
                         InviteResource.ExpiresAt :=
                           StringValue (InvExpiresAt invite);
                         InviteResource.InviterID :=
                           valueOrNull (InvInviterID invite) |}, w1)).
    { unfold InviteResource.Create. cbn [CreatePlan]. rewrite Hok.
      unfold bind. rewrite Hcreate. reflexivity. }
    subst created. rewrite Hc. cbn [fst]. eexists. split; [reflexivity|].
    unfold InviteResource.Read, StateSet. cbn [Diags State ReadState].
    rewrite Hok. cbn [InviteResource.ID ValueString]. unfold bind.
    rewrite Hget. unfold ret.
    rewrite He, Hr, Hs, Hx, Hi.
    cbn [InviteResource.ID InviteResource.CreatedAt InviteResource.InviterID].
    unfold valueOrNull. destruct (nonEmpty (InvInviterID invite)); reflexivity.
Qed.

(** X10. Creating an API key attempts one POST to
    /v1/organizations/api_keys whose body always has the name member, with
    the planned name even when it is empty, followed by the workspace_id
    member exactly when the planned workspace id is neither null nor of
    empty string value. Once that request is created it is the one request
    sent; when it cannot be created nothing is sent. *)
Theorem api_key_create_body :
  forall (r : Client) (req : CreateRequest APIKeyResource.Model)
         (resp : Response APIKeyResource.Model) (w : World),
    HasError (Diags resp) = false ->
    let plan := CreatePlan req in
    let q := newRequest r "POST" "/v1/organizations/api_keys"
               (Some (("name", ValueString (APIKeyResource.Name plan))
                      :: (if IsNull (APIKeyResource.WorkspaceID plan)
                             || String.eqb
                                  (ValueString (APIKeyResource.WorkspaceID plan)) ""
                          then []
                          else [("workspace_id",
                                 ValueString (APIKeyResource.WorkspaceID plan))]))) in
    (requestCreated (fst (roundTrip (remote w) q)) ->
     trace (snd (APIKeyResource.Create r req resp w)) = (trace w ++ [q])%list)
    /\ (~ requestCreated (fst (roundTrip (remote w) q)) ->
        snd (APIKeyResource.Create r req resp w) = w).
Proof.
  intros r req resp w Hok plan q.
  assert (Hw : snd (APIKeyResource.Create r req resp w) = afterAttempt w q).
  { subst q plan.
    unfold APIKeyResource.Create. rewrite Hok. cbv zeta.
    unfold CreateAPIKey. run_request.
    cbn [option_map marshal Marshal_CreateAPIKeyRequest CkName CkWorkspaceID field].
    unfold field_omitempty.
    destruct (APIKeyResource.WorkspaceID (CreatePlan req)) as [| |v];
      cbn [IsNull negb ValueString String.eqb app orb];
      try (destruct (String.eqb v "")); destruct err; reflexivity. }
  rewrite Hw. split.
  - intros Hc. rewrite (afterAttempt_created w q Hc). reflexivity.
  - apply afterAttempt_not_created.
Qed.

(** X11. When [CreateAPIKey] returns an API key and no error, the API key
    Create stores the id of that key, and its secret as a value when it is
    not empty and as null otherwise, never as an empty string; the workspace
    id is the one of that key when it is not empty and the planned one
    otherwise. *)
Theorem api_key_create_state :
  forall (r : Client) (req : CreateRequest APIKeyResource.Model)
         (resp : Response APIKeyResource.Model) (w w' : World) (key : APIKey),
    HasError (Diags resp) = false ->
    CreateAPIKey r
      {| CkName := ValueString (APIKeyResource.Name (CreatePlan req));
         CkWorkspaceID :=
           if negb (IsNull (APIKeyResource.WorkspaceID (CreatePlan req)))
           then ValueString (APIKeyResource.WorkspaceID (CreatePlan req))
           else "" |} w
    = ((key, None), w') ->
    exists m : APIKeyResource.Model,
      APIKeyResource.Create r req resp w
      = ({| State := Some m; Diags := Diags resp |}, w')
      /\ APIKeyResource.ID m = StringValue (KeyID key)
      /\ APIKeyResource.Key m =
         (if String.eqb (KeyKey key) "" then StringNull
          else StringValue (KeyKey key))
      /\ APIKeyResource.Key m <> StringValue ""
      /\ APIKeyResource.WorkspaceID m =
         (if String.eqb (KeyWorkspaceID key) ""
          then APIKeyResource.WorkspaceID (CreatePlan req)
          else StringValue (KeyWorkspaceID key)).
Proof.
  intros r req resp w w' key Hok Hcreate.
  unfold APIKeyResource.Create. rewrite Hok. cbv zeta. unfold bind.
  rewrite Hcreate. unfold ret, StateSet. eexists.
  split; [reflexivity|].
  cbn [APIKeyResource.ID APIKeyResource.Key APIKeyResource.WorkspaceID].
  unfold valueOrNull, nonEmpty.
  destruct (String.eqb_spec (KeyKey key) "");
    destruct (String.eqb_spec (KeyWorkspaceID key) ""); cbn [negb];
    (split; [reflexivity|]); (split; [reflexivity|]);
    (split; [congruence | reflexivity]).
Qed.

(** X12. What a successful Read does with an optional field the response
    leaves empty differs by resource: the API key Read keeps the stored
    workspace_id, the invite Read keeps the stored inviter_id, and the
    workspace Read resets archived_at to null. *)
Theorem read_of_omitted_optionals :
  (forall (r : Client) (req : ReadRequest APIKeyResource.Model)
          (resp : Response APIKeyResource.Model) (w w' : World) (key : APIKey),
      HasError (Diags resp) = false ->
      GetAPIKey r (ValueString (APIKeyResource.ID (ReadState req))) w
      = ((key, None), w') ->
      KeyWorkspaceID key = "" ->
      exists m, State (fst (APIKeyResource.Read r req resp w)) = Some m
                /\ APIKeyResource.WorkspaceID m
                   = APIKeyResource.WorkspaceID (ReadState req))
  /\
  (forall (r : Client) (req : ReadRequest InviteResource.Model)
          (resp : Response InviteResource.Model) (w w' : World) (invite : Invite),
      HasError (Diags resp) = false ->
      GetInvite r (ValueString (InviteResource.ID (ReadState req))) w
      = ((invite, None), w') ->
      InvInviterID invite = "" ->
      exists m, State (fst (InviteResource.Read r req resp w)) = Some m
                /\ InviteResource.InviterID m
                   = InviteResource.InviterID (ReadState req))
  /\
  (forall (r : Client) (req : ReadRequest WorkspaceResource.Model)
          (resp : Response WorkspaceResource.Model) (w w' : World) (ws : Workspace),
      HasError (Diags resp) = false ->
      GetWorkspace r (ValueString (WorkspaceResource.ID (ReadState req))) w
      = ((ws, None), w') ->
      WsArchivedAt ws = "" ->
      exists m, State (fst (WorkspaceResource.Read r req resp w)) = Some m
                /\ WorkspaceResource.ArchivedAt m = StringNull).
Proof.
  split; [|split].
  - intros r req resp w w' key Hok Hget Hempty.
    unfold APIKeyResource.Read. rewrite Hok. unfold bind. rewrite Hget.
    unfold ret. cbn [fst]. eexists. split; [reflexivity|].
    cbn. now rewrite Hempty.
  - intros r req resp w w' invite Hok Hget Hempty.
    unfold InviteResource.Read. rewrite Hok. unfold bind. rewrite Hget.
    unfold ret. cbn [fst]. eexists. split; [reflexivity|].
    cbn. now rewrite Hempty.
  - intros r req resp w w' ws Hok Hget Hempty.
    unfold WorkspaceResource.Read. rewrite Hok. unfold bind. rewrite Hget.
    unfold ret. cbn [fst]. eexists. split; [reflexivity|].
    cbn. now rewrite Hempty.
Qed.

(** X13. The Workspace Update attempts one POST to .../workspaces/{id},
    with the id of the plan, whose body is the name member alone, there even
    when the planned name is empty or has not changed; the WorkspaceMember
    Update attempts one POST to .../workspaces/{wid}/members/{uid}, with the
    ids of the plan, whose body is the workspace_role member alone. Once the
    request is created it is the one request sent; when it cannot be created
    nothing is sent. *)
Theorem update_bodies :
  (forall (r : Client) (req : UpdateRequest WorkspaceResource.Model)
          (resp : Response WorkspaceResource.Model) (w : World),
      HasError (Diags resp) = false ->
      let q := newRequest r "POST"
                 ("/v1/organizations/workspaces/"
                  ++ ValueString (WorkspaceResource.ID (UpdatePlan req)))
                 (Some [("name",
                         ValueString (WorkspaceResource.Name (UpdatePlan req)))]) in
      (requestCreated (fst (roundTrip (remote w) q)) ->
       trace (snd (WorkspaceResource.Update r req resp w)) = (trace w ++ [q])%list)
      /\ (~ requestCreated (fst (roundTrip (remote w) q)) ->
          snd (WorkspaceResource.Update r req resp w) = w))
  /\
  (forall (r : Client) (req : UpdateRequest WorkspaceMemberResource.Model)
          (resp : Response WorkspaceMemberResource.Model) (w : World),
      HasError (Diags resp) = false ->
      let q := newRequest r "POST"
                 ("/v1/organizations/workspaces/"
                  ++ ValueString (WorkspaceMemberResource.WorkspaceID (UpdatePlan req))
                  ++ "/members/"
                  ++ ValueString (WorkspaceMemberResource.UserID (UpdatePlan req)))
                 (Some [("workspace_role",
                         ValueString (WorkspaceMemberResource.WorkspaceRole
                                        (UpdatePlan req)))]) in
      (requestCreated (fst (roundTrip (remote w) q)) ->
       trace (snd (WorkspaceMemberResource.Update r req resp w))
       = (trace w ++ [q])%list)
      /\ (~ requestCreated (fst (roundTrip (remote w) q)) ->
          snd (WorkspaceMemberResource.Update r req resp w) = w)).
Proof.
  split; intros r req resp w Hok q.
  - unfold WorkspaceResource.Update. rewrite Hok.
    unfold UpdateWorkspace. run_request. settle_attempt w q err.
  - unfold WorkspaceMemberResource.Update. rewrite Hok.
    unfold UpdateWorkspaceMember. run_request. settle_attempt w q err.
Qed.

End StateMapping.

(** ** Single-item data sources, import and configuration *)

Section DataSourcesMore.
Context {HT : HTTPTransport} {UE : Unmarshal APIError}.
Context {UW : Unmarshal Workspace} {UK : Unmarshal APIKey}.

(** X14. The single-item data sources read like the resources: from the
    same remote and for the same id, the workspace data source stores the
    same five attributes as the workspace resource Read, and the API key
    data source the same id, name, status, hint and creation time as the
    API key resource Read. They differ on the workspace id of an API key
    when the response has none: the data source stores null where the
    resource keeps what it had. *)
Theorem data_sources_read_like_resources :
  (forall (d : Client) (config : WorkspaceDataSource.Model)
          (stored : WorkspaceResource.Model)
          (resp1 : Response WorkspaceDataSource.Model)
          (resp2 : Response WorkspaceResource.Model)
          (w w' : World) (ws : Workspace),
      HasError (Diags resp1) = false -> HasError (Diags resp2) = false ->
      WorkspaceDataSource.ID config = WorkspaceResource.ID stored ->
      GetWorkspace d (ValueString (WorkspaceResource.ID stored)) w = ((ws, None), w') ->
      exists a b,
        WorkspaceDataSource.Read d config resp1 w
        = ({| State := Some a; Diags := Diags resp1 |}, w')
        /\ WorkspaceResource.Read d {| ReadState := stored |} resp2 w
           = ({| State := Some b; Diags := Diags resp2 |}, w')
        /\ WorkspaceDataSource.ID a = WorkspaceResource.ID b
        /\ WorkspaceDataSource.Name a = WorkspaceResource.Name b
        /\ WorkspaceDataSource.DisplayName a = WorkspaceResource.DisplayName b
        /\ WorkspaceDataSource.CreatedAt a = WorkspaceResource.CreatedAt b
        /\ WorkspaceDataSource.ArchivedAt a = WorkspaceResource.ArchivedAt b)
  /\
  (forall (d : Client) (config : APIKeyDataSource.Model)
          (stored : APIKeyResource.Model)
          (resp1 : Response APIKeyDataSource.Model)
          (resp2 : Response APIKeyResource.Model)
          (w w' : World) (key : APIKey),
      HasError (Diags resp1) = false -> HasError (Diags resp2) = false ->
      APIKeyDataSource.ID config = APIKeyResource.ID stored ->
      GetAPIKey d (ValueString (APIKeyResource.ID stored)) w = ((key, None), w') ->
      exists a b,
        APIKeyDataSource.Read d config resp1 w
        = ({| State := Some a; Diags := Diags resp1 |}, w')
        /\ APIKeyResource.Read d {| ReadState := stored |} resp2 w
           = ({| State := Some b; Diags := Diags resp2 |}, w')
        /\ APIKeyDataSource.ID a = APIKeyResource.ID b
        /\ APIKeyDataSource.Name a = APIKeyResource.Name b
        /\ APIKeyDataSource.Status a = APIKeyResource.Status b
        /\ APIKeyDataSource.Hint a = APIKeyResource.Hint b
        /\ APIKeyDataSource.CreatedAt a = APIKeyResource.CreatedAt b
        /\ (KeyWorkspaceID key <> "" ->
            APIKeyDataSource.WorkspaceID a = APIKeyResource.WorkspaceID b)
        /\ (KeyWorkspaceID key = "" ->
            APIKeyDataSource.WorkspaceID a = StringNull
            /\ APIKeyResource.WorkspaceID b = APIKeyResource.WorkspaceID stored)).
Proof.
  split.
  - intros d config stored resp1 resp2 w w' ws Hok1 Hok2 Hid Hget.
    unfold WorkspaceDataSource.Read, WorkspaceResource.Read.
    cbn [ReadState]. rewrite Hok1, Hok2, Hid. unfold bind. rewrite Hget.
    unfold ret, StateSet. do 2 eexists.
    split; [reflexivity|]. split; [reflexivity|]. cbn.
    repeat split.
  - intros d config stored resp1 resp2 w w' key Hok1 Hok2 Hid Hget.
    unfold APIKeyDataSource.Read, APIKeyResource.Read.
    cbn [ReadState]. rewrite Hok1, Hok2, Hid. unfold bind. rewrite Hget.
    unfold ret, StateSet. do 2 eexists.
    split; [reflexivity|]. split; [reflexivity|]. cbn.
    do 5 (split; [reflexivity|]).
    unfold valueOrNull, nonEmpty.
    destruct (String.eqb_spec (KeyWorkspaceID key) ""); cbn [negb];
      split; intros; try contradiction; auto.
Qed.

(** X15. A single-item data source whose lookup fails stores nothing: it
    adds the one error "Client Error" ("Unable to read ...") and leaves the
    state of the response as it was. *)
Theorem data_source_failure_stores_nothing :
  (forall (d : Client) (config : WorkspaceDataSource.Model)
          (resp : Response WorkspaceDataSource.Model)
          (w w' : World) (ws : Workspace) (e : string),
      HasError (Diags resp) = false ->
      GetWorkspace d (ValueString (WorkspaceDataSource.ID config)) w
      = ((ws, Some e), w') ->
      WorkspaceDataSource.Read d config resp w
      = ({| State := State resp;
            Diags := (Diags resp ++
                      [ErrorDiagnostic "Client Error"
                         ("Unable to read workspace: " ++ e)])%list |}, w'))
  /\
  (forall (d : Client) (config : APIKeyDataSource.Model)
          (resp : Response APIKeyDataSource.Model)
          (w w' : World) (key : APIKey) (e : string),
      HasError (Diags resp) = false ->
      GetAPIKey d (ValueString (APIKeyDataSource.ID config)) w
      = ((key, Some e), w') ->
      APIKeyDataSource.Read d config resp w
      = ({| State := State resp;
            Diags := (Diags resp ++
                      [ErrorDiagnostic "Client Error"
                         ("Unable to read API key: " ++ e)])%list |}, w')).
Proof.
  split.
  - intros d config resp w w' ws e Hok Hget.
    unfold WorkspaceDataSource.Read. rewrite Hok. unfold bind. rewrite Hget.
    unfold ret. now rewrite AddError_first.
  - intros d config resp w w' key e Hok Hget.
    unfold APIKeyDataSource.Read. rewrite Hok. unfold bind. rewrite Hget.
    unfold ret. now rewrite AddError_first.
Qed.

End DataSourcesMore.

Section ImportMore.
Import WorkspaceMemberResource.

(** X16. The import of a workspace member is accepted exactly when the id
    has one '/': nothing else is checked, so an empty part before or behind
    the '/' is stored as an empty workspace_id or user_id. An accepted
    import adds no diagnostic and never sets the role. *)
Theorem import_accepts_iff_one_slash :
  forall (id : string) (resp : Response Model),
    HasError (Diags resp) = false ->
    let resp' := ImportState {| ImportID := id |} resp in
    (HasError (Diags resp') = false <-> Count id slash = 1)
    /\ (Count id slash = 1 ->
        Diags resp' = Diags resp
        /\ exists m, State resp' = Some m
                     /\ ID m = StringValue id
                     /\ WorkspaceRole m = WorkspaceRole (stateOf resp)
                     /\ id = ValueString (WorkspaceID m) ++ "/"
                             ++ ValueString (UserID m)).
Proof.
  intros id resp Hok resp'. subst resp'. unfold ImportState. cbn [ImportID].
  pose proof (Split_length id slash) as Hlen.
  destruct (Nat.eqb_spec (List.length (Split id slash)) 2) as [E|E]; cbn [negb].
  - assert (Hone : Count id slash = 1) by lia.
    destruct (Split_once id slash Hone) as (a & b & Hs & Hj & _ & _).
    rewrite Hs. cbn. split; [split; auto|].
    intros _. split; [reflexivity|]. eexists. split; [reflexivity|].
    cbn. repeat split. exact Hj.
  - split.
    + rewrite AddError_HasError. split; [discriminate | intros H; lia].
    + intros H. lia.
Qed.

End ImportMore.

Section ProviderMore.
Import AnthropicProvider.

(** X17. A setting given in the configuration hides the environment even
    when it has no text: with an admin_key that is the empty string or
    unknown, Configure reports "Missing Admin Key" whatever
    ANTHROPIC_ADMIN_KEY holds; with a base_url that is the empty string or
    unknown, the client gets the default base URL whatever
    ANTHROPIC_BASE_URL holds. *)
Theorem configuration_hides_environment :
  forall (getenv : string -> string) (config : Model) (resp : ConfigureResponse),
    HasError (ConfigureDiags resp) = false ->
    (IsNull (ConfigAdminKey config) = false ->
     ValueString (ConfigAdminKey config) = "" ->
     DataSourceData (Configure getenv config resp) = DataSourceData resp
     /\ ResourceData (Configure getenv config resp) = ResourceData resp
     /\ ConfigureDiags (Configure getenv config resp) =
        (ConfigureDiags resp ++
         [ErrorDiagnostic "Missing Admin Key"
            "The admin_key must be set in the provider configuration or via the ANTHROPIC_ADMIN_KEY environment variable."])%list)
    /\
    (IsNull (ConfigAdminKey config) = false ->
     ValueString (ConfigAdminKey config) <> "" ->
     IsNull (ConfigBaseURL config) = false ->
     ValueString (ConfigBaseURL config) = "" ->
     ResourceData (Configure getenv config resp)
     = Some (NewClient (ValueString (ConfigAdminKey config)))
     /\ BaseURL (NewClient (ValueString (ConfigAdminKey config)))
        = "https://api.anthropic.com").
Proof.
  intros getenv config resp Hok. split.
  - intros Hset Hempty. unfold Configure. rewrite Hok, Hset. cbn [negb].
    rewrite Hempty. cbn [String.eqb ConfigureDiags DataSourceData ResourceData].
    rewrite Append_first_error by auto. repeat split.
  - intros Hset Hkey Hbase Hempty. unfold Configure.
    rewrite Hok, Hset, Hbase. cbn [negb].
    rewrite (proj2 (String.eqb_neq _ "") Hkey). rewrite Hempty.
    cbn. split; reflexivity.
Qed.

End ProviderMore.

(** ** Draining the pages, further *)

Section PaginationMore.
Context {HT : HTTPTransport} {UE : Unmarshal APIError}
        {ULW : Unmarshal (ListResponse Workspace)}
        {ULK : Unmarshal (ListResponse APIKey)}.

Lemma ListWorkspaces_failing (d : Client) (afterID : string) (w : World)
    (res : HTTPResult) (r1 : Remote) :
  roundTrip (remote w) (workspacesPageRequest d afterID) = (res, r1) ->
  failing res ->
  exists e,
    ListWorkspaces d 100 "" afterID w =
    ((zero, Some e),
     {| remote := r1;
        trace := (trace w ++ [workspacesPageRequest d afterID])%list |}).
Proof.
  intros Hrt Hfail. unfold ListWorkspaces, bind.
  destruct (doRequest_failing d MethodGet (listWorkspacesPath 100 "" afterID)
              (@None NoBody) (Some (zero : ListResponse Workspace)) w Hrt Hfail)
    as [e He].
  rewrite He. exists e. reflexivity.
Qed.

Lemma ListAPIKeys_failing (d : Client) (config : APIKeysDataSource.Model)
    (afterID : string) (w : World) (res : HTTPResult) (r1 : Remote) :
  roundTrip (remote w) (apiKeysPageRequest d config afterID) = (res, r1) ->
  failing res ->
  exists e,
    ListAPIKeys d 100 "" afterID
      (APIKeysDataSource.filterValue (APIKeysDataSource.FilterStatus config))
      (APIKeysDataSource.filterValue (APIKeysDataSource.FilterWorkspaceID config)) w =
    ((zero, Some e),
     {| remote := r1;
        trace := (trace w ++ [apiKeysPageRequest d config afterID])%list |}).
Proof.
  intros Hrt Hfail. unfold ListAPIKeys, bind.
  destruct (doRequest_failing d MethodGet
              (listAPIKeysPath 100 "" afterID
                 (APIKeysDataSource.filterValue
                    (APIKeysDataSource.FilterStatus config))
                 (APIKeysDataSource.filterValue
                    (APIKeysDataSource.FilterWorkspaceID config)))
              (@None NoBody) (Some (zero : ListResponse APIKey)) w Hrt Hfail)
    as [e He].
  rewrite He. exists e. reflexivity.
Qed.

Lemma workspaces_fetchAll_breaks (d : Client) :
  forall (pages : list (ListResponse Workspace))
         (afterID : string) (acc : list Workspace) (w : World)
         (resps : list HTTPResult) (bad : HTTPResult) (r' : Remote),
    Forall (fun p => continues p = true) pages ->
    serve (remote w) (map (workspacesPageRequest d) (cursors afterID pages))
    = ((resps ++ [bad])%list, r') ->
    Forall2 delivers resps pages ->
    failing bad ->
    forall fuel, List.length pages < fuel ->
    exists e,
      WorkspacesDataSource.fetchAll fuel d acc afterID w =
      (Some ((acc ++ concat (map Data pages))%list, Some e),
       {| remote := r';
          trace := (trace w ++ map (workspacesPageRequest d)
                                 (cursors afterID pages))%list |}).
Proof.
  intros pages; induction pages as [|p ps IH];
    intros afterID acc w resps bad r' Hpages Hserve Hdel Hbad fuel Hfuel;
    (destruct fuel as [|fuel]; [simpl in Hfuel; lia|]).
  - change (cursors afterID []) with [afterID] in *. cbn [map] in *.
    rewrite serve_cons in Hserve.
    match type of Hserve with
    | context [roundTrip ?r ?q] => destruct (roundTrip r q) as [res r1] eqn:Hrt
    end.
    cbn [serve] in Hserve. inversion Hdel; subst.
    cbn [app] in Hserve. inversion Hserve; subst; clear Hserve.
    edestruct ListWorkspaces_failing as [e He]; [exact Hrt | exact Hbad |].
    exists e. simpl. unfold bind. rewrite He. unfold ret.
    rewrite app_nil_r. reflexivity.
  - rewrite cursors_cons in *. rewrite serve_cons in Hserve.
    match type of Hserve with
    | context [roundTrip ?r ?q] => destruct (roundTrip r q) as [res r1] eqn:Hrt
    end.
    match type of Hserve with
    | context [serve ?r ?qs] => destruct (serve r qs) as [out r2] eqn:Hrest
    end.
    inversion Hdel as [|x ? resps' ? Hd Htl]; subst.
    cbn [app] in Hserve. inversion Hserve; subst; clear Hserve.
    inversion Hpages as [|? ? Hp Hps]; subst.
    simpl in Hfuel.
    destruct (IH (derefString (LastID p)) (acc ++ Data p)%list
                {| remote := r1;
                   trace := (trace w ++ [workspacesPageRequest d afterID])%list |}
                resps' bad r' Hps Hrest Htl Hbad fuel ltac:(lia)) as [e He].
    exists e. simpl. unfold bind.
    erewrite ListWorkspaces_page; [ | eassumption | eassumption ].
    rewrite (continues_true _ Hp).
    rewrite He. cbn [trace remote].
    rewrite <- !app_assoc. reflexivity.
Qed.

Lemma api_keys_fetchAll_breaks (d : Client) (config : APIKeysDataSource.Model) :
  forall (pages : list (ListResponse APIKey))
         (afterID : string) (acc : list APIKey) (w : World)
         (resps : list HTTPResult) (bad : HTTPResult) (r' : Remote),
    Forall (fun p => continues p = true) pages ->
    serve (remote w) (map (apiKeysPageRequest d config) (cursors afterID pages))
    = ((resps ++ [bad])%list, r') ->
    Forall2 delivers resps pages ->
    failing bad ->
    forall fuel, List.length pages < fuel ->
    exists e,
      APIKeysDataSource.fetchAll fuel d
        (APIKeysDataSource.filterValue (APIKeysDataSource.FilterStatus config))
        (APIKeysDataSource.filterValue (APIKeysDataSource.FilterWorkspaceID config))
        acc afterID w =
      (Some ((acc ++ concat (map Data pages))%list, Some e),
       {| remote := r';
          trace := (trace w ++ map (apiKeysPageRequest d config)
                                 (cursors afterID pages))%list |}).
Proof.
  intros pages; induction pages as [|p ps IH];
    intros afterID acc w resps bad r' Hpages Hserve Hdel Hbad fuel Hfuel;
    (destruct fuel as [|fuel]; [simpl in Hfuel; lia|]).
  - change (cursors afterID []) with [afterID] in *. cbn [map] in *.
    rewrite serve_cons in Hserve.
    match type of Hserve with
    | context [roundTrip ?r ?q] => destruct (roundTrip r q) as [res r1] eqn:Hrt
    end.
    cbn [serve] in Hserve. inversion Hdel; subst.
    cbn [app] in Hserve. inversion Hserve; subst; clear Hserve.
    edestruct ListAPIKeys_failing as [e He]; [exact Hrt | exact Hbad |].
    exists e. simpl. unfold bind. rewrite He. unfold ret.
    rewrite app_nil_r. reflexivity.
  - rewrite cursors_cons in *. rewrite serve_cons in Hserve.
    match type of Hserve with
    | context [roundTrip ?r ?q] => destruct (roundTrip r q) as [res r1] eqn:Hrt
    end.
    match type of Hserve with
    | context [serve ?r ?qs] => destruct (serve r qs) as [out r2] eqn:Hrest
    end.
    inversion Hdel as [|x ? resps' ? Hd Htl]; subst.
    cbn [app] in Hserve. inversion Hserve; subst; clear Hserve.
    inversion Hpages as [|? ? Hp Hps]; subst.
    simpl in Hfuel.
    destruct (IH (derefString (LastID p)) (acc ++ Data p)%list
                {| remote := r1;
                   trace := (trace w ++ [apiKeysPageRequest d config afterID])%list |}
                resps' bad r' Hps Hrest Htl Hbad fuel ltac:(lia)) as [e He].
    exists e. simpl. unfold bind.
    erewrite ListAPIKeys_page; [ | eassumption | eassumption ].
    rewrite (continues_true _ Hp).
    rewrite He. cbn [trace remote].
    rewrite <- !app_assoc. reflexivity.
Qed.

(** X18. A failure in the middle of a drain throws away what was fetched:
    when the pages [pages] are served and the next request is sent and
    gets a failing reply (an error of [HTTPClient.Do] or of [io.ReadAll], or
    a status of 400 or more), the collection data source has issued one
    request per page and that one more,
    reports the one error "Client Error" ("Unable to list ...") and stores
    no state, so none of the items of [pages]. *)
Theorem drain_failure_stores_nothing :
  (forall (d : Client) (config : WorkspacesDataSource.Model)
          (resp : Response WorkspacesDataSource.Model) (w : World)
          (pages : list (ListResponse Workspace))
          (resps : list HTTPResult) (bad : HTTPResult) (r' : Remote),
      HasError (Diags resp) = false ->
      Forall (fun p => continues p = true) pages ->
      let reqs := map (workspacesPageRequest d) (cursors "" pages) in
      serve (remote w) reqs = ((resps ++ [bad])%list, r') ->
      Forall2 delivers resps pages ->
      failing bad ->
      forall fuel, List.length pages < fuel ->
      exists e,
        WorkspacesDataSource.Read fuel d config resp w =
        (Some {| State := State resp;
                 Diags := (Diags resp ++
                           [ErrorDiagnostic "Client Error"
                              ("Unable to list workspaces: " ++ e)])%list |},
         {| remote := r'; trace := (trace w ++ reqs)%list |}))
  /\
  (forall (d : Client) (config : APIKeysDataSource.Model)
          (resp : Response APIKeysDataSource.Model) (w : World)
          (pages : list (ListResponse APIKey))
          (resps : list HTTPResult) (bad : HTTPResult) (r' : Remote),
      HasError (Diags resp) = false ->
      Forall (fun p => continues p = true) pages ->
      let reqs := map (apiKeysPageRequest d config) (cursors "" pages) in
      serve (remote w) reqs = ((resps ++ [bad])%list, r') ->
      Forall2 delivers resps pages ->
      failing bad ->
      forall fuel, List.length pages < fuel ->
      exists e,
        APIKeysDataSource.Read fuel d config resp w =
        (Some {| State := State resp;
                 Diags := (Diags resp ++
                           [ErrorDiagnostic "Client Error"
                              ("Unable to list API keys: " ++ e)])%list |},
         {| remote := r'; trace := (trace w ++ reqs)%list |})).
Proof.
  split.
  - intros d config resp w pages resps bad r' Hok Hpages reqs Hserve Hdel Hbad
           fuel Hfuel.
    edestruct (workspaces_fetchAll_breaks d) with (acc := @nil Workspace)
      as [e He]; [exact Hpages | exact Hserve | exact Hdel | exact Hbad
                  | exact Hfuel |].
    exists e. unfold WorkspacesDataSource.Read. rewrite Hok. unfold bind.
    rewrite He. unfold ret. now rewrite AddError_first.
  - intros d config resp w pages resps bad r' Hok Hpages reqs Hserve Hdel Hbad
           fuel Hfuel.
    edestruct (api_keys_fetchAll_breaks d config) with (acc := @nil APIKey)
      as [e He]; [exact Hpages | exact Hserve | exact Hdel | exact Hbad
                  | exact Hfuel |].
    exists e. unfold APIKeysDataSource.Read. rewrite Hok. unfold bind.
    rewrite He. unfold ret. now rewrite AddError_first.
Qed.

End PaginationMore.

Section PaginationFuel.
Context {HT : HTTPTransport} {UE : Unmarshal APIError}
        {ULW : Unmarshal (ListResponse Workspace)}
        {ULK : Unmarshal (ListResponse APIKey)}.

Lemma workspaces_fetchAll_goes_on (d : Client) (I : Remote -> Prop) :
  (forall (r : Remote) (q : Request),
      I r ->
      exists p : ListResponse Workspace,
        delivers (fst (roundTrip r q)) p /\ continues p = true
        /\ I (snd (roundTrip r q))) ->
  forall (fuel : nat) (acc : list Workspace) (afterID : string) (w : World),
    I (remote w) ->
    exists w',
      WorkspacesDataSource.fetchAll fuel d acc afterID w = (None, w')
      /\ List.length (trace w') = List.length (trace w) + fuel.
Proof.
  intros Hinv fuel. induction fuel as [|fuel IH]; intros acc afterID w Hw.
  - exists w. split; [reflexivity | cbn; lia].
  - destruct (Hinv (remote w) (workspacesPageRequest d afterID) Hw)
      as (p & Hd & Hp & Hnext).
    destruct (roundTrip (remote w) (workspacesPageRequest d afterID))
      as [res r1] eqn:Hrt. cbn [fst snd] in *.
    destruct (IH (acc ++ Data p)%list (derefString (LastID p))
                {| remote := r1;
                   trace := (trace w ++ [workspacesPageRequest d afterID])%list |}
                Hnext) as (w' & Hrun & Hlen).
    exists w'. simpl. unfold bind.
    erewrite ListWorkspaces_page; [ | exact Hrt | exact Hd ].
    rewrite (continues_true _ Hp). split; [exact Hrun|].
    rewrite Hlen. cbn [trace]. rewrite length_app. cbn. lia.
Qed.

Lemma api_keys_fetchAll_goes_on (d : Client) (config : APIKeysDataSource.Model)
    (I : Remote -> Prop) :
  (forall (r : Remote) (q : Request),
      I r ->
      exists p : ListResponse APIKey,
        delivers (fst (roundTrip r q)) p /\ continues p = true
        /\ I (snd (roundTrip r q))) ->
  forall (fuel : nat) (acc : list APIKey) (afterID : string) (w : World),
    I (remote w) ->
    exists w',
      APIKeysDataSource.fetchAll fuel d
        (APIKeysDataSource.filterValue (APIKeysDataSource.FilterStatus config))
        (APIKeysDataSource.filterValue (APIKeysDataSource.FilterWorkspaceID config))
        acc afterID w = (None, w')
      /\ List.length (trace w') = List.length (trace w) + fuel.
Proof.
  intros Hinv fuel. induction fuel as [|fuel IH]; intros acc afterID w Hw.
  - exists w. split; [reflexivity | cbn; lia].
  - destruct (Hinv (remote w) (apiKeysPageRequest d config afterID) Hw)
      as (p & Hd & Hp & Hnext).
    destruct (roundTrip (remote w) (apiKeysPageRequest d config afterID))
      as [res r1] eqn:Hrt. cbn [fst snd] in *.
    destruct (IH (acc ++ Data p)%list (derefString (LastID p))
                {| remote := r1;
                   trace := (trace w ++ [apiKeysPageRequest d config afterID])%list |}
                Hnext) as (w' & Hrun & Hlen).
    exists w'. simpl. unfold bind.
    erewrite ListAPIKeys_page; [ | exact Hrt | exact Hd ].
    rewrite (continues_true _ Hp). split; [exact Hrun|].
    rewrite Hlen. cbn [trace]. rewrite length_app. cbn. lia.
Qed.

(** X19. The drain has no bound of its own on the number of pages: against
    a remote that answers every request with a page reporting more data and
    carrying a last-id, the loop of the collection data sources has not
    left after any number of rounds, having issued one request in each. *)
Theorem drain_has_no_page_bound :
  forall (I : Remote -> Prop),
    (forall (r : Remote) (q : Request),
        I r ->
        (exists p : ListResponse Workspace,
            delivers (fst (roundTrip r q)) p /\ continues p = true)
        /\ (exists p : ListResponse APIKey,
               delivers (fst (roundTrip r q)) p /\ continues p = true)
        /\ I (snd (roundTrip r q))) ->
    forall (fuel : nat) (d : Client) (w : World),
      I (remote w) ->
      (forall (config : WorkspacesDataSource.Model)
              (resp : Response WorkspacesDataSource.Model),
          HasError (Diags resp) = false ->
          fst (WorkspacesDataSource.Read fuel d config resp w) = None
          /\ List.length (trace (snd (WorkspacesDataSource.Read fuel d config resp w)))
             = List.length (trace w) + fuel)
      /\
      (forall (config : APIKeysDataSource.Model)
              (resp : Response APIKeysDataSource.Model),
          HasError (Diags resp) = false ->
          fst (APIKeysDataSource.Read fuel d config resp w) = None
          /\ List.length (trace (snd (APIKeysDataSource.Read fuel d config resp w)))
             = List.length (trace w) + fuel).
Proof.
  intros I Hinv fuel d w Hw. split.
  - intros config resp Hok.
    destruct (@workspaces_fetchAll_goes_on d I) with (fuel := fuel)
      (acc := @nil Workspace) (afterID := "") (w := w) as (w' & Hrun & Hlen).
    + intros r q Hr. destruct (Hinv r q Hr) as ((p & Hd & Hp) & _ & Hnext).
      exists p. auto.
    + exact Hw.
    + unfold WorkspacesDataSource.Read. rewrite Hok. unfold bind.
      rewrite Hrun. unfold ret. cbn [fst snd]. auto.
  - intros config resp Hok.
    destruct (@api_keys_fetchAll_goes_on d config I) with (fuel := fuel)
      (acc := @nil APIKey) (afterID := "") (w := w) as (w' & Hrun & Hlen).
    + intros r q Hr. destruct (Hinv r q Hr) as (_ & (p & Hd & Hp) & Hnext).
      exists p. auto.
    + exact Hw.
    + unfold APIKeysDataSource.Read. rewrite Hok. unfold bind.
      rewrite Hrun. unfold ret. cbn [fst snd]. auto.
Qed.

End PaginationFuel.

(* ====================================================================== *)
(** * Further runs on the scripted remote *)

Section MoreRuns.
#[local] Existing Instance ScriptedTransport.
#[local] Existing Instance sampleErrors.
#[local] Existing Instance sampleWorkspaces.
#[local] Existing Instance sampleKeys.
#[local] Existing Instance sampleMembers.
#[local] Existing Instance sampleInviteTable.
#[local] Existing Instance sampleKeyPages.
#[local] Existing Instance sampleWorkspacePages.

(** A read of a workspace while the remote cannot be reached: one request,
    and the script used up. And one whose URL does not parse: no request. *)
Lemma doRequest_single_attempt_run :
  (trace (snd (doRequest sampleClient "GET" "/v1/organizations/workspaces/wrkspc_abc123"
                 (@None NoBody) (Some (zero : Workspace)) (scripted [])))
   = [{| Method := "GET";
         URL := "https://api.anthropic.com/v1/organizations/workspaces/wrkspc_abc123";
         Header := [("x-api-key", "sk-ant-admin-sample");
                    ("anthropic-version", "2023-06-01");
                    ("Content-Type", "application/json")];
         Body := None |}]
   /\ remote (snd (doRequest sampleClient "GET"
                     "/v1/organizations/workspaces/wrkspc_abc123"
                     (@None NoBody) (Some (zero : Workspace)) (scripted [])))
      = [])
  /\
  doRequest sampleClient "GET" "/v1/organizations/workspaces/%zz"
    (@None NoBody) (Some (zero : Workspace))
    (scripted [NewRequestError "invalid URL escape"])
  = ((Some (zero : Workspace),
      Some "failed to create request: invalid URL escape"),
     scripted [NewRequestError "invalid URL escape"]).
Proof.
  split.
  - exact (proj1 (doRequest_single_attempt _ _ sampleClient "GET"
                    "/v1/organizations/workspaces/wrkspc_abc123"
                    (@None NoBody) (Some (zero : Workspace)) (scripted [])) I).
  - exact (proj2 (doRequest_single_attempt _ _ sampleClient "GET"
                    "/v1/organizations/workspaces/%zz"
                    (@None NoBody) (Some (zero : Workspace))
                    (scripted [NewRequestError "invalid URL escape"]))
             "invalid URL escape" eq_refl).
Defined.

(** A 204 with no body to a delete, which has no result to fill. *)
Lemma doRequest_succeeds_iff_run :
  snd (fst (doRequest sampleClient "DELETE" "/v1/organizations/invites/invite_1"
              (@None NoBody) (@None NoResult)
              (scripted [HTTPResponse 204 ""]))) = None.
Proof.
  apply (proj2 (doRequest_succeeds_iff _ _ sampleClient "DELETE"
                  "/v1/organizations/invites/invite_1" (@None NoBody)
                  (@None NoResult) (scripted [HTTPResponse 204 ""]))).
  exists 204%Z, "". split; [reflexivity|]. split; [lia | exact I].
Defined.

(** A 304 with no body to the read of a workspace. *)
Lemma workspace_read_of_empty_body_run :
  fst (WorkspaceResource.Read sampleClient {| ReadState := storedWorkspace |}
         (stored storedWorkspace) (scripted [HTTPResponse 304 ""]))
  = {| State := Some
         {| WorkspaceResource.ID := StringValue "wrkspc_abc123";
            WorkspaceResource.Name := StringValue "";
            WorkspaceResource.DisplayName := StringValue "";
            WorkspaceResource.CreatedAt := StringValue "";
            WorkspaceResource.ArchivedAt := StringNull |};
       Diags := [] |}.
Proof.
  apply (@workspace_read_of_empty_body ScriptedTransport sampleErrors
           sampleWorkspaces sampleClient {| ReadState := storedWorkspace |}
           (stored storedWorkspace) (scripted [HTTPResponse 304 ""])
           304%Z (@nil HTTPResult));
    [reflexivity | reflexivity | lia].
Defined.

(** A negative limit. *)
Lemma list_paths_without_parameters_run :
  listWorkspacesPath (-1) "" "" = "/v1/organizations/workspaces"
  /\ listAPIKeysPath (-1) "" "" "" "" = "/v1/organizations/api_keys"
  /\ listWorkspaceMembersPath "wrkspc_abc123" (-1) "" ""
     = "/v1/organizations/workspaces/" ++ "wrkspc_abc123" ++ "/members"
  /\ listOrganizationMembersPath (-1) "" "" = "/v1/organizations/users"
  /\ listInvitesPath (-1) "" "" = "/v1/organizations/invites".
Proof.
  apply (@list_paths_without_parameters (-1)%Z "wrkspc_abc123"). lia.
Defined.

(** Removing the stored member and deleting the stored invite. *)
Lemma member_and_invite_delete_for_real_run :
  trace (snd (WorkspaceMemberResource.Delete sampleClient
                {| DeleteState := storedMember |} (stored storedMember)
                (scripted [HTTPResponse 204 ""])))
  = [newRequest sampleClient "DELETE"
       "/v1/organizations/workspaces/wrkspc_abc123/members/user_xyz789" None]
  /\
  trace (snd (InviteResource.Delete sampleClient
                {| DeleteState := storedInvite |} (stored storedInvite)
                (scripted [HTTPResponse 204 ""])))
  = [newRequest sampleClient "DELETE" "/v1/organizations/invites/invite_1" None].
Proof.
  destruct (@member_and_invite_delete_for_real ScriptedTransport sampleErrors)
    as (Hmember & Hinvite & _).
  split.
  - destruct (Hmember sampleClient {| DeleteState := storedMember |}
                (stored storedMember) (scripted [HTTPResponse 204 ""]) eq_refl)
      as (_ & Htrace & _).
    rewrite (Htrace I). reflexivity.
  - destruct (Hinvite sampleClient {| DeleteState := storedInvite |}
                (stored storedInvite) (scripted [HTTPResponse 204 ""]) eq_refl)
      as (_ & Htrace & _).
    rewrite (Htrace I). reflexivity.
Defined.

(** The delete of a member while the remote cannot be reached: still one
    request, a DELETE. *)
Lemma one_request_per_transition_run :
  exists q : Request,
    Method q = "DELETE"
    /\ Header q = [("x-api-key", "sk-ant-admin-sample");
                   ("anthropic-version", "2023-06-01");
                   ("Content-Type", "application/json")]
    /\ trace (snd (handler KWorkspaceMember TDelete sampleClient
                     storedMember storedMember (stored storedMember) (scripted [])))
       = [q].
Proof.
  destruct (one_request_per_transition KWorkspaceMember TDelete sampleClient
              storedMember storedMember (stored storedMember) (scripted [])
              eq_refl eq_refl) as (q & Hverb & Hheader & Htrace & _).
  exists q. split; [exact Hverb|]. split; [exact Hheader|].
  exact (Htrace I).
Defined.

(** A create entered with an error already reported. *)
Lemma prior_error_stops_handler_run :
  handler KAPIKey TCreate sampleClient storedKey storedKey
    {| State := None; Diags := [ErrorDiagnostic "Value Conversion Error" "plan" ] |}
    (scripted [HTTPResponse 200 "apikey"])
  = ({| State := None; Diags := [ErrorDiagnostic "Value Conversion Error" "plan"] |},
     scripted [HTTPResponse 200 "apikey"]).
Proof.
  exact (prior_error_stops_handler KAPIKey TCreate sampleClient storedKey storedKey
           {| State := None;
              Diags := [ErrorDiagnostic "Value Conversion Error" "plan"] |}
           (scripted [HTTPResponse 200 "apikey"]) eq_refl eq_refl).
Defined.

(** Each resource created and then refreshed from a remote that answers
    the read as it answered the create. *)
Lemma read_after_create_is_stable_run :
  (let w0 := scripted [HTTPResponse 200 "workspace"; HTTPResponse 200 "workspace"] in
   let created :=
     fst (WorkspaceResource.Create sampleClient {| CreatePlan := plannedWorkspace |}
            fresh w0) in
   exists m, State created = Some m
             /\ fst (WorkspaceResource.Read sampleClient {| ReadState := m |} created
                       (snd (WorkspaceResource.Create sampleClient
                               {| CreatePlan := plannedWorkspace |} fresh w0)))
                = created)
  /\
  (let w0 := scripted [HTTPResponse 200 "apikey"; HTTPResponse 200 "apikey"] in
   let created :=
     fst (APIKeyResource.Create sampleClient
            {| CreatePlan := plannedKeyIn StringNull |} fresh w0) in
   exists m, State created = Some m
             /\ fst (APIKeyResource.Read sampleClient {| ReadState := m |} created
                       (snd (APIKeyResource.Create sampleClient
                               {| CreatePlan := plannedKeyIn StringNull |} fresh w0)))
                = created)
  /\
  (let w0 := scripted [HTTPResponse 200 "member"; HTTPResponse 200 "member"] in
   let created :=
     fst (WorkspaceMemberResource.Create sampleClient
            {| CreatePlan := plannedMember |} fresh w0) in
   exists m, State created = Some m
             /\ fst (WorkspaceMemberResource.Read sampleClient {| ReadState := m |}
                       created
                       (snd (WorkspaceMemberResource.Create sampleClient
                               {| CreatePlan := plannedMember |} fresh w0)))
                = created)
  /\
  (let w0 := scripted [HTTPResponse 200 "invite"; HTTPResponse 200 "invite"] in
   let created :=
     fst (InviteResource.Create sampleClient {| CreatePlan := plannedInvite |}
            fresh w0) in
   exists m, State created = Some m
             /\ fst (InviteResource.Read sampleClient {| ReadState := m |} created
                       (snd (InviteResource.Create sampleClient
                               {| CreatePlan := plannedInvite |} fresh w0)))
                = created).
Proof.
  destruct (@read_after_create_is_stable ScriptedTransport sampleErrors
              sampleWorkspaces sampleKeys sampleMembers sampleInviteTable)
    as (Hws & Hkey & Hmember & Hinvite).
  split; [|split; [|split]]; cbv zeta.
  - edestruct (Hws sampleClient plannedWorkspace fresh
                 (scripted [HTTPResponse 200 "workspace"; HTTPResponse 200 "workspace"]))
      as (m & Hstate & Hread).
    + reflexivity.
    + vm_compute. reflexivity.
    + vm_compute. reflexivity.
    + exists m. split; [exact Hstate|]. exact (f_equal fst Hread).
  - edestruct (Hkey sampleClient (plannedKeyIn StringNull) fresh
                 (scripted [HTTPResponse 200 "apikey"; HTTPResponse 200 "apikey"]))
      as (m & Hstate & Hread).
    + reflexivity.
    + vm_compute. reflexivity.
    + vm_compute. reflexivity.
    + reflexivity.
    + reflexivity.
    + reflexivity.
    + reflexivity.
    + reflexivity.
    + exists m. split; [exact Hstate|]. exact (f_equal fst Hread).
  - edestruct (Hmember sampleClient plannedMember fresh
                 (scripted [HTTPResponse 200 "member"; HTTPResponse 200 "member"]))
      as (m & Hstate & Hread).
    + reflexivity.
    + vm_compute. reflexivity.
    + vm_compute. reflexivity.
    + reflexivity.
    + exists m. split; [exact Hstate|]. exact (f_equal fst Hread).
  - edestruct (Hinvite sampleClient plannedInvite fresh
                 (scripted [HTTPResponse 200 "invite"; HTTPResponse 200 "invite"]))
      as (m & Hstate & Hread).
    + reflexivity.
    + vm_compute. reflexivity.
    + vm_compute. reflexivity.
    + reflexivity.
    + reflexivity.
    + reflexivity.
    + reflexivity.
    + reflexivity.
    + exists m. split; [exact Hstate|]. exact (f_equal fst Hread).
Defined.

(** A key planned for a workspace, for none, and for a workspace that is
    not known yet. *)
Lemma api_key_create_body_run :
  trace (snd (APIKeyResource.Create sampleClient
                {| CreatePlan := plannedKeyIn (StringValue "wrkspc_abc123") |}
                fresh (scripted [HTTPResponse 200 "apikey"])))
  = [newRequest sampleClient "POST" "/v1/organizations/api_keys"
       (Some [("name", "ci"); ("workspace_id", "wrkspc_abc123")])]
  /\
  trace (snd (APIKeyResource.Create sampleClient
                {| CreatePlan := plannedKeyIn StringNull |}
                fresh (scripted [HTTPResponse 200 "apikey"])))
  = [newRequest sampleClient "POST" "/v1/organizations/api_keys"
       (Some [("name", "ci")])]
  /\
  trace (snd (APIKeyResource.Create sampleClient
                {| CreatePlan := plannedKeyIn StringUnknown |}
                fresh (scripted [HTTPResponse 200 "apikey"])))
  = [newRequest sampleClient "POST" "/v1/organizations/api_keys"
       (Some [("name", "ci")])].
Proof.
  split; [|split].
  - exact (proj1 (api_key_create_body sampleClient
                    {| CreatePlan := plannedKeyIn (StringValue "wrkspc_abc123") |}
                    fresh (scripted [HTTPResponse 200 "apikey"]) eq_refl) I).
  - exact (proj1 (api_key_create_body sampleClient
                    {| CreatePlan := plannedKeyIn StringNull |}
                    fresh (scripted [HTTPResponse 200 "apikey"]) eq_refl) I).
  - exact (proj1 (api_key_create_body sampleClient
                    {| CreatePlan := plannedKeyIn StringUnknown |}
                    fresh (scripted [HTTPResponse 200 "apikey"]) eq_refl) I).
Defined.

(** A create whose response carries no key and no workspace id. *)
Lemma api_key_create_state_run :
  exists (m : APIKeyResource.Model) (w' : World),
    APIKeyResource.Create sampleClient
      {| CreatePlan := plannedKeyIn (StringValue "wrkspc_abc123") |}
      fresh (scripted [HTTPResponse 200 "apikey"])
    = ({| State := Some m; Diags := [] |}, w')
    /\ APIKeyResource.ID m = StringValue "apikey_1"
    /\ APIKeyResource.Key m = StringNull
    /\ APIKeyResource.Key m <> StringValue ""
    /\ APIKeyResource.WorkspaceID m = StringValue "wrkspc_abc123".
Proof.
  edestruct (@api_key_create_state ScriptedTransport sampleErrors sampleKeys
               sampleClient
               {| CreatePlan := plannedKeyIn (StringValue "wrkspc_abc123") |}
               fresh (scripted [HTTPResponse 200 "apikey"]))
    with (key := sampleKey 1) as (m & Hrun & Hid & Hkey & Hnot & Hws).
  - reflexivity.
  - vm_compute. reflexivity.
  - exists m. eexists. split; [exact Hrun|].
    split; [exact Hid|]. split; [exact Hkey|]. split; [exact Hnot | exact Hws].
Defined.

(** Reads whose responses leave the optional field empty. *)
Lemma read_of_omitted_optionals_run :
  (exists m,
      State (fst (APIKeyResource.Read sampleClient
                    {| ReadState := storedKeyIn (StringValue "wrkspc_abc123") |}
                    (stored (storedKeyIn (StringValue "wrkspc_abc123")))
                    (scripted [HTTPResponse 200 "apikey"]))) = Some m
      /\ APIKeyResource.WorkspaceID m = StringValue "wrkspc_abc123")
  /\
  (exists m,
      State (fst (InviteResource.Read sampleClient {| ReadState := storedInvite |}
                    (stored storedInvite)
                    (scripted [HTTPResponse 200 "invite"]))) = Some m
      /\ InviteResource.InviterID m = StringValue "user_admin")
  /\
  (exists m,
      State (fst (WorkspaceResource.Read sampleClient
                    {| ReadState := archivedWorkspace |} (stored archivedWorkspace)
                    (scripted [HTTPResponse 200 "workspace"]))) = Some m
      /\ WorkspaceResource.ArchivedAt m = StringNull).
Proof.
  destruct (@read_of_omitted_optionals ScriptedTransport sampleErrors
              sampleWorkspaces sampleKeys sampleInviteTable)
    as (Hkey & Hinvite & Hws).
  split; [|split].
  - eapply Hkey with (key := sampleKey 1);
      [reflexivity | vm_compute; reflexivity | reflexivity].
  - eapply Hinvite with (invite := sampleInvite);
      [reflexivity | vm_compute; reflexivity | reflexivity].
  - eapply Hws with (ws := sampleWorkspace 1);
      [reflexivity | vm_compute; reflexivity | reflexivity].
Defined.

(** An update of the stored workspace and of the stored member. *)
Lemma update_bodies_run :
  trace (snd (WorkspaceResource.Update sampleClient
                {| UpdatePlan := storedWorkspace; UpdateState := storedWorkspace |}
                (stored storedWorkspace) (scripted [HTTPResponse 200 "workspace"])))
  = [newRequest sampleClient "POST" "/v1/organizations/workspaces/wrkspc_abc123"
       (Some [("name", "production")])]
  /\
  trace (snd (WorkspaceMemberResource.Update sampleClient
                {| UpdatePlan := storedMember; UpdateState := storedMember |}
                (stored storedMember) (scripted [HTTPResponse 200 "member"])))
  = [newRequest sampleClient "POST"
       "/v1/organizations/workspaces/wrkspc_abc123/members/user_xyz789"
       (Some [("workspace_role", "workspace_developer")])].
Proof.
  destruct (@update_bodies ScriptedTransport sampleErrors sampleWorkspaces
              sampleMembers) as (Hws & Hmember).
  split.
  - exact (proj1 (Hws sampleClient
                    {| UpdatePlan := storedWorkspace; UpdateState := storedWorkspace |}
                    (stored storedWorkspace) (scripted [HTTPResponse 200 "workspace"])
                    eq_refl) I).
  - exact (proj1 (Hmember sampleClient
                    {| UpdatePlan := storedMember; UpdateState := storedMember |}
                    (stored storedMember) (scripted [HTTPResponse 200 "member"])
                    eq_refl) I).
Defined.

(** The API key data source and the resource Read on a key of a workspace,
    answered without workspace id. *)
Lemma data_sources_read_like_resources_run :
  exists a b,
    State (fst (APIKeyDataSource.Read sampleClient
                  {| APIKeyDataSource.ID := StringValue "apikey_1";
                     APIKeyDataSource.Name := StringNull;
                     APIKeyDataSource.WorkspaceID := StringNull;
                     APIKeyDataSource.Status := StringNull;
                     APIKeyDataSource.Hint := StringNull;
                     APIKeyDataSource.CreatedAt := StringNull |}
                  fresh (scripted [HTTPResponse 200 "apikey"]))) = Some a
    /\ State (fst (APIKeyResource.Read sampleClient
                     {| ReadState := storedKeyIn (StringValue "wrkspc_abc123") |}
                     (stored (storedKeyIn (StringValue "wrkspc_abc123")))
                     (scripted [HTTPResponse 200 "apikey"]))) = Some b
    /\ APIKeyDataSource.Name a = APIKeyResource.Name b
    /\ APIKeyDataSource.WorkspaceID a = StringNull
    /\ APIKeyResource.WorkspaceID b = StringValue "wrkspc_abc123".
Proof.
  destruct (@data_sources_read_like_resources ScriptedTransport sampleErrors
              sampleWorkspaces sampleKeys) as (_ & Hkey).
  edestruct (Hkey sampleClient
               {| APIKeyDataSource.ID := StringValue "apikey_1";
                  APIKeyDataSource.Name := StringNull;
                  APIKeyDataSource.WorkspaceID := StringNull;
                  APIKeyDataSource.Status := StringNull;
                  APIKeyDataSource.Hint := StringNull;
                  APIKeyDataSource.CreatedAt := StringNull |}
               (storedKeyIn (StringValue "wrkspc_abc123"))
               fresh (stored (storedKeyIn (StringValue "wrkspc_abc123")))
               (scripted [HTTPResponse 200 "apikey"]))
    as (a & b & Ha & Hb & _ & Hname & _ & _ & _ & _ & Hnone).
  - reflexivity.
  - reflexivity.
  - reflexivity.
  - vm_compute. reflexivity.
  - exists a, b. rewrite Ha, Hb. cbn [fst State].
    destruct (Hnone eq_refl) as [Hnull Hkept].
    split; [reflexivity|]. split; [reflexivity|].
    split; [exact Hname|]. split; [exact Hnull | exact Hkept].
Defined.

(** A lookup of a workspace that the remote does not know. *)
Lemma data_source_failure_stores_nothing_run :
  fst (WorkspaceDataSource.Read sampleClient
         {| WorkspaceDataSource.ID := StringValue "wrkspc_gone";
            WorkspaceDataSource.Name := StringNull;
            WorkspaceDataSource.DisplayName := StringNull;
            WorkspaceDataSource.CreatedAt := StringNull;
            WorkspaceDataSource.ArchivedAt := StringNull |}
         fresh (scripted [HTTPResponse 404 "error-nested"]))
  = {| State := None;
       Diags := [ErrorDiagnostic "Client Error"
                   "Unable to read workspace: API error (status 404): t: m"] |}.
Proof.
  destruct (@data_source_failure_stores_nothing ScriptedTransport sampleErrors
              sampleWorkspaces sampleKeys) as (Hws & _).
  erewrite Hws; cycle 1.
  - reflexivity.
  - vm_compute. reflexivity.
  - reflexivity.
Defined.

(** An id with nothing before the '/' is accepted; one with no '/' is not. *)
Lemma import_accepts_iff_one_slash_run :
  HasError (Diags (WorkspaceMemberResource.ImportState
                     {| ImportID := "/user_xyz789" |} fresh)) = false
  /\ HasError (Diags (WorkspaceMemberResource.ImportState
                        {| ImportID := "wrkspc_abc123" |} fresh)) = true.
Proof.
  split.
  - apply (proj1 (import_accepts_iff_one_slash "/user_xyz789"
                    (@fresh WorkspaceMemberResource.Model) eq_refl)).
    reflexivity.
  - destruct (HasError (Diags (WorkspaceMemberResource.ImportState
                                 {| ImportID := "wrkspc_abc123" |} fresh))) eqn:E;
      [reflexivity|].
    apply (proj1 (import_accepts_iff_one_slash "wrkspc_abc123"
                    (@fresh WorkspaceMemberResource.Model) eq_refl)) in E.
    discriminate E.
Defined.

(** An empty admin_key in the configuration with the variable set, and an
    empty base_url in the configuration with the variable set. *)
Lemma configuration_hides_environment_run :
  AnthropicProvider.ConfigureDiags
    (AnthropicProvider.Configure
       (environmentWith "ANTHROPIC_ADMIN_KEY" "sk-ant-admin-env")
       {| AnthropicProvider.ConfigAdminKey := StringValue "";
          AnthropicProvider.ConfigBaseURL := StringNull |}
       {| AnthropicProvider.DataSourceData := None;
          AnthropicProvider.ResourceData := None;
          AnthropicProvider.ConfigureDiags := [] |})
  = [ErrorDiagnostic "Missing Admin Key"
       "The admin_key must be set in the provider configuration or via the ANTHROPIC_ADMIN_KEY environment variable."]
  /\
  AnthropicProvider.ResourceData
    (AnthropicProvider.Configure
       (environmentWith "ANTHROPIC_BASE_URL" "http://localhost:8080")
       {| AnthropicProvider.ConfigAdminKey := StringValue "sk-ant-admin-1";
          AnthropicProvider.ConfigBaseURL := StringValue "" |}
       {| AnthropicProvider.DataSourceData := None;
          AnthropicProvider.ResourceData := None;
          AnthropicProvider.ConfigureDiags := [] |})
  = Some (NewClient "sk-ant-admin-1").
Proof.
  split.
  - destruct (configuration_hides_environment
                (environmentWith "ANTHROPIC_ADMIN_KEY" "sk-ant-admin-env")
                {| AnthropicProvider.ConfigAdminKey := StringValue "";
                   AnthropicProvider.ConfigBaseURL := StringNull |}
                {| AnthropicProvider.DataSourceData := None;
                   AnthropicProvider.ResourceData := None;
                   AnthropicProvider.ConfigureDiags := [] |} eq_refl)
      as (Hkey & _).
    destruct (Hkey eq_refl eq_refl) as (_ & _ & Hdiags). exact Hdiags.
  - destruct (configuration_hides_environment
                (environmentWith "ANTHROPIC_BASE_URL" "http://localhost:8080")
                {| AnthropicProvider.ConfigAdminKey := StringValue "sk-ant-admin-1";
                   AnthropicProvider.ConfigBaseURL := StringValue "" |}
                {| AnthropicProvider.DataSourceData := None;
                   AnthropicProvider.ResourceData := None;
                   AnthropicProvider.ConfigureDiags := [] |} eq_refl)
      as (_ & Hurl).
    destruct (Hurl eq_refl ltac:(discriminate) eq_refl eq_refl) as (Hclient & _).
    exact Hclient.
Defined.

(** Two pages served and the third request refused with a 500: three
    requests, one error, no state. *)
Lemma drain_failure_stores_nothing_run :
  exists e,
    APIKeysDataSource.Read 3 sampleClient noFilter fresh
      (scripted [HTTPResponse 200 "page-1"; HTTPResponse 200 "page-2";
                 HTTPResponse 500 "overloaded"])
    = (Some {| State := None;
               Diags := [ErrorDiagnostic "Client Error"
                           ("Unable to list API keys: " ++ e)] |},
       {| remote := [];
          trace := map (apiKeysPageRequest sampleClient noFilter)
                       [""; "apikey_100"; "apikey_200"] |}).
Proof.
  destruct (@drain_failure_stores_nothing ScriptedTransport sampleErrors
              sampleWorkspacePages sampleKeyPages) as (_ & Hkeys).
  eapply (Hkeys sampleClient noFilter fresh
            (scripted [HTTPResponse 200 "page-1"; HTTPResponse 200 "page-2";
                       HTTPResponse 500 "overloaded"])
            [keyPage1; keyPage2]
            [HTTPResponse 200 "page-1"; HTTPResponse 200 "page-2"]
            (HTTPResponse 500 "overloaded") (@nil HTTPResult)).
  - reflexivity.
  - repeat constructor.
  - vm_compute. reflexivity.
  - repeat constructor.
    + exists 200%Z, "page-1".
      split; [reflexivity|]. split; [lia|]. split; [discriminate|].
      vm_compute. reflexivity.
    + exists 200%Z, "page-2".
      split; [reflexivity|]. split; [lia|]. split; [discriminate|].
      vm_compute. reflexivity.
  - cbn. lia.
  - cbn. lia.
Defined.

End MoreRuns.

(** Against a remote that always answers with the first sample page, which
    reports more data, ten rounds leave the loop running after ten
    requests. *)
Lemma drain_has_no_page_bound_run :
  fst (@APIKeysDataSource.Read (RepeatingTransport (HTTPResponse 200 "page-1"))
         sampleErrors sampleKeyPages 10 sampleClient noFilter fresh
         (@Build_World (RepeatingTransport (HTTPResponse 200 "page-1")) tt []))
  = None
  /\ List.length
       (trace (snd (@APIKeysDataSource.Read
                      (RepeatingTransport (HTTPResponse 200 "page-1"))
                      sampleErrors sampleKeyPages 10 sampleClient noFilter fresh
                      (@Build_World (RepeatingTransport (HTTPResponse 200 "page-1"))
                         tt []))))
     = 10.
Proof.
  destruct (@drain_has_no_page_bound
              (RepeatingTransport (HTTPResponse 200 "page-1"))
              sampleErrors sampleWorkspacePages sampleKeyPages
              (fun _ => True)) with
    (fuel := 10) (d := sampleClient)
    (w := @Build_World (RepeatingTransport (HTTPResponse 200 "page-1")) tt [])
    as (_ & Hkeys).
  - intros r q _. split; [|split; [|exact I]].
    + exists workspacePage1. split; [|reflexivity].
      exists 200%Z, "page-1".
      split; [reflexivity|]. split; [lia|]. split; [discriminate|].
      vm_compute. reflexivity.
    + exists keyPage1. split; [|reflexivity].
      exists 200%Z, "page-1".
      split; [reflexivity|]. split; [lia|]. split; [discriminate|].
      vm_compute. reflexivity.
  - exact I.
  - exact (Hkeys noFilter fresh eq_refl).
Defined.
